(** * MosesFitness: the plan-generation paths of [app.py]

    A shallow embedding of the Streamlit script [src/app.py]: one script
    run is a computation over the session state, the store of day
    dictionaries of the current meal plan, and a log of the calls made to
    the collaborators the script imports ([utils.meal_planning],
    [utils.meal_customization], [utils.workout_planner],
    [utils.db_operations], ...).

    Python numbers are idealised as rationals ([Q]); Python dictionaries
    whose iteration order is observed are association lists in insertion
    order; the day dictionaries of the meal plan, which the script updates
    in place, live in a store and the plan maps each day to a location. *)

From Stdlib Require Import QArith Qabs.
From stdpp Require Import base option list strings gmap.

Local Open Scope string_scope.
Local Open Scope list_scope.

(** ** Python dictionaries in insertion order *)

Section Dict.
Context {V : Type}.

(** [d[k]]: the value bound to the key, if any. *)
Fixpoint dict_get (k : string) (d : list (string * V)) : option V :=
  match d with
  | [] => None
  | (k', v) :: d' => if decide (k' = k) then Some v else dict_get k d'
  end.

(** [d[k] = v]: an existing key keeps its position, a new key is
    appended. *)
Fixpoint dict_set (k : string) (v : V) (d : list (string * V)) : list (string * V) :=
  match d with
  | [] => [(k, v)]
  | (k', v') :: d' =>
      if decide (k' = k) then (k, v) :: d' else (k', v') :: dict_set k v d'
  end.
End Dict.

(** ** Data *)

(** A meal dictionary of the content library. The script reads [name],
    [calories], [protein] and [link]; the tags are the ones of the
    specification's [MealItem]. *)
Record Meal := {
  name : string;
  meal_type : string;
  calories : Q;
  protein : Q;
  cuisine_tags : list string;
  dietary_tags : list string;
  link : option string
}.

(** A day of the plan: meal slot -> meal, and a plan as a value. *)
Abbreviation DayMeals := (list (string * Meal)).
Abbreviation MealPlanV := (list (string * list (string * Meal))).

Definition loc := nat.

(** [st.session_state.user_profile]. *)
Record Profile := {
  p_weight : Q;
  p_height : Q;
  p_age : Z;
  p_gender : string;
  p_activity_level : string;
  p_goal : string;
  p_dietary_restrictions : list string;
  p_cuisine_preferences : list string
}.

(** [st.session_state.nutritional_targets]. *)
Record Targets := {
  t_calories : Q;
  t_protein : Q;
  t_bmr : Q
}.

(** Modelled from the spec: the [ExerciseEntry] of section 3, a row of
    the exercise library, whose module ([utils/workout_planner.py]) is
    absent. *)
Record ExerciseEntry := {
  ex_name : string;
  muscle_group : string;
  subgroup : string;
  required_fitness_level : string;
  equipment_tier : string
}.

(** A day of a workout schedule, with the keys [display_workout_schedule]
    reads (lines 346-351). *)
Record WorkoutDay := {
  focus : string;
  duration_minutes : nat;
  exercises : list ExerciseEntry
}.

(** Modelled from the spec: the [WorkoutSchedule] the generator returns
    (3, 4.4): the days, and the report of the muscle groups whose
    exercises had to be repeated; [utils/workout_planner.py] is absent. *)
Record WorkoutSchedule := {
  schedule : list (string * WorkoutDay);
  recycled : list string
}.

(** The saved preferences of a workout schedule. *)
Record Preferences := {
  pref_fitness_level : string;
  pref_goals : list string;
  pref_equipment : list string;
  pref_time_per_session : Z;
  pref_muscle_groups : option (list (string * list string))
}.

(** [st.session_state], with the keys the script initialises at lines
    23-36. *)
Record Session := {
  user_id : option nat;
  username : option string;
  is_authenticated : bool;
  current_schedule : option WorkoutSchedule;
  user_profile : option Profile;
  current_meal_plan : option (list (string * loc));
  nutritional_targets : option Targets
}.

#[global] Instance ExerciseEntry_eq_dec : EqDecision ExerciseEntry.
Proof. solve_decision. Defined.

(** ** Script runs

    The log records, in order, the calls a run makes to the imported
    collaborators and the messages it shows. *)

Inductive Event :=
| StError (msg : string)
| StWarning (msg : string)
| StSuccess (msg : string)
| Call_calculate_bmr (weight height : Q) (age : Z) (gender : string)
| Call_calculate_tdee (bmr factor : Q)
| Call_calculate_protein_needs (weight : Q) (goal : string)
| Call_generate_meal_plan (cal prot : Q) (diet cuisine : list string)
| Call_get_alternative_meals (meal_type : string) (target_calories target_protein : Q)
    (diet cuisine : list string) (current_meal_name : string)
| Call_validate_meal_plan (plan : MealPlanV)
| Call_save_meal_plan (uid : nat) (plan : MealPlanV) (cal prot : Q)
| Call_get_db
| Call_db_close
| Call_get_current_user
| Call_validate_exercise_library
| Call_generate_workout_plan (fitness_level : string) (goals available_days equipment : list string)
    (time_per_session : Z) (muscle_groups : list (string * list string))
| Call_save_workout_schedule (uid : option nat) (s : WorkoutSchedule) (prefs : Preferences)
| Call_get_latest_workout_schedule (uid : option nat).

Record World := {
  session : Session;
  heap : gmap loc DayMeals;
  clock : nat;
  log : list Event
}.

(** How a piece of the script ends: with a value, with a Python
    [Exception], or with Streamlit's rerun request, which is not an
    [Exception] and so passes through [except Exception]. *)
Inductive Result (A : Type) :=
| Val (a : A)
| Exc (msg : string)
| Rerun.
Arguments Val {A} a.
Arguments Exc {A} msg.
Arguments Rerun {A}.

Definition M (A : Type) : Type := World -> Result A * World.

Definition ret {A} (a : A) : M A := fun w => (Val a, w).

Definition bind {A B} (m : M A) (k : A -> M B) : M B :=
  fun w =>
    match m w with
    | (Val a, w') => k a w'
    | (Exc e, w') => (Exc e, w')
    | (Rerun, w') => (Rerun, w')
    end.

Declare Scope script_scope.
Delimit Scope script_scope with script.
Notation "x <- m ;; k" := (bind m (fun x => k))
  (at level 100, m at next level, right associativity) : script_scope.
Notation "m ;;; k" := (bind m (fun _ => k))
  (at level 100, right associativity) : script_scope.
Local Open Scope script_scope.

Definition raise {A} (msg : string) : M A := fun w => (Exc msg, w).

(** [st.rerun()]. *)
Definition st_rerun {A} : M A := fun w => (Rerun, w).

(** [try: m  except Exception as e: h e]. *)
Definition try_except {A} (m : M A) (h : string -> M A) : M A :=
  fun w =>
    match m w with
    | (Exc e, w') => h e w'
    | r => r
    end.

(** [try: m  finally: fin]. *)
Definition try_finally {A} (m : M A) (fin : M unit) : M A :=
  fun w =>
    match m w with
    | (r, w') =>
        match fin w' with
        | (Val _, w'') => (r, w'')
        | (Exc e, w'') => (Exc e, w'')
        | (Rerun, w'') => (Rerun, w'')
        end
    end.

(** [for x in l: body x]. *)
Fixpoint for_each {A} (l : list A) (body : A -> M unit) : M unit :=
  match l with
  | [] => ret tt
  | x :: l' => body x ;;; for_each l' body
  end.

(** The world after one more event. *)
Definition record (e : Event) (w : World) : World :=
  {| session := session w; heap := heap w; clock := clock w; log := log w ++ [e] |}.

Definition emit (e : Event) : M unit := fun w => (Val tt, record e w).

Definition get_session : M Session := fun w => (Val (session w), w).

Definition put_session (s : Session) : M unit :=
  fun w => (Val tt, {| session := s; heap := heap w; clock := clock w; log := log w |}).

Definition get_heap : M (gmap loc DayMeals) := fun w => (Val (heap w), w).

Definition put_heap (h : gmap loc DayMeals) : M unit :=
  fun w => (Val tt, {| session := session w; heap := h; clock := clock w; log := log w |}).

(** What a collaborator does when called: it returns or it raises. *)
Inductive Outcome (A : Type) :=
| Returns (a : A)
| Raises (msg : string).
Arguments Returns {A} a.
Arguments Raises {A} msg.

(** A call to a collaborator: logged, then its outcome. *)
Definition call {A} (e : Event) (o : Outcome A) : M A :=
  emit e ;;;
  match o with
  | Returns a => ret a
  | Raises msg => raise msg
  end.

(** Subscripting [None] or a missing key raises. *)
Definition subscript {A} (what : string) (o : option A) : M A :=
  match o with
  | Some a => ret a
  | None => raise what
  end.

(** ** The meal plan in the store *)

(** The day dictionary a day of the plan refers to. *)
Definition day_meals (h : gmap loc DayMeals) (plan : list (string * loc)) (day : string)
  : option DayMeals :=
  l ← dict_get day plan; h !! l.

(** [plan[day][slot]]. *)
Definition plan_entry (h : gmap loc DayMeals) (plan : list (string * loc))
    (day slot : string) : option Meal :=
  meals ← day_meals h plan day; dict_get slot meals.

(** The plan read out of the store as a value (a day whose dictionary is
    missing from the store reads as empty). *)
Definition plan_value (h : gmap loc DayMeals) (plan : list (string * loc)) : MealPlanV :=
  map (fun dl : string * loc => (dl.1, default [] (h !! dl.2))) plan.

(** Python truth of [st.session_state.current_meal_plan]: neither [None]
    nor an empty dictionary. *)
Definition plan_truthy {A} (p : option (list A)) : bool :=
  match p with
  | Some (_ :: _) => true
  | _ => false
  end.

(** Storing a plan value: each day's dictionary is an object of its own. *)
Fixpoint alloc_plan (h : gmap loc DayMeals) (p : MealPlanV)
  : gmap loc DayMeals * list (string * loc) :=
  match p with
  | [] => (h, [])
  | (day, meals) :: p' =>
      let l := fresh (dom h) in
      let '(h', refs) := alloc_plan (<[l := meals]> h) p' in
      (h', (day, l) :: refs)
  end.

(** ** Collaborators and widgets *)

Inductive Db : Set := DbSession.

Record User := { id : nat }.

(** [exercise_library]: muscle group -> subgroup -> fitness level ->
    equipment -> exercise names. *)
Abbreviation ExerciseLibrary :=
  (list (string * list (string * list (string * list (string * list string))))).

(** The functions and data [app.py] imports. A call returns or raises;
    its outcome is a function of its arguments. *)
Record Collaborators := {
  calculate_bmr : Q -> Q -> Z -> string -> Outcome Q;
  calculate_tdee : Q -> Q -> Outcome Q;
  calculate_protein_needs : Q -> string -> Outcome Q;
  generate_meal_plan : Q -> Q -> list string -> list string -> Outcome (option MealPlanV);
  get_alternative_meals :
    string -> Q -> Q -> list string -> list string -> string -> Outcome (list Meal);
  save_meal_plan : nat -> MealPlanV -> Q -> Q -> Outcome bool;
  get_db : Outcome Db;
  db_close : Outcome unit;
  get_current_user : Outcome (option User);
  exercise_library : ExerciseLibrary;
  generate_workout_plan :
    string -> list string -> list string -> list string -> Z ->
    list (string * list string) -> ExerciseLibrary -> Outcome (option WorkoutSchedule);
  save_workout_schedule : option nat -> WorkoutSchedule -> Preferences -> Outcome bool;
  get_latest_workout_schedule : option nat -> Outcome (option WorkoutSchedule)
}.

(** What the user's browser supplies to one script run: the widget values
    and, per button or checkbox key (the label where no key is given),
    whether it reads [True]; [ui_time n] is the [n]-th reading of
    [int(time.time())] as it prints. *)
Record UI := {
  ui_button : string -> bool;
  ui_checkbox : string -> bool;
  ui_time : nat -> string;
  ui_weight : Q;
  ui_height : Q;
  ui_age : Z;
  ui_gender : string;
  ui_activity : string;
  ui_goal : string;
  ui_dietary_restrictions : list string;
  ui_cuisine_preferences : list string;
  ui_fitness_level : string;
  ui_goals : list string;
  ui_equipment : list string;
  ui_time_per_session : Z;
  ui_muscle_groups : string -> list string
}.

Definition set_current_meal_plan (p : option (list (string * loc))) (s : Session) : Session :=
  {| user_id := user_id s; username := username s; is_authenticated := is_authenticated s;
     current_schedule := current_schedule s; user_profile := user_profile s;
     current_meal_plan := p; nutritional_targets := nutritional_targets s |}.

Definition set_current_schedule (c : option WorkoutSchedule) (s : Session) : Session :=
  {| user_id := user_id s; username := username s; is_authenticated := is_authenticated s;
     current_schedule := c; user_profile := user_profile s;
     current_meal_plan := current_meal_plan s; nutritional_targets := nutritional_targets s |}.

Definition set_profile_and_targets (p : Profile) (t : Targets) (s : Session) : Session :=
  {| user_id := user_id s; username := username s; is_authenticated := is_authenticated s;
     current_schedule := current_schedule s; user_profile := Some p;
     current_meal_plan := current_meal_plan s; nutritional_targets := Some t |}.

(** [st.session_state.clear()] followed by the initialisation at the top of
    the script. *)
Definition cleared_session : Session :=
  {| user_id := None; username := None; is_authenticated := false;
     current_schedule := None; user_profile := None;
     current_meal_plan := None; nutritional_targets := None |}.

(** [time.time()]. *)
Definition read_clock (ui : UI) : M string :=
  fun w => (Val (ui_time ui (clock w)),
            {| session := session w; heap := heap w; clock := S (clock w); log := log w |}).

(** The widget keys of [display_meal_plan], lines 192 and 207. *)
Definition btn_key (timestamp day mt : string) : string :=
  "btn_" +:+ timestamp +:+ "_" +:+ day +:+ "_" +:+ mt.

Definition select_key (timestamp day mt alt_name : string) : string :=
  "select_" +:+ timestamp +:+ "_" +:+ day +:+ "_" +:+ mt +:+ "_" +:+ alt_name.

(** ** The script *)

Section App.
Variable env : Collaborators.
Variable ui : UI.

(** [st.session_state.current_meal_plan[day][meal_type] = alt]. *)
Definition assign_meal (day slot : string) (alt : Meal) : M unit :=
  s <- get_session ;;
  plan <- subscript "TypeError" (current_meal_plan s) ;;
  l <- subscript "KeyError" (dict_get day plan) ;;
  h <- get_heap ;;
  meals <- subscript "KeyError" (h !! l) ;;
  put_heap (<[l := dict_set slot alt meals]> h).

(** The body of [if st.button("Show alternatives ...")], lines 194-213. *)
Definition show_alternatives (ts day mt : string) (meal : Meal) : M unit :=
  s <- get_session ;;
  targets <- subscript "TypeError" (nutritional_targets s) ;;
  profile <- subscript "TypeError" (user_profile s) ;;
  let target_calories := (t_calories targets / 3)%Q in
  let target_protein := (t_protein targets / 3)%Q in
  alternatives <-
    call (Call_get_alternative_meals mt target_calories target_protein
            (p_dietary_restrictions profile) (p_cuisine_preferences profile) (name meal))
         (get_alternative_meals env mt target_calories target_protein
            (p_dietary_restrictions profile) (p_cuisine_preferences profile) (name meal)) ;;
  match alternatives with
  | _ :: _ =>
      for_each alternatives (fun alt =>
        if ui_button ui (select_key ts day mt (name alt)) then
          assign_meal day mt alt ;;;
          emit (StSuccess ("Updated meal to " +:+ name alt)) ;;;
          st_rerun
        else ret tt)
  | [] => emit (StWarning "No alternative meals found matching your criteria")
  end.

(** [display_meal_plan], lines 169-213. *)
Definition display_meal_plan : M unit :=
  s <- get_session ;;
  if negb (plan_truthy (current_meal_plan s)) then ret tt
  else
    ts <- read_clock ui ;;
    for_each (default [] (current_meal_plan s)) (fun '(day, l) =>
      h <- get_heap ;;
      meals <- subscript "KeyError" (h !! l) ;;
      for_each meals (fun '(mt, meal) =>
        if ui_button ui (btn_key ts day mt) then show_alternatives ts day mt meal
        else ret tt)).

Definition activity_levels : list (string * Q) :=
  [ ("Sedentary (office job, little exercise)", 1.2%Q);
    ("Light Exercise (1-2 days/week)", 1.375%Q);
    ("Moderate Exercise (3-5 days/week)", 1.55%Q);
    ("Heavy Exercise (6-7 days/week)", 1.725%Q);
    ("Athlete (2x training/day)", 1.9%Q) ].

(** [st.session_state.current_meal_plan = meal_plan]. *)
Definition store_meal_plan (p : MealPlanV) : M unit :=
  h <- get_heap ;;
  let '(h', refs) := alloc_plan h p in
  put_heap h' ;;;
  s <- get_session ;;
  put_session (set_current_meal_plan (Some refs) s).

(** Lines 302-317 of [calculate_nutrition]: a meal plan is generated
    only when the session holds none; then the plan is displayed. *)
Definition generate_if_missing (target_calories protein_needs : Q) : M unit :=
  s <- get_session ;;
  if negb (plan_truthy (current_meal_plan s)) then
    meal_plan <-
      call (Call_generate_meal_plan target_calories protein_needs
              (ui_dietary_restrictions ui) (ui_cuisine_preferences ui))
           (generate_meal_plan env target_calories protein_needs
              (ui_dietary_restrictions ui) (ui_cuisine_preferences ui)) ;;
    if plan_truthy meal_plan then
      store_meal_plan (default [] meal_plan) ;;;
      display_meal_plan
    else
      emit (StError "Failed to generate meal plan. Please try again.")
  else display_meal_plan.

(** The profile and the targets [calculate_nutrition] stores, lines
    275-290. *)
Definition entered_profile : Profile :=
  {| p_weight := ui_weight ui; p_height := ui_height ui; p_age := ui_age ui;
     p_gender := ui_gender ui; p_activity_level := ui_activity ui;
     p_goal := ui_goal ui;
     p_dietary_restrictions := ui_dietary_restrictions ui;
     p_cuisine_preferences := ui_cuisine_preferences ui |}.

(** [calculate_nutrition], lines 216-320. *)
Definition calculate_nutrition : M unit :=
  if ui_button ui "Calculate My Needs" then
    try_except
      (bmr <- call (Call_calculate_bmr (ui_weight ui) (ui_height ui) (ui_age ui) (ui_gender ui))
                (calculate_bmr env (ui_weight ui) (ui_height ui) (ui_age ui) (ui_gender ui)) ;;
       activity_factor <- subscript "KeyError" (dict_get (ui_activity ui) activity_levels) ;;
       tdee <- call (Call_calculate_tdee bmr activity_factor)
                 (calculate_tdee env bmr activity_factor) ;;
       let target_calories :=
         if decide (ui_goal ui = "Lose Weight") then (tdee - 500)%Q
         else if decide (ui_goal ui = "Gain Muscle") then (tdee + 300)%Q
         else tdee in
       protein_needs <- call (Call_calculate_protein_needs (ui_weight ui) (ui_goal ui))
                          (calculate_protein_needs env (ui_weight ui) (ui_goal ui)) ;;
       s <- get_session ;;
       put_session
         (set_profile_and_targets entered_profile
            {| t_calories := target_calories; t_protein := protein_needs; t_bmr := bmr |}
            s) ;;;
       generate_if_missing target_calories protein_needs)
      (fun e => emit (StError ("An error occurred: " +:+ e)))
  else ret tt.

(** [validate_exercise_library], lines 435-440. *)
Definition validate_exercise_library (lib : ExerciseLibrary) : bool := true.

(** [get_database], lines 132-140. *)
Definition get_database : M (option Db) :=
  try_except
    (db <- call Call_get_db (get_db env) ;; ret (Some db))
    (fun e =>
       emit (StError ("Database connection error: " +:+ e)) ;;;
       emit (StError "Please try again in a few moments.") ;;;
       ret None).

(** [generate_new_workout], lines 360-433. The value is what the
    function returns: the schedule or [None]. *)
Definition generate_new_workout (db : Db) (fitness_level : string)
    (goals available_days equipment : list string) (time_per_session : Z)
    (muscle_groups : list (string * list string)) : M (option WorkoutSchedule) :=
  try_except
    (match available_days with
     | [] =>
         emit (StError "Please select at least one day for your workout") ;;;
         ret None
     | _ :: _ =>
         match muscle_groups with
         | [] =>
             emit (StError "Please select muscle groups for your workout days") ;;;
             ret None
         | _ :: _ =>
             s <- get_session ;;
             put_session (set_current_schedule None s) ;;;
             emit Call_validate_exercise_library ;;;
             if negb (validate_exercise_library (exercise_library env)) then
               emit (StError "Error with exercise data. Please try again.") ;;;
               ret None
             else
               schedule <-
                 call (Call_generate_workout_plan fitness_level goals available_days
                         equipment time_per_session muscle_groups)
                      (generate_workout_plan env fitness_level goals available_days
                         equipment time_per_session muscle_groups (exercise_library env)) ;;
               match schedule with
               | None =>
                   emit (StError
                     "Could not generate workout schedule. Please try different selections.") ;;;
                   ret None
               | Some sched =>
                   let preferences :=
                     {| pref_fitness_level := fitness_level; pref_goals := goals;
                        pref_equipment := equipment;
                        pref_time_per_session := time_per_session;
                        pref_muscle_groups := Some muscle_groups |} in
                   s <- get_session ;;
                   saved <- call (Call_save_workout_schedule (user_id s) sched preferences)
                              (save_workout_schedule env (user_id s) sched preferences) ;;
                   if saved : bool then
                     s <- get_session ;;
                     put_session (set_current_schedule (Some sched) s) ;;;
                     emit (StSuccess "New workout plan generated successfully!") ;;;
                     st_rerun
                   else
                     emit (StError "Failed to save workout schedule") ;;;
                     ret None
               end
         end
     end)
    (fun e =>
       emit (StError "An error occurred while generating your workout") ;;;
       ret None).

Definition days : list string :=
  ["Monday"; "Tuesday"; "Wednesday"; "Thursday"; "Friday"; "Saturday"; "Sunday"].

(** The day checkboxes, lines 546-557. *)
Definition available_days : list string :=
  filter (fun day => ui_checkbox ui ("day_" +:+ day) = true) (take 4 days)
  ++ filter (fun day => ui_checkbox ui ("day_" +:+ day) = true) (drop 4 days).

(** The muscle-group selection, lines 574-588: one multiselect per
    available day. *)
Definition muscle_groups : list (string * list string) :=
  foldl (fun d day => dict_set day (ui_muscle_groups ui ("muscle_groups_" +:+ day)) d)
        [] available_days.

(** [any(muscles for muscles in muscle_groups.values())]. *)
Definition any_muscles (mg : list (string * list string)) : bool :=
  existsb (fun dm : string * list string => match dm.2 with [] => false | _ => true end) mg.

(** The "Generate Workout Plan" button of the workout tab, lines
    590-628. *)
Definition generate_workout_button : M unit :=
  if ui_button ui "Generate Workout Plan" then
    match available_days with
    | [] => emit (StError "Please select at least one workout day")
    | _ :: _ =>
        if negb (any_muscles muscle_groups) then
          emit (StError "Please select at least one muscle group")
        else
          db <- get_database ;;
          match db with
          | None => ret tt
          | Some db =>
              try_finally
                (try_except
                   (new_schedule <-
                      generate_new_workout db (ui_fitness_level ui) (ui_goals ui)
                        available_days (ui_equipment ui) (ui_time_per_session ui)
                        muscle_groups ;;
                    match new_schedule with
                    | Some sched =>
                        let preferences :=
                          {| pref_fitness_level := ui_fitness_level ui;
                             pref_goals := ui_goals ui;
                             pref_equipment := ui_equipment ui;
                             pref_time_per_session := ui_time_per_session ui;
                             pref_muscle_groups := None |} in
                        s <- get_session ;;
                        saved <- call (Call_save_workout_schedule (user_id s) sched preferences)
                                   (save_workout_schedule env (user_id s) sched preferences) ;;
                        if saved : bool then
                          s <- get_session ;;
                          put_session (set_current_schedule (Some sched) s) ;;;
                          emit (StSuccess "New workout plan generated successfully!") ;;;
                          st_rerun
                        else ret tt
                    | None =>
                        emit (StError
                          "Could not generate workout plan. Please try different selections.")
                    end)
                   (fun e => emit (StError ("Error generating workout: " +:+ e))))
                (call Call_db_close (db_close env))
          end
    end
  else ret tt.

(** The "Current Workout Plan" column, lines 630-638 (what
    [display_workout_schedule] writes is not recorded). *)
Definition current_workout_column : M unit :=
  db <- get_database ;;
  match db with
  | None => ret tt
  | Some db =>
      try_finally
        (s <- get_session ;;
         _ <- call (Call_get_latest_workout_schedule (user_id s))
                (get_latest_workout_schedule env (user_id s)) ;;
         ret tt)
        (call Call_db_close (db_close env))
  end.

(** The "Save Current Meal Plan" button, lines 645-663. *)
Definition save_meal_plan_button : M unit :=
  if ui_button ui "Save Current Meal Plan" then
    db <- get_database ;;
    match db with
    | None => ret tt
    | Some db =>
        try_finally
          (try_except
             (user <- call Call_get_current_user (get_current_user env) ;;
              match user with
              | None => ret tt
              | Some user =>
                  s <- get_session ;;
                  h <- get_heap ;;
                  let meal_plan := plan_value h (default [] (current_meal_plan s)) in
                  targets <- subscript "TypeError" (nutritional_targets s) ;;
                  meal_plan_result <-
                    call (Call_save_meal_plan (id user) meal_plan
                            (t_calories targets) (t_protein targets))
                         (save_meal_plan env (id user) meal_plan
                            (t_calories targets) (t_protein targets)) ;;
                  if meal_plan_result : bool then
                    emit (StSuccess "Meal plan saved successfully!")
                  else ret tt
              end)
             (fun e => emit (StError ("Error saving meal plan: " +:+ e))))
          (call Call_db_close (db_close env))
    end
  else ret tt.

(** The nutrition tab, lines 640-663. *)
Definition nutrition_tab : M unit :=
  calculate_nutrition ;;;
  s <- get_session ;;
  if plan_truthy (current_meal_plan s) then
    display_meal_plan ;;;
    save_meal_plan_button
  else ret tt.

(** [main], lines 443-663, for an authenticated session: the logout
    button, the workout tab and the nutrition tab. The login forms and
    the tabs that neither generate nor store a plan (library, progress,
    history, recovery) are left out. *)
Definition main : M unit :=
  s <- get_session ;;
  if negb (is_authenticated s) then ret tt
  else
    (if ui_button ui "Logout" then put_session cleared_session ;;; st_rerun
     else ret tt) ;;;
    generate_workout_button ;;;
    current_workout_column ;;;
    nutrition_tab.
End App.

(** A run of a piece of the script from a world: how it ends and the
    world it leaves. *)
Definition run {A} (m : M A) (w : World) : Result A * World := m w.

(** The events a run appends to the log. *)
Definition new_events (w w' : World) : list Event := drop (length (log w)) (log w').


(** * The plan-generation engine

    [utils/meal_planning.py], [utils/meal_customization.py] and
    [utils/workout_planner.py] are not among the sources: the engine the
    script calls is modelled from the specification (sections 4.1 to
    4.5). *)

Module Engine.

(** Modelled from the spec: the two failures of section 7 that a
    generator reports, [utils/meal_planning.py] and
    [utils/workout_planner.py] being absent. *)
Inductive Failure :=
| ConstraintUnsatisfiable (day slot : string)
| InvalidInput (what : string).

(** ** Constraint Matcher (4.1) *)

Section Ranking.
Context {A : Type}.
(** The numeric score of a candidate: lower is better. *)
Variable key : A -> Q.

(** Modelled from the spec: "lower is better; ties broken by candidate
    insertion order" (4.1), as a stable insertion of one candidate into a
    ranked sequence; the matcher's module is absent. *)
Fixpoint insert_ranked (x : A) (l : list A) : list A :=
  match l with
  | [] => [x]
  | y :: l' =>
      if Qle_bool (key x) (key y) then x :: y :: l' else y :: insert_ranked x l'
  end.

(** Modelled from the spec: the ranked sequence of a pool (4.1), the
    matcher's module being absent. *)
Definition rank (pool : list A) : list A := foldr insert_ranked [] pool.

(** Modelled from the spec: what "top-ranked" means in 4.1, the matcher's
    module being absent: no candidate scores lower, and every candidate
    inserted earlier scores strictly higher. *)
Definition top_ranked (pool : list A) (x : A) : Prop :=
  exists i,
    pool !! i = Some x /\
    (forall j y, pool !! j = Some y -> (key x <= key y)%Q) /\
    (forall j y, (j < i)%nat -> pool !! j = Some y -> (key x < key y)%Q).

(** Modelled from the spec: a second way to take the top-ranked
    candidate of 4.1, in one pass over the pool: the best so far gives way
    only to a strictly lower score; the matcher's module is absent. *)
Fixpoint scan_best (best : A) (l : list A) : A :=
  match l with
  | [] => best
  | x :: l' => scan_best (if Qle_bool (key best) (key x) then best else x) l'
  end.

(** Modelled from the spec: the one-pass selection on a pool, "no match"
    on an empty pool (4.1); the matcher's module is absent. *)
Definition single_pass (pool : list A) : option A :=
  match pool with
  | [] => None
  | x :: l => Some (scan_best x l)
  end.

(** Modelled from the spec: a procedure that selects the top-ranked
    candidate of a pool (4.1, 4.2), and reports an empty pool as "no
    match"; the matcher's module is absent. *)
Definition selects_top_ranked (choose : list A -> option A) : Prop :=
  forall pool,
    match choose pool with
    | Some x => top_ranked pool x
    | None => pool = []
    end.
End Ranking.

Section Meals.
(** The weights of the score, which the specification leaves open. *)
Variables w_cal w_prot : Q.
(** The meals of the Content Library, in insertion order. *)
Variable library : list Meal.

(** Modelled from the spec: "score = weighted absolute distance between
    candidate's numeric profile (calories, protein) and the per-slot
    target" (4.1); the matcher's module is absent. *)
Definition score (target_calories target_protein : Q) (m : Meal) : Q :=
  (w_cal * Qabs (calories m - target_calories)
   + w_prot * Qabs (protein m - target_protein))%Q.

(** Modelled from the spec: the dietary filter (4.1, 8): every stated
    restriction other than "None" must be among the item's dietary tags,
    so that an unknown tag matches nothing; the matcher's module is
    absent. *)
Definition dietary_ok (dietary_restrictions : list string) (m : Meal) : bool :=
  forallb (fun r => bool_decide (r = "None") || bool_decide (r ∈ dietary_tags m))
          dietary_restrictions.

(** Modelled from the spec: the cuisine filter (4.1, 8): "Any" admits
    every item, otherwise the item must carry one of the preferred
    cuisines; the matcher's module is absent. *)
Definition cuisine_ok (cuisine_preferences : list string) (m : Meal) : bool :=
  bool_decide ("Any" ∈ cuisine_preferences)
  || existsb (fun c => bool_decide (c ∈ cuisine_tags m)) cuisine_preferences.

(** Modelled from the spec: "an item failing ANY filter is removed before
    ranking" (4.1); the matcher's module is absent. *)
Definition passes (dietary_restrictions cuisine_preferences : list string) (m : Meal) : bool :=
  dietary_ok dietary_restrictions m && cuisine_ok cuisine_preferences m.

(** Modelled from the spec: the matcher's contract
    [select(pool, target, filters)] of 4.1: filter, then rank; the
    matcher's module is absent. *)
Definition select (pool : list Meal) (target_calories target_protein : Q)
    (dietary_restrictions cuisine_preferences : list string) : list Meal :=
  rank (score target_calories target_protein)
       (filter (fun m => passes dietary_restrictions cuisine_preferences m = true) pool).

(** Modelled from the spec: "the meal_type-specific pool" (4.2, 4.3), the
    slice of the library for one meal type; the library's module is
    absent. *)
Definition pool_of (mt : string) : list Meal :=
  filter (fun m => meal_type m = mt) library.

(** ** Meal Plan Generator (4.2) *)

(** Modelled from the spec: the three meal slots (3) and the seven days
    (4.2) of a plan; [utils/meal_planning.py] is absent. *)
Definition meal_slots : list string := ["Breakfast"; "Lunch"; "Dinner"].

(** Modelled from the spec: "for each of 7 days" (4.2);
    [utils/meal_planning.py] is absent. *)
Definition week : list string :=
  ["Monday"; "Tuesday"; "Wednesday"; "Thursday"; "Friday"; "Saturday"; "Sunday"].

(** Modelled from the spec: "a per-slot target as an even split of the
    daily target across slots" (4.2); [utils/meal_planning.py] is
    absent. *)
Definition per_slot (daily : Q) : Q :=
  (daily / inject_Z (Z.of_nat (length meal_slots)))%Q.

Section Generator.
(** The selection step of the generator: given the slot's target and
    filters and the slot's pool, the candidate it takes. *)
Variable matcher : list Meal -> Q -> Q -> list string -> list string -> option Meal.

(** Modelled from the spec: one slot of the plan (4.2): the matcher's
    choice for the slot's pool and the per-slot target, or the failure
    that names the slot; [utils/meal_planning.py] is absent. *)
Definition fill_slot (daily_calories daily_protein : Q)
    (dietary_restrictions cuisine_preferences : list string) (day mt : string)
  : Failure + Meal :=
  match matcher (pool_of mt) (per_slot daily_calories) (per_slot daily_protein)
          dietary_restrictions cuisine_preferences with
  | Some m => inr m
  | None => inl (ConstraintUnsatisfiable day mt)
  end.

(** Modelled from the spec: the slots of one day (4.2);
    [utils/meal_planning.py] is absent. *)
Fixpoint fill_day (daily_calories daily_protein : Q)
    (dietary_restrictions cuisine_preferences : list string) (day : string)
    (slots : list string) : Failure + DayMeals :=
  match slots with
  | [] => inr []
  | mt :: slots' =>
      match fill_slot daily_calories daily_protein dietary_restrictions
              cuisine_preferences day mt with
      | inl f => inl f
      | inr m =>
          match fill_day daily_calories daily_protein dietary_restrictions
                  cuisine_preferences day slots' with
          | inl f => inl f
          | inr meals => inr ((mt, m) :: meals)
          end
      end
  end.

(** Modelled from the spec: the days of the plan (4.2): the first slot
    without a candidate fails the whole plan; [utils/meal_planning.py] is
    absent. *)
Fixpoint fill_days (daily_calories daily_protein : Q)
    (dietary_restrictions cuisine_preferences : list string)
    (days : list string) : Failure + MealPlanV :=
  match days with
  | [] => inr []
  | day :: days' =>
      match fill_day daily_calories daily_protein dietary_restrictions
              cuisine_preferences day meal_slots with
      | inl f => inl f
      | inr meals =>
          match fill_days daily_calories daily_protein dietary_restrictions
                  cuisine_preferences days' with
          | inl f => inl f
          | inr plan => inr ((day, meals) :: plan)
          end
      end
  end.

(** Modelled from the spec: [generate] of 4.2 over a given selection
    step; [utils/meal_planning.py] is absent. *)
Definition generate_with (daily_calories daily_protein : Q)
    (dietary_restrictions cuisine_preferences : list string) : Failure + MealPlanV :=
  fill_days daily_calories daily_protein dietary_restrictions cuisine_preferences week.
End Generator.

(** Modelled from the spec: "selecting the top-ranked candidate" (4.2),
    the head of the matcher's ranked sequence; the matcher's module is
    absent. *)
Definition best (pool : list Meal) (target_calories target_protein : Q)
    (dietary_restrictions cuisine_preferences : list string) : option Meal :=
  head (select pool target_calories target_protein dietary_restrictions cuisine_preferences).

(** Modelled from the spec: the same selection (4.1, 4.2) without
    ranking the whole pool: filter, then one pass; the matcher's module is
    absent. *)
Definition best_single_pass (pool : list Meal) (target_calories target_protein : Q)
    (dietary_restrictions cuisine_preferences : list string) : option Meal :=
  single_pass (score target_calories target_protein)
    (filter (fun m => passes dietary_restrictions cuisine_preferences m = true) pool).

(** Modelled from the spec: the contract of the selection step (4.1,
    4.2): on the candidates that pass the filters it takes the top-ranked
    one for the target, and it reports "no match" exactly when no
    candidate passes; the matcher's module is absent. *)
Definition takes_top_ranked
    (matcher : list Meal -> Q -> Q -> list string -> list string -> option Meal) : Prop :=
  forall pool target_calories target_protein dietary_restrictions cuisine_preferences,
    match matcher pool target_calories target_protein dietary_restrictions
            cuisine_preferences with
    | Some m =>
        top_ranked (score target_calories target_protein)
          (filter (fun m => passes dietary_restrictions cuisine_preferences m = true) pool) m
    | None =>
        filter (fun m => passes dietary_restrictions cuisine_preferences m = true) pool = []
    end.

(** Modelled from the spec: the Meal Plan Generator of 4.2,
    [generate_meal_plan] of the absent [utils/meal_planning.py]. *)
Definition generate_meal_plan (daily_calories daily_protein : Q)
    (dietary_restrictions cuisine_preferences : list string) : Failure + MealPlanV :=
  generate_with best daily_calories daily_protein dietary_restrictions cuisine_preferences.

(** ** Alternative Finder (4.3) *)

(** Modelled from the spec: "K is a fixed small bound, e.g. 5" (4.3);
    [utils/meal_customization.py] is absent. *)
Definition K : nat := 5.

(** Modelled from the spec: the Alternative Finder of 4.3,
    [get_alternative_meals] of the absent [utils/meal_customization.py]:
    the matcher over the meal type's pool without the current item, cut to
    the [K] top-ranked. *)
Definition get_alternative_meals (mt : string) (target_calories target_protein : Q)
    (dietary_restrictions cuisine_preferences : list string)
    (current_meal_name : string) : list Meal :=
  take K
    (select (filter (fun m => name m <> current_meal_name) (pool_of mt))
       target_calories target_protein dietary_restrictions cuisine_preferences).

(** ** Plan Validator (4.5) *)

(** Modelled from the spec: "every required slot/day populated" (4.5);
    [validate_meal_plan] of the absent [utils/meal_customization.py]. *)
Definition slots_populated (plan : MealPlanV) : bool :=
  forallb (fun day =>
    match dict_get day plan with
    | Some meals => forallb (fun mt => bool_decide (is_Some (dict_get mt meals))) meal_slots
    | None => false
    end) week.

(** Modelled from the spec: "no item violates a stated hard dietary
    restriction" (4.5); the validator's module is absent. *)
Definition restrictions_respected (dietary_restrictions : list string)
    (plan : MealPlanV) : bool :=
  forallb (fun dm : string * DayMeals =>
    forallb (fun sm : string * Meal => dietary_ok dietary_restrictions sm.2) dm.2) plan.

(** Modelled from the spec: "numeric totals within tolerance band (for
    meals, +- configurable percentage of daily targets)" (4.5); the
    validator's module is absent. *)
Definition within_tolerance (tolerance_percent total target : Q) : bool :=
  Qle_bool (Qabs (total - target) * 100) (tolerance_percent * Qabs target).

(** Modelled from the spec: a day's total of calories or protein (4.5,
    8); the validator's module is absent. *)
Definition day_total (f : Meal -> Q) (meals : DayMeals) : Q :=
  foldr (fun sm acc => (f sm.2 + acc)%Q) 0%Q meals.

(** Modelled from the spec: every day's totals within the band of the
    daily targets (4.5); the validator's module is absent. *)
Definition totals_within (tolerance_percent daily_calories daily_protein : Q)
    (plan : MealPlanV) : bool :=
  forallb (fun dm : string * DayMeals =>
    within_tolerance tolerance_percent (day_total calories dm.2) daily_calories
    && within_tolerance tolerance_percent (day_total protein dm.2) daily_protein) plan.

(** Modelled from the spec: the Plan Validator of 4.5 for a meal plan,
    [validate_meal_plan] of the absent [utils/meal_customization.py]. *)
Definition validate_meal_plan (tolerance_percent daily_calories daily_protein : Q)
    (dietary_restrictions : list string) (plan : MealPlanV) : bool :=
  slots_populated plan
  && restrictions_respected dietary_restrictions plan
  && totals_within tolerance_percent daily_calories daily_protein plan.
End Meals.

(** ** Workout Plan Generator (4.4) *)

Section Workout.
(** The exercises of the Content Library, in insertion order. *)
Variable library : list ExerciseEntry.
(** The fixed per-exercise time cost, in minutes. *)
Variable exercise_minutes : nat.
(** The selection step: the candidate taken from a pool. *)
Variable choose : list ExerciseEntry -> option ExerciseEntry.

(** Modelled from the spec: "filtered by fitness_level and
    equipment_available" (4.4); [utils/workout_planner.py] is absent. *)
Definition eligible (fitness_level : string) (equipment_available : list string)
    (e : ExerciseEntry) : bool :=
  bool_decide (required_fitness_level e = fitness_level)
  && bool_decide (equipment_tier e ∈ equipment_available).

(** Modelled from the spec: the categorical pool of a muscle group
    (4.4); [utils/workout_planner.py] is absent. *)
Definition group_pool (fitness_level : string) (equipment_available : list string)
    (g : string) : list ExerciseEntry :=
  filter (fun e => eligible fitness_level equipment_available e = true /\ muscle_group e = g)
         library.

(** Modelled from the spec: the pool of one subgroup of a muscle group
    (4.4); [utils/workout_planner.py] is absent. *)
Definition subgroup_pool (fitness_level : string) (equipment_available : list string)
    (g sg : string) : list ExerciseEntry :=
  filter (fun e => subgroup e = sg) (group_pool fitness_level equipment_available g).

(** Modelled from the spec: the subgroup names of a pool, each once, in
    library order (3, 4.4); [utils/workout_planner.py] is absent. *)
Fixpoint distinct (l : list string) : list string :=
  match l with
  | [] => []
  | x :: l' => x :: filter (fun y => y <> x) (distinct l')
  end.

(** Modelled from the spec: the subgroups a muscle group offers (4.4), in
    library order; [utils/workout_planner.py] is absent. *)
Definition subgroups_of (fitness_level : string) (equipment_available : list string)
    (g : string) : list string :=
  distinct (map subgroup (group_pool fitness_level equipment_available g)).

(** Modelled from the spec: the generator's state across the week, for
    the "cross-day de-duplication" of 4.4: the exercises scheduled so far
    and the muscle groups it had to recycle; [utils/workout_planner.py] is
    absent. *)
Record GenState := {
  used : list ExerciseEntry;
  report : list string
}.

(** Modelled from the spec: one draw from a subgroup's pool (4.4): an
    exercise not yet scheduled this week if there is one, otherwise a
    repetition, with the muscle group reported as recycled;
    [utils/workout_planner.py] is absent. *)
Definition draw (g : string) (pool : list ExerciseEntry) (st : GenState)
  : option (ExerciseEntry * GenState) :=
  match choose (filter (fun e => e ∉ used st) pool) with
  | Some e => Some (e, {| used := e :: used st; report := report st |})
  | None =>
      match choose pool with
      | Some e =>
          Some (e, {| used := used st;
                      report := if decide (g ∈ report st) then report st
                                else report st ++ [g] |})
      | None => None
      end
  end.

(** Modelled from the spec: "accumulate exercises until the day's time
    budget is met or the muscle-group's subgroup pool is exhausted"
    (4.4): one draw per subgroup while another exercise fits the
    remaining minutes; [utils/workout_planner.py] is absent. *)
Fixpoint fill_group (fitness_level : string) (equipment_available : list string)
    (g : string) (subgroups : list string) (remaining : nat) (st : GenState)
  : list ExerciseEntry * nat * GenState :=
  match subgroups with
  | [] => ([], remaining, st)
  | sg :: subgroups' =>
      if decide (exercise_minutes <= remaining)%nat then
        match draw g (subgroup_pool fitness_level equipment_available g sg) st with
        | Some (e, st') =>
            let '(es, remaining', st'') :=
              fill_group fitness_level equipment_available g subgroups'
                (remaining - exercise_minutes) st' in
            (e :: es, remaining', st'')
        | None =>
            fill_group fitness_level equipment_available g subgroups' remaining st
        end
      else ([], remaining, st)
  end.

(** Modelled from the spec: the muscle groups of one day (4.4): a group
    whose categorical pool is empty fails the generation, naming the day
    and the group; [utils/workout_planner.py] is absent. *)
Fixpoint fill_groups (fitness_level : string) (equipment_available : list string)
    (day : string) (groups : list string) (remaining : nat) (st : GenState)
  : Failure + list ExerciseEntry * GenState :=
  match groups with
  | [] => inr ([], st)
  | g :: groups' =>
      match group_pool fitness_level equipment_available g with
      | [] => inl (ConstraintUnsatisfiable day g)
      | _ :: _ =>
          let '(es, remaining', st') :=
            fill_group fitness_level equipment_available g
              (subgroups_of fitness_level equipment_available g) remaining st in
          match fill_groups fitness_level equipment_available day groups' remaining' st' with
          | inl f => inl f
          | inr (es', st'') => inr (es ++ es', st'')
          end
      end
  end.

(** Modelled from the spec: the days of the schedule (4.4);
    [utils/workout_planner.py] is absent. *)
Fixpoint fill_week (fitness_level : string) (equipment_available : list string)
    (time_per_session : nat) (muscle_groups_by_day : list (string * list string))
    (days : list string) (st : GenState)
  : Failure + list (string * WorkoutDay) * GenState :=
  match days with
  | [] => inr ([], st)
  | day :: days' =>
      let groups := default [] (dict_get day muscle_groups_by_day) in
      match fill_groups fitness_level equipment_available day groups time_per_session st with
      | inl f => inl f
      | inr (es, st') =>
          match fill_week fitness_level equipment_available time_per_session
                  muscle_groups_by_day days' st' with
          | inl f => inl f
          | inr (sched, st'') =>
              inr ((day, {| focus := String.concat ", " groups;
                            duration_minutes := time_per_session;
                            exercises := es |}) :: sched, st'')
          end
      end
  end.

(** Modelled from the spec: the Workout Plan Generator of 4.4,
    [generate_workout_plan] of the absent [utils/workout_planner.py], over
    a given selection step. Empty [available_days] and a day without
    muscle groups are invalid input (7). *)
Definition generate_workout_with (fitness_level : string) (goals available_days
    equipment_available : list string) (time_per_session : nat)
    (muscle_groups_by_day : list (string * list string)) : Failure + WorkoutSchedule :=
  match available_days with
  | [] => inl (InvalidInput "available_days")
  | _ :: _ =>
      if forallb (fun day =>
           match dict_get day muscle_groups_by_day with
           | Some (_ :: _) => true
           | _ => false
           end) available_days
      then
        match fill_week fitness_level equipment_available time_per_session
                muscle_groups_by_day available_days {| used := []; report := [] |} with
        | inl f => inl f
        | inr (sched, st) => inr {| schedule := sched; recycled := report st |}
        end
      else inl (InvalidInput "muscle_groups")
  end.
End Workout.

(** Modelled from the spec: the Workout Plan Generator of 4.4 with the
    matcher's choice: every exercise costs the same minutes, so the ranking
    is the insertion order and the top-ranked candidate is the first;
    [utils/workout_planner.py] is absent. *)
Definition generate_workout_plan (library : list ExerciseEntry) (exercise_minutes : nat) :=
  generate_workout_with library exercise_minutes
    (fun pool => head (rank (fun _ => inject_Z (Z.of_nat exercise_minutes)) pool)).

(** Modelled from the spec: the exercises of a schedule's week, in order
    (4.4); the schedule's module is absent. *)
Definition week_exercises (s : WorkoutSchedule) : list ExerciseEntry :=
  concat (map (fun dw : string * WorkoutDay => exercises dw.2) (schedule s)).

(** Modelled from the spec: "the number of days needing it" (4.4): the
    available days whose selection holds the muscle group;
    [utils/workout_planner.py] is absent. *)
Definition days_needing (muscle_groups_by_day : list (string * list string))
    (available_days : list string) (g : string) : nat :=
  length (filter (fun day => g ∈ default [] (dict_get day muscle_groups_by_day))
                 available_days).

(** Modelled from the spec: the structured failure as text (7); the
    generators' modules are absent. *)
Definition failure_message (f : Failure) : string :=
  match f with
  | ConstraintUnsatisfiable day slot =>
      "ConstraintUnsatisfiable: " +:+ day +:+ " " +:+ slot
  | InvalidInput what => "InvalidInput: " +:+ what
  end.

(** Modelled from the spec: how the absent generators hand their outcome
    to the script: the plan, and a failure either as a falsy return or as
    an exception ("returns/raises a structured failure", 7). *)
Definition reported {P : Type} (raises : bool) (r : Failure + P) : Outcome (option P) :=
  match r with
  | inr p => Returns (Some p)
  | inl f => if raises then Raises (failure_message f) else Returns None
  end.

End Engine.

(** ** Reasoning about runs

    [sat m w Q]: running [m] from [w] ends in a result and a world that
    satisfy [Q]. The rules below follow the control structure of the
    script. *)

Definition sat {A} (m : M A) (w : World) (Q : Result A -> World -> Prop) : Prop :=
  Q (m w).1 (m w).2.


(** The postcondition of a step that is followed by more script. *)
Definition then_sat {A B} (k : A -> M B) (Q : Result B -> World -> Prop)
  : Result A -> World -> Prop :=
  fun r w' =>
    match r with
    | Val a => sat (k a) w' Q
    | Exc e => Q (Exc e) w'
    | Rerun => Q Rerun w'
    end.

(** The log only grows: the events between two worlds of a run all
    satisfy [P]. *)
Definition appended (P : Event -> Prop) (l0 l : list Event) : Prop :=
  exists evs, l = l0 ++ evs /\ Forall P evs.

Definition logged (P : Event -> Prop) (w w' : World) : Prop :=
  appended P (log w) (log w').


(** ** What [display_meal_plan] does *)

(** The events [display_meal_plan] logs in a session [s]: messages, and
    calls of [get_alternative_meals] on a third of the stored targets. *)
Definition display_event (s : Session) (e : Event) : Prop :=
  match e with
  | StWarning _ | StSuccess _ => True
  | Call_get_alternative_meals mt tc tp diet cuisine current =>
      exists t p,
        nutritional_targets s = Some t /\ user_profile s = Some p /\
        tc = (t_calories t / 3)%Q /\ tp = (t_protein t / 3)%Q /\
        diet = p_dietary_restrictions p /\ cuisine = p_cuisine_preferences p
  | _ => False
  end.

(** A selection: the "Select" button of alternative [alt], offered for the
    slot [mt] of [day], read [True], and [plan[day][mt] = alt] was
    executed on the store of [w0]. *)
Definition selected (env : Collaborators) (ui : UI) (w0 w' : World)
    (day mt : string) (alt : Meal) : Prop :=
  exists plan l meals meal t p alts ts l' meals',
    current_meal_plan (session w0) = Some plan /\
    (day, l) ∈ plan /\ heap w0 !! l = Some meals /\ (mt, meal) ∈ meals /\
    nutritional_targets (session w0) = Some t /\ user_profile (session w0) = Some p /\
    get_alternative_meals env mt (t_calories t / 3)%Q (t_protein t / 3)%Q
      (p_dietary_restrictions p) (p_cuisine_preferences p) (name meal) = Returns alts /\
    alt ∈ alts /\
    ui_button ui (select_key ts day mt (name alt)) = true /\
    dict_get day plan = Some l' /\ heap w0 !! l' = Some meals' /\
    heap w' = <[l' := dict_set mt alt meals']> (heap w0).

Definition display_post (env : Collaborators) (ui : UI) (w0 : World)
    (r : Result unit) (w' : World) : Prop :=
  session w' = session w0 /\
  logged (display_event (session w0)) w0 w' /\
  match r with
  | Rerun => exists day mt alt, selected env ui w0 w' day mt alt
  | _ => heap w' = heap w0
  end.


(** ** What [calculate_nutrition] does before it turns to the plan *)

Definition calc_event (e : Event) : Prop :=
  match e with
  | Call_calculate_bmr _ _ _ _ | Call_calculate_tdee _ _
  | Call_calculate_protein_needs _ _ => True
  | _ => False
  end.

(** Up to line 301 the plan and the store are not touched and only the
    three calculations are called. *)
Definition before_gate (w w1 : World) : Prop :=
  current_meal_plan (session w1) = current_meal_plan (session w) /\
  heap w1 = heap w /\
  logged calc_event w w1.

(** The handler of [calculate_nutrition], line 320. *)
Definition handled (Q : Result unit -> World -> Prop) : Result unit -> World -> Prop :=
  fun r w =>
    match r with
    | Exc e => Q (Val tt) (record (StError ("An error occurred: " +:+ e)) w)
    | _ => Q r w
    end.

Definition not_generate_meal_plan (e : Event) : Prop :=
  match e with
  | Call_generate_meal_plan _ _ _ _ => False
  | _ => True
  end.

(** What a run of [calculate_nutrition] from [w] guarantees when [w]
    holds a plan. *)
Definition plan_kept (ui : UI) (w : World) (r : Result unit) (w' : World) : Prop :=
  current_meal_plan (session w') = current_meal_plan (session w) /\
  logged not_generate_meal_plan w w' /\
  (heap w' = heap w \/
   exists ts day mt a, ui_button ui (select_key ts day mt a) = true).

(** What a run of [calculate_nutrition] from [w] guarantees when [w]
    holds no plan and generation does not deliver one: the session and
    the store are left without a plan, and if the generator was called,
    the run ends on an error message. *)
Definition no_plan_stored (w : World) (r : Result unit) (w' : World) : Prop :=
  r = Val tt /\
  current_meal_plan (session w') = current_meal_plan (session w) /\
  heap w' = heap w /\
  (logged not_generate_meal_plan w w' \/ exists msg, last (log w') = Some (StError msg)).

(** ** The calls of the whole script *)

(** What [generate_new_workout] may log when called with the given
    arguments: [generate_workout_plan] only on these very arguments, the
    days and the day-to-groups dictionary both non-empty. *)
Definition new_workout_event (fitness_level : string) (goals available_days
    equipment : list string) (time_per_session : Z)
    (muscle_groups : list (string * list string)) (e : Event) : Prop :=
  match e with
  | StError _ | StSuccess _ | Call_validate_exercise_library
  | Call_save_workout_schedule _ _ _ => True
  | Call_generate_workout_plan lvl gs ds eq t mg =>
      lvl = fitness_level /\ gs = goals /\ ds = available_days /\ eq = equipment /\
      t = time_per_session /\ mg = muscle_groups /\
      available_days <> [] /\ muscle_groups <> []
  | _ => False
  end.

(** What a run of [main] may log: [validate_meal_plan] is never called,
    and [generate_workout_plan] only on the days and muscle groups the
    user selected, at least one day and at least one muscle group among
    them. *)
Definition script_event (ui : UI) (e : Event) : Prop :=
  match e with
  | Call_validate_meal_plan _ => False
  | Call_generate_workout_plan lvl gs ds eq t mg =>
      lvl = ui_fitness_level ui /\ gs = ui_goals ui /\ ds = available_days ui /\
      eq = ui_equipment ui /\ t = ui_time_per_session ui /\ mg = muscle_groups ui /\
      available_days ui <> [] /\ any_muscles (muscle_groups ui) = true
  | _ => True
  end.

(** ** Validation before saving *)

(** The events of a run in which every call of [save_meal_plan] is
    preceded by a call of [validate_meal_plan] on the same plan, which the
    plan passes. *)
Definition validated_before_save (validate : MealPlanV -> bool) (evs : list Event) : Prop :=
  forall i uid p cal prot,
    evs !! i = Some (Call_save_meal_plan uid p cal prot) ->
    validate p = true /\
    exists j, (j < i)%nat /\ evs !! j = Some (Call_validate_meal_plan p).

(** ** The workout generator's week *)

(** The exercises that fill the same slot of the library as [e]: its
    muscle group and subgroup. *)
Definition same_slot (e x : ExerciseEntry) : Prop :=
  muscle_group x = muscle_group e /\ subgroup x = subgroup e.

#[global] Instance same_slot_dec e x : Decision (same_slot e x).
Proof. unfold same_slot. apply _. Defined.

(** How often [e] is scheduled in a sequence of exercises. *)
Definition times (e : ExerciseEntry) (l : list ExerciseEntry) : nat :=
  length (filter (fun x => x = e) l).

(** A selection step that takes its candidate from the pool and finds one
    whenever there is one. *)
Definition picks_from_pool (choose : list ExerciseEntry -> option ExerciseEntry) : Prop :=
  forall pool,
    match choose pool with
    | Some e => e ∈ pool
    | None => pool = []
    end.

(** What holds between the exercises scheduled so far and the generator's
    state: the state remembers exactly the scheduled exercises, and an
    exercise scheduled twice has its muscle group reported and a pool
    smaller than the number of draws made for its slot. *)
Definition week_invariant (library : list ExerciseEntry) (fitness_level : string)
    (equipment : list string) (sched : list ExerciseEntry) (st : Engine.GenState) : Prop :=
  (forall x, x ∈ Engine.used st <-> x ∈ sched) /\
  (forall x, (2 <= times x sched)%nat ->
     muscle_group x ∈ Engine.report st /\
     (length (Engine.subgroup_pool library fitness_level equipment
                (muscle_group x) (subgroup x))
      < length (filter (same_slot x) sched))%nat).

(** * A small library and session

    Concrete data on which the statements below are run. *)

Module Demo.

Definition meal (n mt : string) (cal prot : Q) (cuisines diets : list string) : Meal :=
  {| name := n; meal_type := mt; calories := cal; protein := prot;
     cuisine_tags := cuisines; dietary_tags := diets; link := None |}.

Definition oatmeal := meal "Oatmeal Bowl" "Breakfast" 350 12 ["American"] ["Vegetarian"; "Vegan"].
Definition omelette := meal "Veggie Omelette" "Breakfast" 420 28 ["American"] ["Vegetarian"].
Definition tofu_scramble := meal "Tofu Scramble" "Breakfast" 380 24 ["Asian"] ["Vegetarian"; "Vegan"].
Definition burrito := meal "Chicken Burrito" "Lunch" 650 45 ["Mexican"] [].
Definition lentil_soup := meal "Lentil Soup" "Lunch" 480 26 ["Indian"] ["Vegetarian"; "Vegan"].
Definition salmon := meal "Grilled Salmon" "Dinner" 700 52 ["Mediterranean"] ["Gluten-Free"].
Definition paneer := meal "Paneer Curry" "Dinner" 640 30 ["Indian"] ["Vegetarian"].

(** The meals: no dinner is vegan. *)
Definition meals : list Meal :=
  [oatmeal; omelette; tofu_scramble; burrito; lentil_soup; salmon; paneer].

Definition exercises : ExerciseLibrary :=
  [ ("Chest",
     [ ("Upper Chest",
        [ ("Beginner", [ ("None/Bodyweight", ["Incline Push-ups"; "Decline Push-ups"]) ]) ]);
       ("Lower Chest",
        [ ("Beginner", [ ("None/Bodyweight", ["Dips"]) ]) ]) ]);
    ("Legs",
     [ ("Quadriceps",
        [ ("Beginner", [ ("None/Bodyweight", ["Bodyweight Squats"; "Lunges"]) ]) ]) ]) ].

(** The rows of a nested exercise library. *)
Definition library_entries (lib : ExerciseLibrary) : list ExerciseEntry :=
  g ← lib; sg ← g.2; lvl ← sg.2; eq ← lvl.2; n ← eq.2;
  [ {| ex_name := n; muscle_group := g.1; subgroup := sg.1;
       required_fitness_level := lvl.1; equipment_tier := eq.1 |} ].

(** Collaborators that run the engine on the library above. *)
Definition env : Collaborators :=
  {| calculate_bmr := fun _ _ _ _ => Returns 1600%Q;
     calculate_tdee := fun bmr factor => Returns (bmr * factor)%Q;
     calculate_protein_needs := fun weight _ => Returns (2 * weight)%Q;
     generate_meal_plan := fun cal prot diet cuisine =>
       Engine.reported false (Engine.generate_meal_plan 1 1 meals cal prot diet cuisine);
     get_alternative_meals := fun mt tc tp diet cuisine current =>
       Returns (Engine.get_alternative_meals 1 1 meals mt tc tp diet cuisine current);
     save_meal_plan := fun _ _ _ _ => Returns true;
     get_db := Returns DbSession;
     db_close := Returns tt;
     get_current_user := Returns (Some {| id := 7 |});
     exercise_library := exercises;
     generate_workout_plan := fun lvl goals days eq t mg lib =>
       Engine.reported false
         (Engine.generate_workout_plan (library_entries lib) 10 lvl goals days eq
            (Z.to_nat t) mg);
     save_workout_schedule := fun _ _ _ => Returns true;
     get_latest_workout_schedule := fun _ => Returns None |}.

(** The widgets, with the given restrictions entered and the given
    buttons and checkboxes reading [True]. *)
Definition ui (pressed checked : string -> bool) (diet : list string) : UI :=
  {| ui_button := pressed;
     ui_checkbox := checked;
     ui_time := fun _ => "1793722981";
     ui_weight := 70; ui_height := 170; ui_age := 30; ui_gender := "Male";
     ui_activity := "Moderate Exercise (3-5 days/week)";
     ui_goal := "Maintain Weight";
     ui_dietary_restrictions := diet;
     ui_cuisine_preferences := ["Any"];
     ui_fitness_level := "Beginner";
     ui_goals := ["General Fitness"];
     ui_equipment := ["None/Bodyweight"];
     ui_time_per_session := 45;
     ui_muscle_groups := fun key =>
       if decide (key = "muscle_groups_Monday") then ["Chest"]
       else if decide (key = "muscle_groups_Wednesday") then ["Legs"]
       else [] |}.

Definition only (key : string) : string -> bool := fun k => bool_decide (k = key).
Definition nothing : string -> bool := fun _ => false.
Definition everything : string -> bool := fun _ => true.

(** A fresh authenticated session. *)
Definition session0 : Session :=
  {| user_id := Some 7%nat; username := Some "moses"; is_authenticated := true;
     current_schedule := None; user_profile := None;
     current_meal_plan := None; nutritional_targets := None |}.

Definition world0 : World :=
  {| session := session0; heap := ∅; clock := 0; log := [] |}.

(** The world after "Calculate My Needs" without restrictions: it holds
    a generated plan. *)
Definition world1 : World :=
  (run (main env (ui (only "Calculate My Needs") nothing ["None"])) world0).2.

(** The world after "Calculate My Needs" again, now with "Vegan"
    entered. *)
Definition world2 : World :=
  (run (main env (ui (only "Calculate My Needs") nothing ["Vegan"])) world1).2.

(** A session with a one-slot plan, targets and profile. *)
Definition small_plan : list (string * loc) := [("Monday", 0%nat)].

Definition small_world : World :=
  {| session :=
       {| user_id := Some 7%nat; username := Some "moses"; is_authenticated := true;
          current_schedule := None;
          user_profile := Some (entered_profile (ui nothing nothing ["None"]));
          current_meal_plan := Some small_plan;
          nutritional_targets :=
            Some {| t_calories := 2400; t_protein := 150; t_bmr := 1600 |} |};
     heap := {[ 0%nat := [("Breakfast", oatmeal)] ]};
     clock := 0; log := [] |}.

(** The world [small_world] after a run of [display_meal_plan] in which
    every button reads [True]. *)
Definition ui_all : UI := ui everything nothing ["None"].

Definition after_selection : World := (run (display_meal_plan env ui_all) small_world).2.

(** "Calculate My Needs" with "Vegan" entered, and "Save Current Meal
    Plan" after it. *)
Definition ui_vegan : UI := ui (only "Calculate My Needs") nothing ["Vegan"].
Definition ui_save : UI := ui (only "Save Current Meal Plan") nothing ["Vegan"].

Definition targets2 : Targets :=
  {| t_calories := (1600 * 1.55)%Q; t_protein := (2 * 70)%Q; t_bmr := 1600 |}.

(** The plan [world2] holds, and what a run of [main] logs when it is
    saved. *)
Definition plan2 : MealPlanV :=
  plan_value (heap world2) (default [] (current_meal_plan (session world2))).

Definition save_events : list Event :=
  new_events world2 (run (main env ui_save) world2).2.

(** A workout request: chest on three days, with two subgroups of one
    and two exercises. *)
Definition entries : list ExerciseEntry := library_entries exercises.

Definition request_days : list string := ["Monday"; "Wednesday"; "Friday"].

Definition request_groups : list (string * list string) :=
  [("Monday", ["Chest"]); ("Wednesday", ["Chest"]); ("Friday", ["Chest"; "Legs"])].

Definition generated_schedule : WorkoutSchedule :=
  Eval vm_compute in
    match Engine.generate_workout_plan entries 10 "Beginner" ["General Fitness"]
            request_days ["None/Bodyweight"] 30 request_groups with
    | inr s => s
    | inl _ => {| schedule := []; recycled := [] |}
    end.

End Demo.

(** * More of the script

    ** Counting the calls of a run *)

(** The collaborators that generate or save a plan. *)
Inductive Kind := GenerateWorkout | SaveWorkout | GenerateMeals | SaveMeals.

#[global] Instance Kind_eq_dec : EqDecision Kind.
Proof. solve_decision. Defined.

Definition kind_of (e : Event) : option Kind :=
  match e with
  | Call_generate_workout_plan _ _ _ _ _ _ => Some GenerateWorkout
  | Call_save_workout_schedule _ _ _ => Some SaveWorkout
  | Call_generate_meal_plan _ _ _ _ => Some GenerateMeals
  | Call_save_meal_plan _ _ _ _ => Some SaveMeals
  | _ => None
  end.

(** How often a collaborator of kind [k] is called in a sequence of
    events. *)
Definition calls (k : Kind) (evs : list Event) : nat :=
  sum_list_with (fun e => if decide (kind_of e = Some k) then 1%nat else 0%nat) evs.

(** Database sessions: a call of [get_db] opens one when it returns, a
    call of [db.close] closes one. *)
Definition opens (env : Collaborators) (e : Event) : nat :=
  match e, get_db env with
  | Call_get_db, Returns _ => 1
  | _, _ => 0
  end.

Definition closes (e : Event) : nat :=
  match e with
  | Call_db_close => 1
  | _ => 0
  end.

Definition opened (env : Collaborators) (evs : list Event) : nat :=
  sum_list_with (opens env) evs.

Definition closed (evs : list Event) : nat := sum_list_with closes evs.

(** The events between [w] and [w'] close every session they open and
    call each collaborator of kind [k] at most [limit k] times. *)
Definition accounted (env : Collaborators) (limit : Kind -> nat) (w w' : World) : Prop :=
  exists evs,
    log w' = log w ++ evs /\
    opened env evs = closed evs /\
    forall k, (calls k evs <= limit k)%nat.

Definition no_calls : Kind -> nat := fun _ => 0%nat.

Definition once (k : Kind) : Kind -> nat := fun k' => if decide (k' = k) then 1%nat else 0%nat.

Definition plus (f g : Kind -> nat) : Kind -> nat := fun k => (f k + g k)%nat.

(** Events that open or close no session and are no call of a generating
    or saving collaborator. *)
Definition neutral (e : Event) : Prop :=
  match e with
  | Call_get_db | Call_db_close => False
  | _ => kind_of e = None
  end.

(** ** Sessions that hold a plan *)

(** What a session that holds a meal plan looks like when the plan got
    there through the script: the days are the keys of a dictionary, each
    day has a dictionary object of its own in the store, and the targets
    and the profile the plan was generated for are set. *)
Definition plan_well_formed (w : World) : Prop :=
  match current_meal_plan (session w) with
  | Some plan =>
      NoDup plan.*1 /\ NoDup plan.*2 /\
      (forall day l, (day, l) ∈ plan -> is_Some (heap w !! l)) /\
      (plan <> [] ->
       is_Some (nutritional_targets (session w)) /\ is_Some (user_profile (session w)))
  | None => True
  end.

(** The plans [generate_meal_plan] returns are dictionaries: no day
    occurs twice among their keys. *)
Definition well_keyed (env : Collaborators) : Prop :=
  forall cal prot diet cuisine p,
    generate_meal_plan env cal prot diet cuisine = Returns (Some p) -> NoDup p.*1.

(** The store and the nutrition keys of the session are as they were. *)
Definition keeps_meals (w w' : World) : Prop :=
  heap w' = heap w /\
  current_meal_plan (session w') = current_meal_plan (session w) /\
  nutritional_targets (session w') = nutritional_targets (session w) /\
  user_profile (session w') = user_profile (session w).

(** The login keys of the session are as they were. *)
Definition keeps_identity (w w' : World) : Prop :=
  user_id (session w') = user_id (session w) /\
  username (session w') = username (session w) /\
  is_authenticated (session w') = is_authenticated (session w).

(** Every key of the session but [current_meal_plan] is as it was. *)
Definition keeps_but_plan (w w' : World) : Prop :=
  keeps_identity w w' /\
  current_schedule (session w') = current_schedule (session w) /\
  nutritional_targets (session w') = nutritional_targets (session w) /\
  user_profile (session w') = user_profile (session w).

(** [get_alternative_meals] raises [e] on some arguments. *)
Definition alternatives_raise (env : Collaborators) (e : string) : Prop :=
  exists mt tc tp diet cuisine current,
    get_alternative_meals env mt tc tp diet cuisine current = Raises e.

(** The calls whose exception is caught nowhere in [main]. *)
Definition escapes (env : Collaborators) (e : string) : Prop :=
  db_close env = Raises e \/
  (exists uid, get_latest_workout_schedule env uid = Raises e) \/
  alternatives_raise env e.

(** A slot of the plan of [w0] whose "Show alternatives" button reads
    [True] in the run of [display_meal_plan] from [w0]. *)
Definition shown_slot (ui : UI) (w0 : World) (day mt : string) (meal : Meal) : Prop :=
  exists plan l meals,
    current_meal_plan (session w0) = Some plan /\ (day, l) ∈ plan /\
    heap w0 !! l = Some meals /\ (mt, meal) ∈ meals /\
    ui_button ui (btn_key (ui_time ui (clock w0)) day mt) = true.

(** [get_alternative_meals] is called for shown slots only, with the
    name of the meal the slot holds. *)
Definition detail_event (ui : UI) (w0 : World) (e : Event) : Prop :=
  match e with
  | Call_get_alternative_meals mt _ _ _ _ current =>
      exists day meal, shown_slot ui w0 day mt meal /\ current = name meal
  | _ => True
  end.

(** Between two slots of [display_meal_plan] the session and the store
    are as the run found them. *)
Definition between (ui : UI) (w0 w1 : World) : Prop :=
  session w1 = session w0 /\ heap w1 = heap w0 /\ logged (detail_event ui w0) w0 w1.

Definition display_detail (env : Collaborators) (ui : UI) (w0 : World)
    (r : Result unit) (w' : World) : Prop :=
  logged (detail_event ui w0) w0 w' /\
  match r with
  | Rerun =>
      exists day mt meal a,
        shown_slot ui w0 day mt meal /\
        ui_button ui (select_key (ui_time ui (clock w0)) day mt a) = true
  | Exc e => plan_well_formed w0 -> alternatives_raise env e
  | Val _ => True
  end.

(** ** The calculation of [calculate_nutrition] *)

(** Lines 261-267: the calorie target for a goal. *)
Definition goal_calories (goal : string) (tdee : Q) : Q :=
  if decide (goal = "Lose Weight") then (tdee - 500)%Q
  else if decide (goal = "Gain Muscle") then (tdee + 300)%Q
  else tdee.

(** The three calculations return, on the entered activity level. *)
Definition calculated (env : Collaborators) (ui : UI) (bmr tdee pn : Q) : Prop :=
  calculate_bmr env (ui_weight ui) (ui_height ui) (ui_age ui) (ui_gender ui) = Returns bmr /\
  (exists factor,
     dict_get (ui_activity ui) activity_levels = Some factor /\
     calculate_tdee env bmr factor = Returns tdee) /\
  calculate_protein_needs env (ui_weight ui) (ui_goal ui) = Returns pn.

Definition calculated_targets (ui : UI) (bmr tdee pn : Q) : Targets :=
  {| t_calories := goal_calories (ui_goal ui) tdee; t_protein := pn; t_bmr := bmr |}.

(** What lines 302-317 of [calculate_nutrition] guarantee. *)
Definition missing_post (env : Collaborators) (w w' : World) : Prop :=
  keeps_but_plan w w' /\
  (well_keyed env -> plan_well_formed w ->
   is_Some (nutritional_targets (session w)) -> is_Some (user_profile (session w)) ->
   plan_well_formed w') /\
  (plan_truthy (current_meal_plan (session w)) = true ->
   current_meal_plan (session w') = current_meal_plan (session w)).

(** What a part of the script guarantees about the session and the
    store. *)
Definition part_post (env : Collaborators) (ui : UI) (w : World)
    (r : Result unit) (w' : World) : Prop :=
  keeps_identity w w' /\
  (well_keyed env -> plan_well_formed w -> plan_well_formed w') /\
  (forall e, r = Exc e -> well_keyed env -> plan_well_formed w -> escapes env e) /\
  (ui_button ui "Generate Workout Plan" = false ->
   current_schedule (session w') = current_schedule (session w)) /\
  (ui_button ui "Calculate My Needs" = false ->
   current_meal_plan (session w') = current_meal_plan (session w) /\
   nutritional_targets (session w') = nutritional_targets (session w) /\
   user_profile (session w') = user_profile (session w)) /\
  (plan_truthy (current_meal_plan (session w)) = true ->
   current_meal_plan (session w') = current_meal_plan (session w)).

(** ** The worlds the script reaches *)

(** The worlds reached by runs of [main], under whatever widget values,
    from a session that holds no meal plan (as the session is after the
    login and after [st.session_state.clear()]). *)
Inductive reachable (env : Collaborators) : World -> Prop :=
| reach_start w : current_meal_plan (session w) = None -> reachable env w
| reach_run ui w : reachable env w -> reachable env (run (main env ui) w).2.

(** ** The helpers of the script *)

(** [save_and_update_workout_schedule], lines 322-330. [save] is the
    imported [save_workout_schedule] with its fifth argument [is_custom];
    what the handler prints goes to the console and is not recorded. *)
Definition save_and_update_workout_schedule (env : Collaborators)
    (save : option nat -> WorkoutSchedule -> Preferences -> bool -> Outcome bool)
    (db : Db) (uid : option nat) (sched : WorkoutSchedule) (preferences : Preferences)
    (is_custom : bool) : M (option WorkoutSchedule) :=
  try_except
    (saved <- call (Call_save_workout_schedule uid sched preferences)
                (save uid sched preferences is_custom) ;;
     if saved : bool then
       call (Call_get_latest_workout_schedule uid) (get_latest_workout_schedule env uid)
     else ret None)
    (fun e => ret None).

(** What a display function puts on the page, in order. *)
Inductive Shown :=
| ShHeader (text : string)
| ShSubheader (text : string)
| ShWrite (text : string)
| ShInfo (text : string)
| ShWarning (text : string)
| ShExpander (title : string)
| ShMetric (label value : string).

(** A day of a stored schedule as [display_workout_schedule] reads it
    (lines 346-357): [ld_duration] is the duration as the f-string
    prints it, and an exercise that is no [str] is [None]. *)
Record LatestDay := {
  ld_focus : string;
  ld_duration : string;
  ld_exercises : list (option string)
}.

(** The schedule [get_latest_workout_schedule] returns, with the keys
    [display_workout_schedule] reads: [is_custom] may be missing, [date]
    is the date as the f-string prints it. *)
Record LatestSchedule := {
  ls_is_custom : option bool;
  ls_date : string;
  ls_schedule : list (string * LatestDay)
}.

(** Lines 345-357: one day's expander. Both branches of the test for a
    colon write the same line. *)
Definition show_workout (day : string) (workout : LatestDay) : list Shown :=
  ShExpander (day +:+ "'s Workout") ::
  ShWrite ("**Focus:** " +:+ ld_focus workout) ::
  ShWrite ("**Duration:** " +:+ ld_duration workout +:+ " minutes") ::
  ShWrite "**Exercises:**" ::
  flat_map (fun exercise : option string =>
              match exercise with
              | Some ex => [ShWrite ("- " +:+ ex)]
              | None => []
              end)
           (ld_exercises workout).

(** The days [display_workout_schedule] goes through, line 341. *)
Definition display_days (s : LatestSchedule) (selected_days : list string) : list string :=
  match selected_days with
  | [] => (ls_schedule s).*1
  | _ :: _ => selected_days
  end.

(** [display_workout_schedule], lines 332-357; [selected_days] is [[]]
    for [None]. A schedule that is present has its keys. *)
Definition display_workout_schedule (schedule : option LatestSchedule)
    (selected_days : list string) : list Shown :=
  match schedule with
  | None => [ShInfo "No workout schedule found. Create one to get started!"]
  | Some s =>
      ShWrite (if negb (default false (ls_is_custom s)) then "🎯 Generated Plan"
               else "✏️ Custom Plan") ::
      ShWrite ("Schedule generated on: " +:+ ls_date s) ::
      flat_map (fun day =>
                  match dict_get day (ls_schedule s) with
                  | Some workout => show_workout day workout
                  | None => []
                  end)
               (display_days s selected_days)
  end.

(** The titles of the expanders on a page, in order. *)
Definition expanders (page : list Shown) : list string :=
  omap (fun x => match x with ShExpander title => Some title | _ => None end) page.

(** Lines 66-73 of [display_exercise_library]: the loop over the
    selected equipment, with its flag [exercises_shown]. *)
Definition show_equipment (by_equipment : list (string * list string))
    (equipment : list string) : list Shown * bool :=
  foldl (fun (acc : list Shown * bool) equip =>
           match dict_get equip by_equipment with
           | Some exercises =>
               (acc.1 ++ ShWrite ("🔹 " +:+ equip +:+ " Exercises:")
                      :: map (fun exercise => ShWrite ("  • " +:+ exercise)) exercises,
                true)
           | None => acc
           end)
        ([], false) equipment.

(** Lines 62-78: one subgroup of a muscle group. *)
Definition show_subgroup (fitness_level : string) (equipment : list string)
    (subgroup : string) (exercises_dict : list (string * list (string * list string)))
  : list Shown :=
  ShSubheader ("⚡ " +:+ subgroup) ::
  match dict_get fitness_level exercises_dict with
  | Some by_equipment =>
      let '(lines, exercises_shown) := show_equipment by_equipment equipment in
      lines ++
      (if exercises_shown : bool then []
       else [ShInfo ("No exercises available for selected equipment at "
                     +:+ fitness_level +:+ " level")])
  | None => [ShWarning ("No exercises available for " +:+ fitness_level +:+ " level")]
  end ++ [ShWrite "---"].

(** The "Exercises by Muscle Group" tab of [display_exercise_library],
    lines 45-78, for the selected level and equipment. *)
Definition exercises_tab (library : ExerciseLibrary) (fitness_level : string)
    (equipment : list string) : list Shown :=
  flat_map (fun '(muscle_group, subgroups) =>
              ShExpander (muscle_group +:+ " Muscle Group") ::
              flat_map (fun '(subgroup, exercises_dict) =>
                          show_subgroup fitness_level equipment subgroup exercises_dict)
                       subgroups)
           library.

(** The names listed on a page: the lines [st.write(f"  • {exercise}")]. *)
Definition listed (exercise : string) (page : list Shown) : Prop :=
  ShWrite ("  • " +:+ exercise) ∈ page.

(** The events that put a message on the page. *)
Definition is_message (e : Event) : Prop :=
  match e with
  | StError _ | StWarning _ | StSuccess _ => True
  | _ => False
  end.

(** "Save Current Meal Plan" reaches [save_meal_plan], which returns
    [result]. *)
Definition save_returns (env : Collaborators) (w : World) (result : bool) : Prop :=
  exists db user t,
    get_db env = Returns db /\ get_current_user env = Returns (Some user) /\
    nutritional_targets (session w) = Some t /\
    save_meal_plan env (id user)
      (plan_value (heap w) (default [] (current_meal_plan (session w))))
      (t_calories t) (t_protein t) = Returns result.

(** ** More cases on the demo data *)

Module Cases.

(** The demo collaborators with a [db.close] that raises. *)
Definition env_close_fails : Collaborators :=
  {| calculate_bmr := calculate_bmr Demo.env;
     calculate_tdee := calculate_tdee Demo.env;
     calculate_protein_needs := calculate_protein_needs Demo.env;
     generate_meal_plan := generate_meal_plan Demo.env;
     get_alternative_meals := get_alternative_meals Demo.env;
     save_meal_plan := save_meal_plan Demo.env;
     get_db := get_db Demo.env;
     db_close := Raises "connection lost";
     get_current_user := get_current_user Demo.env;
     exercise_library := exercise_library Demo.env;
     generate_workout_plan := generate_workout_plan Demo.env;
     save_workout_schedule := save_workout_schedule Demo.env;
     get_latest_workout_schedule := get_latest_workout_schedule Demo.env |}.

(** The demo collaborators with a workout generator that finds no
    schedule. *)
Definition env_no_workout : Collaborators :=
  {| calculate_bmr := calculate_bmr Demo.env;
     calculate_tdee := calculate_tdee Demo.env;
     calculate_protein_needs := calculate_protein_needs Demo.env;
     generate_meal_plan := generate_meal_plan Demo.env;
     get_alternative_meals := get_alternative_meals Demo.env;
     save_meal_plan := save_meal_plan Demo.env;
     get_db := get_db Demo.env;
     db_close := db_close Demo.env;
     get_current_user := get_current_user Demo.env;
     exercise_library := exercise_library Demo.env;
     generate_workout_plan := fun _ _ _ _ _ _ _ => Returns None;
     save_workout_schedule := save_workout_schedule Demo.env;
     get_latest_workout_schedule := get_latest_workout_schedule Demo.env |}.

(** The demo collaborators with a [get_latest_workout_schedule] that
    raises. *)
Definition env_no_latest : Collaborators :=
  {| calculate_bmr := calculate_bmr Demo.env;
     calculate_tdee := calculate_tdee Demo.env;
     calculate_protein_needs := calculate_protein_needs Demo.env;
     generate_meal_plan := generate_meal_plan Demo.env;
     get_alternative_meals := get_alternative_meals Demo.env;
     save_meal_plan := save_meal_plan Demo.env;
     get_db := get_db Demo.env;
     db_close := db_close Demo.env;
     get_current_user := get_current_user Demo.env;
     exercise_library := exercise_library Demo.env;
     generate_workout_plan := generate_workout_plan Demo.env;
     save_workout_schedule := save_workout_schedule Demo.env;
     get_latest_workout_schedule := fun _ => Raises "no such table" |}.

Definition ui_calculate : UI := Demo.ui (Demo.only "Calculate My Needs") Demo.nothing ["None"].

Definition ui_quiet : UI := Demo.ui Demo.nothing Demo.nothing ["None"].

(** "Calculate My Needs" with an activity level the script does not
    know. *)
Definition ui_couch : UI :=
  {| ui_button := Demo.only "Calculate My Needs";
     ui_checkbox := Demo.nothing;
     ui_time := ui_time ui_calculate;
     ui_weight := 70; ui_height := 170; ui_age := 30; ui_gender := "Male";
     ui_activity := "Couch";
     ui_goal := "Lose Weight";
     ui_dietary_restrictions := ["None"];
     ui_cuisine_preferences := ["Any"];
     ui_fitness_level := "Beginner";
     ui_goals := ["General Fitness"];
     ui_equipment := ["None/Bodyweight"];
     ui_time_per_session := 45;
     ui_muscle_groups := fun _ => [] |}.

(** Every "Select" button reads [True], and no other button. *)
Definition select_buttons (key : string) : bool := String.prefix "select_" key.

Definition ui_select_only : UI := Demo.ui select_buttons Demo.nothing ["None"].

(** "Generate Workout Plan" with Monday checked (and chest selected for
    it). *)
Definition ui_monday : UI :=
  Demo.ui (Demo.only "Generate Workout Plan") (Demo.only "day_Monday") ["None"].

(** The plan the demo generator returns for the demo profile. *)
Definition generated : MealPlanV :=
  Eval vm_compute in
    match generate_meal_plan Demo.env (1600 * 1.55)%Q (2 * 70)%Q ["None"] ["Any"] with
    | Returns (Some p) => p
    | _ => []
    end.

End Cases.

(** * Proofs *)

Section Sat.
Context {A : Type}.

Lemma sat_run (m : M A) w Q : sat m w Q <-> Q (run m w).1 (run m w).2.
Proof. reflexivity. Qed.

Lemma sat_mono (m : M A) w (Q Q' : Result A -> World -> Prop) :
  sat m w Q -> (forall r w', Q r w' -> Q' r w') -> sat m w Q'.
Proof. unfold sat. auto. Qed.

Lemma sat_ret (a : A) w Q : Q (Val a) w -> sat (ret a) w Q.
Proof. unfold sat. auto. Qed.

Lemma sat_try_except (m : M A) h w Q :
  sat m w (fun r w' => match r with Exc e => sat (h e) w' Q | _ => Q r w' end) ->
  sat (try_except m h) w Q.
Proof.
  unfold sat, try_except. destruct (m w) as [[a|e|] w']; simpl; auto.
Qed.

Lemma sat_try_finally (m : M A) fin w Q :
  sat m w (fun r w' =>
    sat fin w' (fun r' w'' =>
      match r' with
      | Val _ => Q r w''
      | Exc e => Q (Exc e) w''
      | Rerun => Q Rerun w''
      end)) ->
  sat (try_finally m fin) w Q.
Proof.
  unfold sat, try_finally. destruct (m w) as [r w']; simpl.
  destruct (fin w') as [[[]|e|] w'']; simpl; auto.
Qed.
End Sat.

Lemma sat_bind {A B} (m : M A) (k : A -> M B) w Q :
  sat m w (then_sat k Q) -> sat (bind m k) w Q.
Proof.
  unfold sat, then_sat, bind. destruct (m w) as [[a|e|] w']; simpl; auto.
Qed.

(** The loop rule: [I] holds of the world between iterations, and an
    iteration that ends the loop early establishes [Q] itself. *)
Lemma sat_for_each {A} (l : list A) (body : A -> M unit) (I : World -> Prop)
    (Q : Result unit -> World -> Prop) w :
  I w ->
  (forall x w1, x ∈ l -> I w1 ->
     sat (body x) w1 (fun r w2 =>
       match r with
       | Val _ => I w2
       | Exc e => Q (Exc e) w2
       | Rerun => Q Rerun w2
       end)) ->
  (forall w1, I w1 -> Q (Val tt) w1) ->
  sat (for_each l body) w Q.
Proof.
  intros HI Hbody Hend. revert w HI.
  induction l as [|x l IH]; intros w HI.
  - apply sat_ret, Hend, HI.
  - simpl. apply sat_bind.
    eapply sat_mono; [apply (Hbody x w); [left|exact HI]|].
    intros [[]|e|] w2 H; simpl; auto.
    apply IH; auto. intros y w1 Hy. apply Hbody. by right.
Qed.

Lemma logged_refl P w : logged P w w.
Proof. exists []. by rewrite app_nil_r. Qed.

Lemma logged_trans P w1 w2 w3 : logged P w1 w2 -> logged P w2 w3 -> logged P w1 w3.
Proof.
  intros (e1 & H1 & F1) (e2 & H2 & F2). exists (e1 ++ e2).
  split; [by rewrite H2, H1, app_assoc|]. by apply Forall_app.
Qed.

Lemma logged_mono (P P' : Event -> Prop) w w' :
  (forall e, P e -> P' e) -> logged P w w' -> logged P' w w'.
Proof.
  intros HP (evs & H & F). exists evs. split; [done|]. eapply Forall_impl; eauto.
Qed.

Lemma logged_record P w w' e : logged P w w' -> P e -> logged P w (record e w').
Proof.
  intros (evs & H & F) He. exists (evs ++ [e]). simpl.
  split; [by rewrite H, app_assoc|]. apply Forall_app. split; [done|]. by constructor.
Qed.

Lemma logged_same_log P w w' s h c :
  logged P w w' -> logged P w {| session := s; heap := h; clock := c; log := log w' |}.
Proof. exact (fun H => H). Qed.

Lemma new_events_app w w' evs : log w' = log w ++ evs -> new_events w w' = evs.
Proof. unfold new_events. intros ->. by rewrite drop_app_length. Qed.

Lemma logged_new_events P w w' e : logged P w w' -> e ∈ new_events w w' -> P e.
Proof.
  intros (evs & H & F) He. rewrite (new_events_app _ _ _ H) in He.
  rewrite Forall_forall in F. auto.
Qed.

(** ** Dictionaries: lookup after update *)

Section DictFacts.
Context {V : Type}.
Implicit Types (d : list (string * V)) (k : string) (v : V).

Lemma dict_get_set_eq k v d : dict_get k (dict_set k v d) = Some v.
Proof.
  induction d as [|[k' v'] d IH]; simpl.
  - by rewrite decide_True.
  - destruct (decide (k' = k)); simpl.
    + by rewrite decide_True.
    + by rewrite decide_False.
Qed.

Lemma dict_get_set_ne k k' v d : k' <> k -> dict_get k' (dict_set k v d) = dict_get k' d.
Proof.
  intros Hne. induction d as [|[k0 v0] d IH]; simpl.
  - by rewrite decide_False.
  - destruct (decide (k0 = k)) as [->|]; simpl.
    + by rewrite !decide_False.
    + destruct (decide (k0 = k')); auto.
Qed.

Lemma dict_get_Some_elem k v d : dict_get k d = Some v -> (k, v) ∈ d.
Proof.
  induction d as [|[k0 v0] d IH]; simpl; [done|].
  destruct (decide (k0 = k)) as [->|].
  - intros [= ->]. left.
  - intros H. right. auto.
Qed.

Lemma dict_get_elem k v d : NoDup d.*1 -> (k, v) ∈ d -> dict_get k d = Some v.
Proof.
  induction d as [|[k0 v0] d IH]; simpl.
  - intros _ H. by apply elem_of_nil in H.
  - intros Hnd Hin. apply NoDup_cons in Hnd as [Hk Hnd].
    apply elem_of_cons in Hin as [[= -> ->]|Hin].
    + by rewrite decide_True.
    + rewrite decide_False; [auto|].
      intros ->. apply Hk. apply list_elem_of_fmap. by exists (k, v).
Qed.

Lemma dict_get_inj k1 k2 v d :
  NoDup d.*2 -> dict_get k1 d = Some v -> dict_get k2 d = Some v -> k1 = k2.
Proof.
  induction d as [|[k0 v0] d IH]; simpl; [done|].
  intros Hnd. apply NoDup_cons in Hnd as [Hv Hnd].
  assert (Hfresh : forall k, dict_get k d = Some v0 -> False).
  { intros k Hk. apply Hv. apply list_elem_of_fmap.
    exists (k, v0). split; [done|]. by apply dict_get_Some_elem. }
  destruct (decide (k0 = k1)), (decide (k0 = k2)); auto.
  - congruence.
  - intros [= ->] H. destruct (Hfresh _ H).
  - intros H [= ->]. destruct (Hfresh _ H).
Qed.
End DictFacts.


(** The primitive steps. *)
Section SatSteps.
Context {A : Type}.
Implicit Types (w : World) (Q : Result A -> World -> Prop).

Lemma sat_raise msg w Q : Q (Exc msg) w -> sat (raise msg) w Q.
Proof. exact (fun H => H). Qed.

Lemma sat_rerun w Q : Q Rerun w -> sat st_rerun w Q.
Proof. exact (fun H => H). Qed.

Lemma sat_subscript what (o : option A) w Q :
  match o with Some a => Q (Val a) w | None => Q (Exc what) w end ->
  sat (subscript what o) w Q.
Proof. by destruct o. Qed.

Lemma sat_call e (o : Outcome A) w Q :
  match o with
  | Returns a => Q (Val a) (record e w)
  | Raises msg => Q (Exc msg) (record e w)
  end ->
  sat (call e o) w Q.
Proof. by destruct o. Qed.
End SatSteps.

Lemma sat_get_session w (Q : Result Session -> World -> Prop) :
  Q (Val (session w)) w -> sat get_session w Q.
Proof. exact (fun H => H). Qed.

Lemma sat_put_session s w (Q : Result unit -> World -> Prop) :
  Q (Val tt) {| session := s; heap := heap w; clock := clock w; log := log w |} ->
  sat (put_session s) w Q.
Proof. exact (fun H => H). Qed.

Lemma sat_get_heap w (Q : Result (gmap loc DayMeals) -> World -> Prop) :
  Q (Val (heap w)) w -> sat get_heap w Q.
Proof. exact (fun H => H). Qed.

Lemma sat_put_heap h w (Q : Result unit -> World -> Prop) :
  Q (Val tt) {| session := session w; heap := h; clock := clock w; log := log w |} ->
  sat (put_heap h) w Q.
Proof. exact (fun H => H). Qed.

Lemma sat_emit e w (Q : Result unit -> World -> Prop) :
  Q (Val tt) (record e w) -> sat (emit e) w Q.
Proof. exact (fun H => H). Qed.

Lemma sat_read_clock ui w (Q : Result string -> World -> Prop) :
  Q (Val (ui_time ui (clock w)))
    {| session := session w; heap := heap w; clock := S (clock w); log := log w |} ->
  sat (read_clock ui) w Q.
Proof. exact (fun H => H). Qed.

(** Symbolic execution of the straight-line parts of the script. *)
Ltac sat_step :=
  lazymatch goal with
  | |- sat (bind _ _) _ _ => apply sat_bind
  | |- sat (try_except _ _) _ _ => apply sat_try_except
  | |- sat (try_finally _ _) _ _ => apply sat_try_finally
  | |- sat (call _ _) _ _ => apply sat_call
  | |- sat (ret _) _ _ => apply sat_ret
  | |- sat (raise _) _ _ => apply sat_raise
  | |- sat st_rerun _ _ => apply sat_rerun
  | |- sat get_session _ _ => apply sat_get_session
  | |- sat (put_session _) _ _ => apply sat_put_session
  | |- sat get_heap _ _ => apply sat_get_heap
  | |- sat (put_heap _) _ _ => apply sat_put_heap
  | |- sat (emit _) _ _ => apply sat_emit
  | |- sat (read_clock _) _ _ => apply sat_read_clock
  | |- sat (subscript _ _) _ _ => apply sat_subscript
  | |- then_sat _ _ (Val _) _ => cbn [then_sat]
  | |- then_sat _ _ (Exc _) _ => cbn [then_sat]
  | |- then_sat _ _ Rerun _ => cbn [then_sat]
  end; cbn [record session heap log clock].

Ltac sat_steps := repeat sat_step.

Lemma display_post_record env ui w0 w1 e :
  display_post env ui w0 (Val tt) w1 -> display_event (session w0) e ->
  display_post env ui w0 (Val tt) (record e w1).
Proof.
  intros (Hs & Hlog & Hh) He. split; [done|]. split; [|done].
  by apply logged_record.
Qed.

Lemma show_alternatives_sat env ui w0 w1 plan ts day l meals mt meal :
  current_meal_plan (session w0) = Some plan ->
  (day, l) ∈ plan -> heap w0 !! l = Some meals -> (mt, meal) ∈ meals ->
  display_post env ui w0 (Val tt) w1 ->
  sat (show_alternatives env ui ts day mt meal) w1 (display_post env ui w0).
Proof.
  intros Hplan Hday Hl Hmt Hinv.
  pose proof Hinv as (Hs & Hlog & Hh).
  unfold show_alternatives. sat_steps. rewrite Hs.
  destruct (nutritional_targets (session w0)) as [t|] eqn:Ht; [|done]. sat_steps.
  destruct (user_profile (session w0)) as [p|] eqn:Hp; [|done]. sat_steps.
  match goal with |- context [record ?e w1] =>
    assert (Hinv2 : display_post env ui w0 (Val tt) (record e w1));
    [apply display_post_record; try done; simpl; eauto 10|];
    revert Hinv2; generalize (record e w1); intros w2 Hinv2
  end.
  destruct (get_alternative_meals _ _ _ _ _ _ _) as [alts|msg] eqn:Halts; [|done].
  sat_steps.
  destruct alts as [|a0 alts'] eqn:Ealts.
  { sat_steps. by apply display_post_record. }
  rewrite <- Ealts in *. clear Ealts a0 alts'.
  apply sat_for_each with (I := display_post env ui w0 (Val tt)); [done| |done].
  intros alt w3 Halt Hinv3.
  destruct (ui_button ui (select_key ts day mt (name alt))) eqn:Hbtn; [|by sat_steps].
  pose proof Hinv3 as (Hs3 & Hlog3 & Hh3).
  unfold assign_meal. sat_steps. rewrite Hs3, Hplan. sat_steps.
  destruct (dict_get day plan) as [l'|] eqn:Hl'; [|done]. sat_steps.
  rewrite Hh3.
  destruct (heap w0 !! l') as [meals'|] eqn:Hm'; [|done]. sat_steps.
  split; [done|]. split.
  - by apply logged_record.
  - exists day, mt, alt, plan, l, meals, meal, t, p, alts, ts, l', meals'.
    repeat split; try done.
Qed.

Lemma display_meal_plan_sat env ui w :
  sat (display_meal_plan env ui) w (display_post env ui w).
Proof.
  assert (Hrefl : display_post env ui w (Val tt) w).
  { split; [done|]. split; [|done]. apply logged_refl. }
  unfold display_meal_plan. sat_steps.
  destruct (current_meal_plan (session w)) as [plan|] eqn:Hplan; [|by sat_steps].
  destruct plan as [|d0 plan']; [by sat_steps|].
  cbn [plan_truthy negb default]. sat_steps.
  match goal with |- sat _ ?wc _ =>
    assert (Hinv : display_post env ui w (Val tt) wc)
      by (split; [done|]; split; [|done]; apply logged_same_log, logged_refl);
    revert Hinv; generalize wc; intros w1 Hinv
  end.
  apply sat_for_each with (I := display_post env ui w (Val tt)); [done| |done].
  intros [day l] w2 Hday Hinv2.
  pose proof Hinv2 as (Hs2 & Hlog2 & Hh2).
  sat_steps. rewrite Hh2.
  destruct (heap w !! l) as [meals|] eqn:Hl; [|done]. sat_steps.
  apply sat_for_each with (I := display_post env ui w (Val tt)); [done| |done].
  intros [mt meal] w3 Hmt Hinv3.
  destruct (ui_button ui (btn_key (ui_time ui (clock w)) day mt)); [|by sat_steps].
  eapply sat_mono; [by eapply show_alternatives_sat|].
  by intros [[]|e|] w4 H.
Qed.

(** ** Selecting an alternative *)

Lemma dict_get_is_Some {V} k (v : V) d : (k, v) ∈ d -> is_Some (dict_get k d).
Proof.
  induction d as [|[k0 v0] d IH]; simpl.
  - intros H. by apply elem_of_nil in H.
  - intros H. destruct (decide (k0 = k)); [by eexists|].
    apply elem_of_cons in H as [[= -> ->]|H]; [done|auto].
Qed.

(** The entries of the plan after [plan[day][mt] = alt]. *)
Lemma plan_entry_assigned h plan day mt alt l meals :
  NoDup plan.*2 -> dict_get day plan = Some l -> h !! l = Some meals ->
  plan_entry (<[l := dict_set mt alt meals]> h) plan day mt = Some alt /\
  forall day' mt', (day', mt') <> (day, mt) ->
    plan_entry (<[l := dict_set mt alt meals]> h) plan day' mt' = plan_entry h plan day' mt'.
Proof.
  intros Hnd Hday Hl. unfold plan_entry, day_meals. split.
  - rewrite Hday. simpl. rewrite lookup_insert_eq. simpl. apply dict_get_set_eq.
  - intros day' mt' Hne.
    destruct (dict_get day' plan) as [l'|] eqn:Hday'; [|done]. simpl.
    destruct (decide (l' = l)) as [->|Hl'].
    + rewrite lookup_insert_eq, Hl. simpl.
      assert (day' = day) as -> by eauto using dict_get_inj.
      apply dict_get_set_ne. congruence.
    + by rewrite lookup_insert_ne.
Qed.

(** The plan [calculate_nutrition] stores (line 311): its days are the
    generated days, each with a dictionary object of its own that holds
    the generated meals, and what the store held before is untouched. *)
Lemma alloc_plan_separate h p h' refs :
  alloc_plan h p = (h', refs) ->
  refs.*1 = p.*1 /\ NoDup refs.*2 /\
  (forall l, l ∈ refs.*2 -> l ∉ dom h) /\
  (forall l, l ∈ dom h -> h' !! l = h !! l) /\
  plan_value h' refs = p.
Proof.
  revert h h' refs. induction p as [|[day meals] p IH]; intros h h' refs; simpl.
  - intros [= <- <-]. repeat split; try done; [constructor|].
    intros l H. by apply elem_of_nil in H.
  - destruct (alloc_plan (<[fresh (dom h) := meals]> h) p) as [h1 refs1] eqn:Hrest.
    intros [= <- <-].
    destruct (IH _ _ _ Hrest) as (Hk & Hnd & Hfresh & Hkeep & Hval).
    pose proof (is_fresh (dom h)) as Hl.
    assert (Hin : fresh (dom h) ∈ dom (<[fresh (dom h) := meals]> h)) by set_solver.
    repeat split.
    + by rewrite !fmap_cons, Hk.
    + rewrite fmap_cons. apply NoDup_cons. split; [|done].
      intros H. by apply (Hfresh _ H).
    + rewrite fmap_cons. intros l [->|H]%elem_of_cons; [done|].
      specialize (Hfresh _ H). set_solver.
    + intros l H. rewrite Hkeep by set_solver.
      apply lookup_insert_ne. intros <-. done.
    + unfold plan_value in *. simpl.
      rewrite (Hkeep _ Hin), lookup_insert_eq. simpl. f_equal. exact Hval.
Qed.

Lemma stored_plan_is_separate p w :
  NoDup p.*1 ->
  let w' := (run (store_meal_plan p) w).2 in
  exists refs,
    current_meal_plan (session w') = Some refs /\
    NoDup refs.*1 /\ NoDup refs.*2 /\ plan_value (heap w') refs = p.
Proof.
  intros Hp. unfold run, store_meal_plan, bind, get_heap, put_heap, get_session, put_session.
  cbn. destruct (alloc_plan (heap w) p) as [h' refs] eqn:Halloc. cbn.
  destruct (alloc_plan_separate _ _ _ _ Halloc) as (Hk & Hnd & _ & _ & Hval).
  exists refs. rewrite Hk. by repeat split.
Qed.


(** ** [calculate_nutrition] by cases *)

Lemma before_gate_record w w1 e : before_gate w w1 -> calc_event e -> before_gate w (record e w1).
Proof. intros (Hp & Hh & Hl) He. repeat split; try done. by apply logged_record. Qed.

Lemma calculate_nutrition_cases env ui w (Q : Result unit -> World -> Prop) :
  (ui_button ui "Calculate My Needs" = false -> Q (Val tt) w) ->
  (forall w1 msg, before_gate w w1 ->
     Q (Val tt) (record (StError ("An error occurred: " +:+ msg)) w1)) ->
  (forall w1 target_calories protein_needs bmr,
     before_gate w w1 ->
     user_profile (session w1) = Some (entered_profile ui) ->
     nutritional_targets (session w1) =
       Some {| t_calories := target_calories; t_protein := protein_needs; t_bmr := bmr |} ->
     sat (generate_if_missing env ui target_calories protein_needs) w1 (handled Q)) ->
  sat (calculate_nutrition env ui) w Q.
Proof.
  intros Hoff Hexc Hgate. unfold calculate_nutrition.
  destruct (ui_button ui "Calculate My Needs"); [|by apply sat_ret, Hoff].
  assert (H0 : before_gate w w) by (repeat split; apply logged_refl).
  sat_steps.
  match goal with |- context [record ?e w] =>
    assert (H1 : before_gate w (record e w)) by (by apply before_gate_record);
    revert H1; generalize (record e w); intros w1 H1
  end.
  destruct (calculate_bmr env _ _ _ _) as [bmr|msg]; [|by apply sat_emit, Hexc].
  sat_steps.
  destruct (dict_get (ui_activity ui) activity_levels) as [factor|];
    [|by apply sat_emit, Hexc].
  sat_steps.
  match goal with |- context [record ?e w1] =>
    assert (H2 : before_gate w (record e w1)) by (by apply before_gate_record);
    revert H2; generalize (record e w1); intros w2 H2
  end.
  destruct (calculate_tdee env _ _) as [tdee|msg]; [|by apply sat_emit, Hexc].
  sat_steps.
  match goal with |- context [record ?e w2] =>
    assert (H3 : before_gate w (record e w2)) by (by apply before_gate_record);
    revert H3; generalize (record e w2); intros w3 H3
  end.
  destruct (calculate_protein_needs env _ _) as [pn|msg]; [|by apply sat_emit, Hexc].
  sat_steps.
  eapply sat_mono.
  - by apply Hgate with (bmr := bmr).
  - intros [[]|e|] w4; simpl; auto.
Qed.

Lemma calculate_nutrition_keeps_plan env ui w :
  plan_truthy (current_meal_plan (session w)) = true ->
  sat (calculate_nutrition env ui) w (plan_kept ui w).
Proof.
  intros Hplan. apply calculate_nutrition_cases.
  - intros _. repeat split; auto using logged_refl.
  - intros w1 msg (Hp & Hh & Hl). repeat split; auto.
    apply logged_record; [|done].
    eapply logged_mono; [|exact Hl]. by intros [].
  - intros w1 tc pn bmr (Hp & Hh & Hl) _ _.
    unfold generate_if_missing. sat_steps. rewrite Hp, Hplan. cbn [negb].
    eapply sat_mono; [apply display_meal_plan_sat|].
    intros r w2 (Hs & Hlog & Hr).
    assert (Hlog' : logged not_generate_meal_plan w w2).
    { eapply logged_trans.
      - eapply logged_mono; [|exact Hl]. by intros [].
      - eapply logged_mono; [|exact Hlog]. by intros []. }
    destruct r as [[]|e|]; cbn [handled].
    + repeat split; [congruence|done|left; congruence].
    + repeat split; [simpl; congruence|by apply logged_record|left; simpl; congruence].
    + repeat split; [congruence|done|].
      right. destruct Hr as (day & mt & alt & plan0 & l & meals & meal & t & p & alts & ts &
        l' & meals' & Hr). exists ts, day, mt, (name alt).
      by destruct Hr as (_ & _ & _ & _ & _ & _ & _ & _ & Hb & _).
Qed.

(** C10. When the session already holds a meal plan, a run of
    [calculate_nutrition] -- whatever restrictions and preferences were
    entered -- does not call [generate_meal_plan] and keeps the stored
    plan; in a run triggered by "Calculate My Needs" alone the
    dictionaries of the plan are untouched as well. *)
Theorem existing_plan_is_kept env ui w :
  plan_truthy (current_meal_plan (session w)) = true ->
  let w' := (run (calculate_nutrition env ui) w).2 in
  (forall cal prot diet cuisine,
     Call_generate_meal_plan cal prot diet cuisine ∉ new_events w w') /\
  current_meal_plan (session w') = current_meal_plan (session w) /\
  ((forall k, ui_button ui k = true -> k = "Calculate My Needs") -> heap w' = heap w).
Proof.
  intros Hplan w'. subst w'.
  pose proof (calculate_nutrition_keeps_plan env ui w Hplan) as H. apply sat_run in H.
  destruct H as (Hp & Hl & Hh). split; [|split; [done|]].
  - intros cal prot diet cuisine Hin.
    apply (logged_new_events _ _ _ _ Hl Hin).
  - intros Hquiet. destruct Hh as [Hh|(ts & day & mt & a & Hb)]; [done|].
    apply Hquiet in Hb. discriminate Hb.
Qed.

Lemma calculate_nutrition_no_plan env ui w :
  plan_truthy (current_meal_plan (session w)) = false ->
  (forall cal prot,
     match generate_meal_plan env cal prot
             (ui_dietary_restrictions ui) (ui_cuisine_preferences ui) with
     | Returns p => plan_truthy p = false
     | Raises _ => True
     end) ->
  sat (calculate_nutrition env ui) w (no_plan_stored w).
Proof.
  intros Hplan Hgen. apply calculate_nutrition_cases.
  - intros _. repeat split; auto using logged_refl.
  - intros w1 msg (Hp & Hh & Hl). repeat split; auto.
    right. exists ("An error occurred: " +:+ msg). simpl. apply last_snoc.
  - intros w1 tc pn bmr (Hp & Hh & Hl) _ _.
    unfold generate_if_missing. sat_steps. rewrite Hp, Hplan. cbn [negb]. sat_steps.
    specialize (Hgen tc pn).
    destruct (generate_meal_plan env tc pn _ _) as [p|msg]; sat_steps.
    + rewrite Hgen. sat_steps. repeat split; auto.
      right. eexists. apply last_snoc.
    + repeat split; auto. right. eexists. simpl. apply last_snoc.
Qed.

(** ** The events of the script's parts *)

Lemma appended_snoc P l0 l e : appended P l0 l -> P e -> appended P l0 (l ++ [e]).
Proof.
  intros (evs & -> & F) He. exists (evs ++ [e]).
  split; [by rewrite app_assoc|]. apply Forall_app. split; [done|]. by constructor.
Qed.

(** A postcondition of the shape [logged P w0 _] after straight-line
    steps from a world [w1] with [H : logged P w0 w1]: one side condition
    per event. *)
Ltac solve_logged H :=
  unfold logged in H |- *; cbn [log record] in H |- *;
  repeat apply appended_snoc; [exact H|..].

Section Footprint.
Variable env : Collaborators.
Variable ui : UI.

Lemma display_meal_plan_logged w0 w :
  logged (script_event ui) w0 w ->
  sat (display_meal_plan env ui) w (fun _ w' => logged (script_event ui) w0 w').
Proof.
  intros H. eapply sat_mono; [apply display_meal_plan_sat|].
  intros r w' (_ & Hl & _). eapply logged_trans; [exact H|].
  eapply logged_mono; [|exact Hl]. by intros [].
Qed.

Lemma store_meal_plan_logged w0 w p :
  logged (script_event ui) w0 w ->
  sat (store_meal_plan p) w (fun r w' =>
    logged (script_event ui) w0 w' /\ exists a : unit, r = Val a).
Proof.
  intros H. unfold store_meal_plan. sat_steps.
  destruct (alloc_plan (heap w) p) as [h' refs]. sat_steps. split; [done|by eexists].
Qed.

Lemma calculate_nutrition_logged w0 w :
  logged (script_event ui) w0 w ->
  sat (calculate_nutrition env ui) w (fun _ w' => logged (script_event ui) w0 w').
Proof.
  intros H. apply calculate_nutrition_cases.
  - done.
  - intros w1 msg (_ & _ & Hl). apply logged_record; [|done].
    eapply logged_trans; [exact H|]. eapply logged_mono; [|exact Hl]. by intros [].
  - intros w1 tc pn bmr (_ & _ & Hl) _ _.
    assert (H1 : logged (script_event ui) w0 w1).
    { eapply logged_trans; [exact H|]. eapply logged_mono; [|exact Hl]. by intros []. }
    assert (Hdisplay : forall w2, logged (script_event ui) w0 w2 ->
      sat (display_meal_plan env ui) w2
        (handled (fun _ w' => logged (script_event ui) w0 w'))).
    { intros w2 H2. eapply sat_mono; [by apply display_meal_plan_logged|].
      intros [[]|e|] w3 H3; simpl; auto. by apply logged_record. }
    unfold generate_if_missing. sat_steps.
    destruct (negb (plan_truthy (current_meal_plan (session w1)))); [|by apply Hdisplay].
    sat_steps.
    assert (H2 : logged (script_event ui) w0
      (record (Call_generate_meal_plan tc pn (ui_dietary_restrictions ui)
                 (ui_cuisine_preferences ui)) w1)) by (by apply logged_record).
    revert H2. generalize (record (Call_generate_meal_plan tc pn (ui_dietary_restrictions ui)
                 (ui_cuisine_preferences ui)) w1). intros w2 H2.
    destruct (generate_meal_plan env tc pn _ _) as [p|msg]; sat_steps.
    + destruct (plan_truthy p).
      * sat_steps. eapply sat_mono; [by apply store_meal_plan_logged|].
        intros r w3 (H3 & a & ->). cbn [then_sat]. by apply Hdisplay.
      * sat_steps. by apply logged_record.
    + by apply logged_record.
Qed.

Lemma get_database_logged w0 w (Q : option Db -> World -> Prop) :
  logged (script_event ui) w0 w ->
  (forall db w', logged (script_event ui) w0 w' -> Q db w') ->
  sat (get_database env) w (fun r w' => exists db, r = Val db /\ Q db w').
Proof.
  intros H HQ. unfold get_database. sat_steps.
  destruct (get_db env) as [db|msg]; sat_steps.
  - eexists. split; [done|]. apply HQ. by apply logged_record.
  - eexists. split; [done|]. apply HQ. by repeat apply logged_record.
Qed.
Lemma save_meal_plan_button_logged w0 w :
  logged (script_event ui) w0 w ->
  sat (save_meal_plan_button env ui) w (fun _ w' => logged (script_event ui) w0 w').
Proof.
  intros H. unfold save_meal_plan_button.
  destruct (ui_button ui "Save Current Meal Plan"); [|done].
  sat_steps. eapply sat_mono; [by apply (get_database_logged w0 w
    (fun _ w' => logged (script_event ui) w0 w'))|].
  intros r w1 (db & -> & H1). cbn [then_sat].
  destruct db as [db|]; [|done].
  sat_steps.
  assert (H2 : logged (script_event ui) w0 (record Call_get_current_user w1))
    by (by apply logged_record).
  revert H2. generalize (record Call_get_current_user w1). intros w2 H2.
  destruct (get_current_user env) as [[user|]|msg]; sat_steps.
  - destruct (nutritional_targets (session w2)) as [t|]; sat_steps.
    + destruct (save_meal_plan env _ _ _ _) as [[]|msg]; sat_steps;
        destruct (db_close env) as [[]|?]; by repeat apply logged_record.
    + destruct (db_close env) as [[]|?]; by repeat apply logged_record.
  - destruct (db_close env) as [[]|?]; by repeat apply logged_record.
  - destruct (db_close env) as [[]|?]; by repeat apply logged_record.
Qed.

Lemma nutrition_tab_logged w0 w :
  logged (script_event ui) w0 w ->
  sat (nutrition_tab env ui) w (fun _ w' => logged (script_event ui) w0 w').
Proof.
  intros H. unfold nutrition_tab. sat_steps.
  eapply sat_mono; [by apply calculate_nutrition_logged|].
  intros [[]|e|] w1 H1; cbn [then_sat]; try done.
  sat_steps. destruct (plan_truthy (current_meal_plan (session w1))); [|done].
  sat_steps. eapply sat_mono; [by apply display_meal_plan_logged|].
  intros [[]|e|] w2 H2; cbn [then_sat]; try done.
  by apply save_meal_plan_button_logged.
Qed.

Lemma generate_new_workout_logged db lvl goals ds eq t mg w0 w :
  logged (new_workout_event lvl goals ds eq t mg) w0 w ->
  sat (generate_new_workout env db lvl goals ds eq t mg) w (fun _ w' =>
    logged (new_workout_event lvl goals ds eq t mg) w0 w').
Proof.
  intros H. unfold generate_new_workout. sat_steps.
  destruct ds as [|d ds'] eqn:Eds; [sat_steps; by apply logged_record|].
  destruct mg as [|g mg'] eqn:Emg; [sat_steps; by apply logged_record|].
  rewrite <- Eds, <- Emg in *. sat_steps.
  cbn [validate_exercise_library negb]. sat_steps.
  match goal with |- context [generate_workout_plan env ?a ?b ?c ?d ?e ?f ?g] =>
    destruct (generate_workout_plan env a b c d e f g) as [[sched|]|msg]
  end; sat_steps.
  - match goal with |- context [save_workout_schedule env ?a ?b ?c] =>
      destruct (save_workout_schedule env a b c) as [[]|msg]
    end; sat_steps; solve_logged H; try done; simpl; by rewrite Eds, Emg.
  - solve_logged H; try done; simpl; by rewrite Eds, Emg.
  - solve_logged H; try done; simpl; by rewrite Eds, Emg.
Qed.
Lemma generate_workout_button_logged w0 w :
  logged (script_event ui) w0 w ->
  sat (generate_workout_button env ui) w (fun _ w' => logged (script_event ui) w0 w').
Proof.
  intros H. unfold generate_workout_button.
  destruct (ui_button ui "Generate Workout Plan"); [|done].
  destruct (available_days ui) as [|d ds] eqn:Eds; [sat_steps; by apply logged_record|].
  destruct (any_muscles (muscle_groups ui)) eqn:Emg;
    [|sat_steps; by apply logged_record].
  cbn [negb]. sat_steps.
  eapply sat_mono; [by apply (get_database_logged w0 w
    (fun _ w' => logged (script_event ui) w0 w'))|].
  intros r w1 (db & -> & H1). cbn [then_sat].
  destruct db as [db|]; [|done].
  sat_steps. rewrite <- Eds.
  eapply sat_mono; [apply generate_new_workout_logged, logged_refl|].
  intros r w2 H2.
  assert (H2' : logged (script_event ui) w0 w2).
  { eapply logged_trans; [exact H1|]. eapply logged_mono; [|exact H2].
    intros []; simpl; try done.
    intros (-> & -> & -> & -> & -> & -> & _ & _). rewrite Eds. by repeat split. }
  clear H2. revert H2'. generalize w2. clear w2. intros w2 H2.
  destruct r as [[sched|]|e|]; sat_steps.
  - match goal with |- context [save_workout_schedule env ?a ?b ?c] =>
      destruct (save_workout_schedule env a b c) as [[]|msg]
    end; sat_steps; destruct (db_close env) as [[]|?]; by repeat apply logged_record.
  - destruct (db_close env) as [[]|?]; by repeat apply logged_record.
  - destruct (db_close env) as [[]|?]; by repeat apply logged_record.
  - destruct (db_close env) as [[]|?]; by repeat apply logged_record.
Qed.

Lemma current_workout_column_logged w0 w :
  logged (script_event ui) w0 w ->
  sat (current_workout_column env) w (fun _ w' => logged (script_event ui) w0 w').
Proof.
  intros H. unfold current_workout_column. sat_steps.
  eapply sat_mono; [by apply (get_database_logged w0 w
    (fun _ w' => logged (script_event ui) w0 w'))|].
  intros r w1 (db & -> & H1). cbn [then_sat].
  destruct db as [db|]; [|done].
  sat_steps.
  destruct (get_latest_workout_schedule env _) as [s|msg]; sat_steps;
    destruct (db_close env) as [[]|?]; by repeat apply logged_record.
Qed.

(** Every event of a run of [main] is a [script_event]. *)
Lemma main_logged w : sat (main env ui) w (fun _ w' => logged (script_event ui) w w').
Proof.
  unfold main. sat_steps.
  destruct (is_authenticated (session w)); [|apply logged_refl].
  cbn [negb]. sat_steps.
  destruct (ui_button ui "Logout"); sat_steps; [apply logged_same_log, logged_refl|].
  eapply sat_mono; [apply generate_workout_button_logged, logged_refl|].
  intros [[]|e|] w1 H1; cbn [then_sat]; try done.
  sat_steps. eapply sat_mono; [by apply current_workout_column_logged|].
  intros [[]|e|] w2 H2; cbn [then_sat]; try done.
  by apply nutrition_tab_logged.
Qed.
End Footprint.

(** ** The per-slot target of the Alternative Finder *)

Lemma alternatives_called_on_a_third env ui w mt tc tp diet cuisine current :
  Call_get_alternative_meals mt tc tp diet cuisine current
    ∈ new_events w (run (display_meal_plan env ui) w).2 ->
  exists t,
    nutritional_targets (session w) = Some t /\
    tc = (t_calories t / 3)%Q /\ tp = (t_protein t / 3)%Q.
Proof.
  intros Hin. pose proof (display_meal_plan_sat env ui w) as H. apply sat_run in H.
  destruct H as (_ & Hl & _).
  pose proof (logged_new_events _ _ _ _ Hl Hin) as (t & p & Ht & _ & -> & -> & _).
  eauto.
Qed.

(** ** The workout gates *)

(** C9. [validate_exercise_library] answers [True] for every library, and
    so, whatever the library holds, [generate_new_workout] on non-empty
    days and muscle groups goes on to call [generate_workout_plan] and
    never shows the exercise-data error. *)
Theorem validation_gate_never_blocks env db lvl goals d ds eq t g gs w :
  (forall lib, validate_exercise_library lib = true) /\
  let w' := (run (generate_new_workout env db lvl goals (d :: ds) eq t (g :: gs)) w).2 in
  Call_generate_workout_plan lvl goals (d :: ds) eq t (g :: gs) ∈ new_events w w' /\
  StError "Error with exercise data. Please try again." ∉ new_events w w'.
Proof.
  split; [done|].
  unfold run, new_events, generate_new_workout, try_except, bind, call, emit, record,
    get_session, put_session, ret, raise, st_rerun.
  cbn.
  destruct (generate_workout_plan env _ _ _ _ _ _ _) as [[sched|]|msg]; cbn;
    [destruct (save_workout_schedule env _ _ _) as [[]|msg]; cbn|..];
    rewrite <- ?app_assoc; cbn [app]; rewrite drop_app_length;
    (split; [set_solver|]);
    rewrite !elem_of_cons, elem_of_nil; intros H; intuition discriminate.
Qed.

(** C5. In a run of [main], [generate_workout_plan] is called only with
    the days and the muscle groups the user selected, passed on as they
    are, and then at least one day and at least one muscle group are
    selected. With no day selected, or no muscle group selected on any
    day, the "Generate Workout Plan" button shows an error and does
    nothing else. *)
Theorem invalid_workout_input_is_rejected env ui w :
  (forall lvl gs ds eq t mg,
     Call_generate_workout_plan lvl gs ds eq t mg ∈ new_events w (run (main env ui) w).2 ->
     ds = available_days ui /\ mg = muscle_groups ui /\
     lvl = ui_fitness_level ui /\ gs = ui_goals ui /\ eq = ui_equipment ui /\
     t = ui_time_per_session ui /\
     ds <> [] /\ any_muscles mg = true) /\
  (ui_button ui "Generate Workout Plan" = true ->
   available_days ui = [] \/ any_muscles (muscle_groups ui) = false ->
   exists msg, run (generate_workout_button env ui) w = (Val tt, record (StError msg) w)).
Proof.
  split.
  - intros lvl gs ds eq t mg Hin.
    pose proof (main_logged env ui w) as H. apply sat_run in H.
    pose proof (logged_new_events _ _ _ _ H Hin) as Hev. simpl in Hev.
    destruct Hev as (-> & -> & -> & -> & -> & -> & Hd & Hm). by repeat split.
  - intros Hb Hbad. unfold run, generate_workout_button. rewrite Hb.
    destruct (available_days ui) as [|d ds]; [by eexists|].
    destruct Hbad as [|Hm]; [done|]. rewrite Hm. by eexists.
Qed.

(** ** Saving the meal plan *)

(** C8, as the code has it. No run of [main] calls [validate_meal_plan];
    and when "Save Current Meal Plan" is pressed while a database session,
    a current user and the nutritional targets are available,
    [save_meal_plan] is called with the plan exactly as the session holds
    it, whatever it holds, and with the stored targets. *)
Theorem save_path_runs_no_validation env ui w db user t :
  ui_button ui "Save Current Meal Plan" = true ->
  get_db env = Returns db ->
  get_current_user env = Returns (Some user) ->
  nutritional_targets (session w) = Some t ->
  (forall w0 p, Call_validate_meal_plan p ∉ new_events w0 (run (main env ui) w0).2) /\
  Call_save_meal_plan (id user)
    (plan_value (heap w) (default [] (current_meal_plan (session w))))
    (t_calories t) (t_protein t)
    ∈ new_events w (run (save_meal_plan_button env ui) w).2.
Proof.
  intros Hb Hdb Huser Ht. split.
  - intros w0 p Hin. pose proof (main_logged env ui w0) as H. apply sat_run in H.
    apply (logged_new_events _ _ _ _ H Hin).
  - unfold run, new_events, save_meal_plan_button, get_database, try_finally, try_except,
      bind, call, emit, record, get_session, get_heap, subscript, ret, raise.
    rewrite Hb. cbn. rewrite Hdb. cbn. rewrite Huser. cbn. rewrite Ht. cbn.
    destruct (save_meal_plan env _ _ _ _) as [[]|msg]; cbn;
      destruct (db_close env) as [[]|msg']; cbn;
      rewrite <- ?app_assoc; cbn [app]; rewrite drop_app_length; set_solver.
Qed.

(** ** The ranking of the Constraint Matcher *)

Section RankingFacts.
Context {A : Type}.
Variable key : A -> Q.

Lemma insert_ranked_perm x (l : list A) : Engine.insert_ranked key x l ≡ₚ x :: l.
Proof.
  induction l as [|y l IH]; simpl; [done|].
  destruct (Qle_bool (key x) (key y)); [done|].
  rewrite IH. apply Permutation_swap.
Qed.

Lemma rank_perm (l : list A) : Engine.rank key l ≡ₚ l.
Proof.
  induction l as [|x l IH]; simpl; [done|].
  by rewrite insert_ranked_perm, IH.
Qed.

Lemma elem_of_rank x (l : list A) : x ∈ Engine.rank key l <-> x ∈ l.
Proof. by rewrite rank_perm. Qed.

Lemma head_insert_ranked x (l : list A) :
  head (Engine.insert_ranked key x l) =
  match head l with
  | Some y => if Qle_bool (key x) (key y) then Some x else Some y
  | None => Some x
  end.
Proof. destruct l as [|y l]; simpl; [done|]. by destruct (Qle_bool _ _). Qed.

(** The head of the ranked sequence is the top-ranked candidate. *)
Lemma head_rank_top_ranked (pool : list A) x :
  head (Engine.rank key pool) = Some x -> Engine.top_ranked key pool x.
Proof.
  revert x. induction pool as [|a pool IH]; intros x; simpl; [done|].
  rewrite head_insert_ranked.
  destruct (head (Engine.rank key pool)) as [y|] eqn:Hy.
  - destruct (IH y eq_refl) as (i & Hi & Hmin & Hfirst).
    destruct (Qle_bool (key a) (key y)) eqn:Hle; intros [= <-].
    + apply Qle_bool_iff in Hle. exists 0%nat. split; [done|]. split.
      * intros [|j] z; simpl; [intros [= <-]; apply Qle_refl|].
        intros Hz. eapply Qle_trans; [exact Hle|eauto].
      * intros j z Hj. lia.
    + assert (Hlt : (key y < key a)%Q).
      { apply Qnot_le_lt. intros H. apply Qle_bool_iff in H. congruence. }
      exists (S i). split; [done|]. split.
      * intros [|j] z; simpl; [intros [= <-]; by apply Qlt_le_weak|eauto].
      * intros [|j] z Hj; simpl; [by intros [= <-]|].
        apply Hfirst. lia.
  - intros [= <-]. apply head_None in Hy.
    assert (pool = []) as ->.
    { apply Permutation_nil_r. by rewrite <- Hy, rank_perm. }
    exists 0%nat. split; [done|]. split.
    + intros [|j] z; simpl; [intros [= <-]; apply Qle_refl|done].
    + intros j z Hj. lia.
Qed.

(** There is one top-ranked candidate. *)
Lemma top_ranked_unique (pool : list A) x y :
  Engine.top_ranked key pool x -> Engine.top_ranked key pool y -> x = y.
Proof.
  intros (i & Hi & Hxmin & Hxfirst) (j & Hj & Hymin & Hyfirst).
  destruct (lt_eq_lt_dec i j) as [[Hlt| ->]|Hlt].
  - specialize (Hyfirst _ _ Hlt Hi). specialize (Hxmin _ _ Hj).
    destruct (Qlt_not_le _ _ Hyfirst Hxmin).
  - congruence.
  - specialize (Hxfirst _ _ Hlt Hj). specialize (Hymin _ _ Hi).
    destruct (Qlt_not_le _ _ Hxfirst Hymin).
Qed.

Lemma head_rank_selects : Engine.selects_top_ranked key (fun pool => head (Engine.rank key pool)).
Proof.
  intros pool. destruct (head (Engine.rank key pool)) as [x|] eqn:H.
  - by apply head_rank_top_ranked.
  - apply head_None in H. apply Permutation_nil_r. by rewrite <- H, rank_perm.
Qed.

(** The single pass keeps the top-ranked candidate of what it has
    seen. *)
Lemma scan_best_top_ranked (seen l : list A) best :
  Engine.top_ranked key seen best ->
  Engine.top_ranked key (seen ++ l) (Engine.scan_best key best l).
Proof.
  revert seen best. induction l as [|x l IH]; intros seen best Hbest; simpl.
  - by rewrite app_nil_r.
  - replace (seen ++ x :: l) with ((seen ++ [x]) ++ l) by (by rewrite <- app_assoc).
    apply IH. destruct Hbest as (i & Hi & Hmin & Hfirst).
    pose proof (lookup_lt_Some _ _ _ Hi) as Hlen.
    assert (Hsnoc : forall j y, (seen ++ [x]) !! j = Some y ->
      seen !! j = Some y \/ (j = length seen /\ y = x)).
    { intros j y Hj. apply lookup_app_Some in Hj as [Hj|[Hge Hj]]; [by left|right].
      apply list_lookup_singleton_Some in Hj as [Hj ->]. split; [lia|done]. }
    destruct (Qle_bool (key best) (key x)) eqn:Hle.
    + apply Qle_bool_iff in Hle. exists i. split; [by apply lookup_app_l_Some|]. split.
      * intros j y [Hj|[_ ->]]%Hsnoc; eauto.
      * intros j y Hlt [Hj|[-> _]]%Hsnoc; [eauto|lia].
    + assert (Hlt : (key x < key best)%Q).
      { apply Qnot_le_lt. intros H. apply Qle_bool_iff in H. congruence. }
      exists (length seen). split; [apply list_lookup_middle; done|]. split.
      * intros j y [Hj|[_ ->]]%Hsnoc; [|apply Qle_refl].
        apply Qlt_le_weak. eapply Qlt_le_trans; [exact Hlt|eauto].
      * intros j y Hj [Hy|[-> _]]%Hsnoc; [|lia].
        eapply Qlt_le_trans; [exact Hlt|eauto].
Qed.

Lemma single_pass_selects : Engine.selects_top_ranked key (Engine.single_pass key).
Proof.
  intros [|x l]; simpl; [done|].
  apply (scan_best_top_ranked [x] l x). exists 0%nat. split; [done|]. split.
  - intros [|j] y; simpl; [intros [= <-]; apply Qle_refl|done].
  - intros j y Hj. lia.
Qed.

(** Two procedures that select the top-ranked candidate select the
    same. *)
Lemma selects_top_ranked_agree (c1 c2 : list A -> option A) pool :
  Engine.selects_top_ranked key c1 -> Engine.selects_top_ranked key c2 ->
  c1 pool = c2 pool.
Proof.
  intros H1 H2. specialize (H1 pool). specialize (H2 pool).
  destruct (c1 pool) as [x|], (c2 pool) as [y|]; try done.
  - f_equal. eauto using top_ranked_unique.
  - subst pool. destruct H1 as (i & Hi & _). by rewrite lookup_nil in Hi.
  - subst pool. destruct H2 as (i & Hi & _). by rewrite lookup_nil in Hi.
Qed.
End RankingFacts.

(** ** The meal engine *)

Section MealFacts.
Variables w_cal w_prot : Q.
Variable library : list Meal.

Abbreviation select := (Engine.select w_cal w_prot).
Abbreviation best := (Engine.best w_cal w_prot).
Abbreviation pool_of := (Engine.pool_of library).
Abbreviation candidates diet cuisine pool :=
  (filter (fun m => Engine.passes diet cuisine m = true) pool).

Lemma elem_of_select m pool tc tp diet cuisine :
  m ∈ select pool tc tp diet cuisine <->
  m ∈ pool /\ Engine.passes diet cuisine m = true.
Proof.
  unfold Engine.select. rewrite elem_of_rank, list_elem_of_filter. tauto.
Qed.

Lemma best_takes_top_ranked : Engine.takes_top_ranked w_cal w_prot best.
Proof.
  intros pool tc tp diet cuisine. unfold Engine.best, Engine.select.
  apply (head_rank_selects (Engine.score w_cal w_prot tc tp)).
Qed.

Lemma best_single_pass_takes_top_ranked :
  Engine.takes_top_ranked w_cal w_prot (Engine.best_single_pass w_cal w_prot).
Proof.
  intros pool tc tp diet cuisine. unfold Engine.best_single_pass.
  apply (single_pass_selects (Engine.score w_cal w_prot tc tp)).
Qed.

Lemma best_None pool tc tp diet cuisine :
  best pool tc tp diet cuisine = None <-> candidates diet cuisine pool = [].
Proof.
  split.
  - intros H. pose proof (best_takes_top_ranked pool tc tp diet cuisine) as Hb.
    by rewrite H in Hb.
  - intros H. unfold Engine.best, Engine.select. by rewrite H.
Qed.

(** Two selection steps that meet the contract take the same candidate. *)
Lemma takes_top_ranked_agree m1 m2 pool tc tp diet cuisine :
  Engine.takes_top_ranked w_cal w_prot m1 -> Engine.takes_top_ranked w_cal w_prot m2 ->
  m1 pool tc tp diet cuisine = m2 pool tc tp diet cuisine.
Proof.
  intros H1 H2.
  specialize (H1 pool tc tp diet cuisine). specialize (H2 pool tc tp diet cuisine).
  destruct (m1 pool tc tp diet cuisine) as [x|], (m2 pool tc tp diet cuisine) as [y|];
    try done.
  - f_equal. eauto using top_ranked_unique.
  - rewrite H2 in H1. destruct H1 as (i & Hi & _). by rewrite lookup_nil in Hi.
  - rewrite H1 in H2. destruct H2 as (i & Hi & _). by rewrite lookup_nil in Hi.
Qed.

Section GeneratorFacts.
Variable matcher : list Meal -> Q -> Q -> list string -> list string -> option Meal.
Variables (cal prot : Q) (diet cuisine : list string).

Abbreviation fill_day := (Engine.fill_day library matcher cal prot diet cuisine).
Abbreviation fill_days := (Engine.fill_days library matcher cal prot diet cuisine).

Lemma per_slot_third (daily : Q) : Engine.per_slot daily = (daily / 3)%Q.
Proof. reflexivity. Qed.

(** A filled day holds, slot by slot, the matcher's choice for a third
    of the daily targets. *)
Lemma fill_day_inr day slots meals :
  fill_day day slots = inr meals ->
  meals.*1 = slots /\
  forall mt m, (mt, m) ∈ meals ->
    matcher (pool_of mt) (cal / 3)%Q (prot / 3)%Q diet cuisine = Some m.
Proof.
  revert meals. induction slots as [|mt slots IH]; intros meals; simpl.
  - intros [= <-]. split; [done|]. intros mt m H. by apply elem_of_nil in H.
  - unfold Engine.fill_slot. rewrite !per_slot_third.
    destruct (matcher (pool_of mt) _ _ diet cuisine) as [m|] eqn:Hm; [|done].
    destruct (fill_day day slots) as [f|meals'] eqn:Hd; [done|].
    intros [= <-]. destruct (IH meals' eq_refl) as [Hk Hv]. split.
    + by rewrite fmap_cons, Hk.
    + intros mt' m' [[= -> ->]|H]%elem_of_cons; auto.
Qed.

(** A day fails at its first slot without a candidate. *)
Lemma fill_day_inl day slots f :
  fill_day day slots = inl f ->
  exists mt, f = Engine.ConstraintUnsatisfiable day mt /\ mt ∈ slots /\
    matcher (pool_of mt) (cal / 3)%Q (prot / 3)%Q diet cuisine = None.
Proof.
  induction slots as [|mt slots IH]; simpl; [done|].
  unfold Engine.fill_slot. rewrite !per_slot_third.
  destruct (matcher (pool_of mt) _ _ diet cuisine) as [m|] eqn:Hm.
  - destruct (fill_day day slots) as [f'|meals'] eqn:Hd; [|done].
    intros [= <-]. destruct (IH eq_refl) as (mt' & -> & Hin & Hnone).
    exists mt'. split; [done|]. split; [by right|done].
  - intros [= <-]. exists mt. split; [done|]. split; [left|done].
Qed.

Lemma fill_day_None day slots mt :
  mt ∈ slots -> matcher (pool_of mt) (cal / 3)%Q (prot / 3)%Q diet cuisine = None ->
  exists f, fill_day day slots = inl f.
Proof.
  induction slots as [|mt' slots IH]; simpl.
  - intros H. by apply elem_of_nil in H.
  - unfold Engine.fill_slot. rewrite !per_slot_third.
    intros [->|Hin]%elem_of_cons Hnone.
    + rewrite Hnone. eauto.
    + destruct (matcher (pool_of mt') _ _ diet cuisine); [|eauto].
      destruct (IH Hin Hnone) as [f ->]. eauto.
Qed.

Lemma fill_days_inr days plan :
  fill_days days = inr plan ->
  plan.*1 = days /\
  forall day meals, (day, meals) ∈ plan ->
    meals.*1 = Engine.meal_slots /\
    forall mt m, (mt, m) ∈ meals ->
      matcher (pool_of mt) (cal / 3)%Q (prot / 3)%Q diet cuisine = Some m.
Proof.
  revert plan. induction days as [|day days IH]; intros plan; cbn [Engine.fill_days].
  - intros [= <-]. split; [done|]. intros day meals H. by apply elem_of_nil in H.
  - destruct (fill_day day Engine.meal_slots) as [f|meals] eqn:Hd; [done|].
    destruct (fill_days days) as [f|plan'] eqn:Hp; [done|].
    intros [= <-]. destruct (IH plan' eq_refl) as [Hk Hv]. split.
    + by rewrite fmap_cons, Hk.
    + intros day' meals' [[= -> ->]|H]%elem_of_cons; [|by apply (Hv day')].
      by apply fill_day_inr in Hd.
Qed.

Lemma fill_days_inl days f :
  fill_days days = inl f ->
  exists day mt, f = Engine.ConstraintUnsatisfiable day mt /\ day ∈ days /\
    mt ∈ Engine.meal_slots /\
    matcher (pool_of mt) (cal / 3)%Q (prot / 3)%Q diet cuisine = None.
Proof.
  induction days as [|day days IH]; cbn [Engine.fill_days]; [done|].
  destruct (fill_day day Engine.meal_slots) as [f'|meals] eqn:Hd.
  - intros [= <-]. apply fill_day_inl in Hd as (mt & -> & Hin & Hnone).
    exists day, mt. split; [done|]. split; [left|done].
  - destruct (fill_days days) as [f'|plan'] eqn:Hp; [|done].
    intros [= <-]. destruct (IH eq_refl) as (day' & mt & -> & Hin & Hmt & Hnone).
    exists day', mt. split; [done|]. split; [by right|done].
Qed.
End GeneratorFacts.

(** Generation depends on the selection step only through its choices. *)
Lemma generate_with_ext m1 m2 cal prot diet cuisine :
  (forall pool tc tp, m1 pool tc tp diet cuisine = m2 pool tc tp diet cuisine) ->
  Engine.generate_with library m1 cal prot diet cuisine =
  Engine.generate_with library m2 cal prot diet cuisine.
Proof.
  intros Hext. unfold Engine.generate_with.
  assert (Hday : forall day slots,
    Engine.fill_day library m1 cal prot diet cuisine day slots =
    Engine.fill_day library m2 cal prot diet cuisine day slots).
  { intros day slots. induction slots as [|mt slots IH]; simpl; [done|].
    unfold Engine.fill_slot. by rewrite Hext, IH. }
  induction Engine.week as [|day days IH]; cbn [Engine.fill_days]; [done|].
  by rewrite Hday, IH.
Qed.

(** A slot without a candidate fails the plan, and the failure names a
    slot without a candidate. *)
Lemma generate_meal_plan_unsatisfiable cal prot diet cuisine mt :
  mt ∈ Engine.meal_slots -> candidates diet cuisine (pool_of mt) = [] ->
  exists day slot,
    Engine.generate_meal_plan w_cal w_prot library cal prot diet cuisine =
      inl (Engine.ConstraintUnsatisfiable day slot) /\
    day ∈ Engine.week /\ slot ∈ Engine.meal_slots /\
    candidates diet cuisine (pool_of slot) = [].
Proof.
  intros Hmt Hnone. unfold Engine.generate_meal_plan, Engine.generate_with.
  destruct (Engine.fill_days library best cal prot diet cuisine Engine.week)
    as [f|plan] eqn:Hg.
  - apply fill_days_inl in Hg as (day & slot & -> & Hday & Hslot & Hb).
    exists day, slot. repeat split; try done. by apply best_None in Hb.
  - exfalso. cbn [Engine.fill_days Engine.week] in Hg.
    destruct (fill_day_None best cal prot diet cuisine "Monday" Engine.meal_slots mt Hmt)
      as [f Hf]; [by apply best_None|].
    by rewrite Hf in Hg.
Qed.
End MealFacts.

(** C2. Whatever the library, the targets and the filters, the
    alternatives returned for a current item never carry the current
    item's name, and there are at most [K] = 5 of them. *)
Theorem alternatives_exclude_current w_cal w_prot library mt tc tp diet cuisine current :
  let alts :=
    Engine.get_alternative_meals w_cal w_prot library mt tc tp diet cuisine current in
  (current ∉ (name <$> alts)) /\ (length alts <= Engine.K)%nat /\ Engine.K = 5%nat.
Proof.
  intros alts. subst alts. unfold Engine.get_alternative_meals. split; [|split; [|done]].
  - intros (m & Hname & Hm)%list_elem_of_fmap.
    apply elem_of_take in Hm as (i & Hm & _).
    apply list_elem_of_lookup_2 in Hm.
    apply elem_of_select in Hm as [Hm _].
    apply list_elem_of_filter in Hm as [Hne _]. by apply Hne.
  - rewrite length_take. lia.
Qed.


(** C4. When a meal slot has no candidate under the entered filters, the
    generator fails for the whole plan with [ConstraintUnsatisfiable]
    naming a slot without candidates -- no plan, partial or substituted,
    comes out -- and a run of [calculate_nutrition] on a session without a
    plan leaves the session without a plan and the store untouched, and
    ends on an error message if the generator was called. The collaborator
    reports the generator's failure by a falsy return or by raising. *)
Theorem unsatisfiable_slot_fails_the_plan w_cal w_prot library env ui raises w mt :
  mt ∈ Engine.meal_slots ->
  filter (fun m => Engine.passes (ui_dietary_restrictions ui)
                     (ui_cuisine_preferences ui) m = true)
         (Engine.pool_of library mt) = [] ->
  (forall cal prot,
     generate_meal_plan env cal prot (ui_dietary_restrictions ui)
       (ui_cuisine_preferences ui) =
     Engine.reported raises
       (Engine.generate_meal_plan w_cal w_prot library cal prot
          (ui_dietary_restrictions ui) (ui_cuisine_preferences ui))) ->
  plan_truthy (current_meal_plan (session w)) = false ->
  (forall cal prot, exists day slot,
     Engine.generate_meal_plan w_cal w_prot library cal prot
       (ui_dietary_restrictions ui) (ui_cuisine_preferences ui) =
       inl (Engine.ConstraintUnsatisfiable day slot) /\
     day ∈ Engine.week /\ slot ∈ Engine.meal_slots /\
     filter (fun m => Engine.passes (ui_dietary_restrictions ui)
                        (ui_cuisine_preferences ui) m = true)
            (Engine.pool_of library slot) = []) /\
  current_meal_plan (session (run (calculate_nutrition env ui) w).2) =
    current_meal_plan (session w) /\
  heap (run (calculate_nutrition env ui) w).2 = heap w /\
  (forall cal prot diet cuisine,
     Call_generate_meal_plan cal prot diet cuisine
       ∈ new_events w (run (calculate_nutrition env ui) w).2 ->
     exists msg, last (log (run (calculate_nutrition env ui) w).2) = Some (StError msg)).
Proof.
  intros Hmt Hnone Henv Hplan.
  assert (Hfail : forall cal prot, exists day slot,
     Engine.generate_meal_plan w_cal w_prot library cal prot
       (ui_dietary_restrictions ui) (ui_cuisine_preferences ui) =
       inl (Engine.ConstraintUnsatisfiable day slot) /\
     day ∈ Engine.week /\ slot ∈ Engine.meal_slots /\
     filter (fun m => Engine.passes (ui_dietary_restrictions ui)
                        (ui_cuisine_preferences ui) m = true)
            (Engine.pool_of library slot) = []).
  { intros cal prot. by eapply generate_meal_plan_unsatisfiable. }
  split; [done|].
  assert (Hgen : forall cal prot,
     match generate_meal_plan env cal prot
             (ui_dietary_restrictions ui) (ui_cuisine_preferences ui) with
     | Returns p => plan_truthy p = false
     | Raises _ => True
     end).
  { intros cal prot. rewrite Henv. destruct (Hfail cal prot) as (day & slot & -> & _).
    simpl. by destruct raises. }
  pose proof (calculate_nutrition_no_plan env ui w Hplan Hgen) as H. apply sat_run in H.
  destruct H as (_ & Hp & Hh & Hl). split; [done|]. split; [done|].
  intros cal prot diet cuisine Hin. destruct Hl as [Hl|Hl]; [|done].
  destruct (logged_new_events _ _ _ _ Hl Hin).
Qed.

(** ** The workout engine *)

Section WorkoutFacts.
Variable library : list ExerciseEntry.
Variable minutes : nat.
Variable choose : list ExerciseEntry -> option ExerciseEntry.
Variable lvl : string.
Variable equipment : list string.

Hypothesis library_nodup : NoDup library.
Hypothesis choose_ok : picks_from_pool choose.

Abbreviation pool := (Engine.subgroup_pool library lvl equipment).
Abbreviation Inv := (week_invariant library lvl equipment).

Lemma elem_of_pool e g sg :
  e ∈ pool g sg -> muscle_group e = g /\ subgroup e = sg.
Proof.
  unfold Engine.subgroup_pool, Engine.group_pool.
  rewrite !list_elem_of_filter. tauto.
Qed.

Lemma pool_nodup g sg : NoDup (pool g sg).
Proof. unfold Engine.subgroup_pool, Engine.group_pool. by repeat apply NoDup_filter. Qed.

Lemma times_snoc e x l :
  times e (l ++ [x]) = (times e l + if decide (x = e) then 1 else 0)%nat.
Proof.
  unfold times. rewrite filter_app, length_app. f_equal.
  rewrite filter_cons, filter_nil. by destruct (decide (x = e)).
Qed.

Lemma times_0 e l : e ∉ l -> times e l = 0%nat.
Proof.
  intros H. unfold times. destruct (filter (fun x => x = e) l) as [|y k] eqn:E; [done|].
  assert (Hy : y ∈ filter (fun x => x = e) l) by (rewrite E; left).
  apply list_elem_of_filter in Hy as [-> Hy]. done.
Qed.

Lemma slot_count_snoc e x l :
  (length (filter (same_slot e) l) <= length (filter (same_slot e) (l ++ [x])))%nat.
Proof. rewrite filter_app, length_app. lia. Qed.

(** One draw keeps the invariant. *)
Lemma draw_invariant g sg sched st e st' :
  Inv sched st ->
  Engine.draw choose g (pool g sg) st = Some (e, st') ->
  Inv (sched ++ [e]) st' /\ muscle_group e = g /\ subgroup e = sg.
Proof.
  intros [Hused Htwice]. unfold Engine.draw.
  pose proof (choose_ok (filter (fun e => e ∉ Engine.used st) (pool g sg))) as Hfresh.
  destruct (choose (filter (fun e => e ∉ Engine.used st) (pool g sg))) as [e1|].
  - intros [= <- <-]. apply list_elem_of_filter in Hfresh as [Hnew He].
    split; [|by apply elem_of_pool]. split; simpl.
    + intros x. rewrite elem_of_cons, elem_of_app, list_elem_of_singleton, Hused. tauto.
    + intros x. rewrite times_snoc. destruct (decide (e1 = x)) as [ -> | Hne ].
      * rewrite times_0; [lia|]. by rewrite <- Hused.
      * intros Hx. destruct (Htwice x) as [Hr Hlt]; [lia|].
        split; [done|]. pose proof (slot_count_snoc x e1 sched). lia.
  - pose proof (choose_ok (pool g sg)) as Hpool.
    destruct (choose (pool g sg)) as [e1|]; [|done].
    intros [= <- <-]. destruct (elem_of_pool _ _ _ Hpool) as [Hg Hsg].
    split; [|done].
    assert (Hall : forall x, x ∈ pool g sg -> x ∈ sched).
    { intros x Hx. apply Hused. destruct (decide (x ∈ Engine.used st)) as [|Hn]; [done|].
      assert (Hin : x ∈ filter (fun e => e ∉ Engine.used st) (pool g sg))
        by (by apply list_elem_of_filter).
      rewrite Hfresh in Hin. by apply elem_of_nil in Hin. }
    assert (Hreport : forall y, y ∈ Engine.report st ->
      y ∈ (if decide (g ∈ Engine.report st) then Engine.report st
           else Engine.report st ++ [g])).
    { intros y Hy. destruct (decide (g ∈ Engine.report st)); [done|].
      apply elem_of_app. by left. }
    split; simpl.
    + intros x. rewrite elem_of_app, list_elem_of_singleton, Hused.
      split; [tauto|]. intros [Hx| ->]; [done|]. by apply Hall.
    + intros x. rewrite times_snoc. destruct (decide (e1 = x)) as [ <- | Hne ].
      * intros _. split.
        -- rewrite Hg. destruct (decide (g ∈ Engine.report st)); [done|].
           apply elem_of_app. right. by left.
        -- rewrite Hg, Hsg, filter_app, length_app.
           rewrite filter_cons, decide_True by done. simpl.
           assert (Hsub : pool g sg ⊆+ filter (same_slot e1) sched).
           { apply NoDup_submseteq; [apply pool_nodup|].
             intros x Hx. apply list_elem_of_filter. split; [|by apply Hall].
             destruct (elem_of_pool _ _ _ Hx) as [Hxg Hxs]. split; congruence. }
           apply submseteq_length in Hsub. lia.
      * intros Hx. destruct (Htwice x) as [Hr Hlt]; [lia|].
        split; [by apply Hreport|]. pose proof (slot_count_snoc x e1 sched). lia.
Qed.
Lemma fill_group_invariant g sgs rem sched st es rem' st' :
  Inv sched st ->
  Engine.fill_group library minutes choose lvl equipment g sgs rem st = (es, rem', st') ->
  Inv (sched ++ es) st' /\
  (forall x, x ∈ es -> muscle_group x = g) /\
  (subgroup <$> es) `sublist_of` sgs.
Proof.
  revert rem sched st es rem' st'.
  induction sgs as [|sg sgs IH]; intros rem sched st es rem' st' HI; simpl.
  - intros [= <- <- <-]. rewrite app_nil_r. split; [done|]. split; [|done].
    intros x Hx. by apply elem_of_nil in Hx.
  - destruct (decide (minutes <= rem)%nat).
    + destruct (Engine.draw choose g (pool g sg) st) as [[e st1]|] eqn:Hdraw.
      * destruct (Engine.fill_group _ _ _ _ _ g sgs (rem - minutes) st1)
          as [[es1 rem1] st2] eqn:Hrest.
        intros [= <- <- <-].
        destruct (draw_invariant _ _ _ _ _ _ HI Hdraw) as (HI1 & Hg & Hsg).
        destruct (IH _ _ _ _ _ _ HI1 Hrest) as (HI2 & Hgs & Hsub).
        split; [by rewrite <- app_assoc in HI2|]. split.
        -- intros x [->|Hx]%elem_of_cons; auto.
        -- rewrite fmap_cons, Hsg. by apply sublist_skip.
      * intros Hrest. destruct (IH _ _ _ _ _ _ HI Hrest) as (HI2 & Hgs & Hsub).
        split; [done|]. split; [done|]. by apply sublist_cons.
    + intros [= <- <- <-]. rewrite app_nil_r. split; [done|]. split.
      * intros x Hx. by apply elem_of_nil in Hx.
      * apply sublist_nil_l.
Qed.
Lemma distinct_nodup l : NoDup (Engine.distinct l).
Proof.
  induction l as [|x l IH]; simpl; [constructor|].
  apply NoDup_cons. split; [|by apply NoDup_filter].
  rewrite list_elem_of_filter. tauto.
Qed.

(** The exercises one muscle group contributes to a day fill a slot at
    most once. *)
Lemma slot_count_group e g es :
  (forall x, x ∈ es -> muscle_group x = g) ->
  NoDup (subgroup <$> es) ->
  (length (filter (same_slot e) es) <= if decide (g = muscle_group e) then 1 else 0)%nat.
Proof.
  intros Hg Hnd. destruct (decide (g = muscle_group e)) as [->|Hne].
  - assert (Hnd' : NoDup (subgroup <$> filter (same_slot e) es)).
    { eapply sublist_NoDup; [exact Hnd|]. apply fmap_sublist, sublist_filter. }
    assert (Hsg : forall x, x ∈ filter (same_slot e) es -> subgroup x = subgroup e).
    { intros x Hx. apply list_elem_of_filter in Hx as [[_ Hx] _]. done. }
    destruct (filter (same_slot e) es) as [|a [|b k]]; simpl; [lia..|].
    exfalso. rewrite !fmap_cons in Hnd'. apply NoDup_cons in Hnd' as [Hnot _].
    apply Hnot. rewrite (Hsg a), <- (Hsg b); [left| |left]. right. left.
  - assert (filter (same_slot e) es = []) as ->; [|simpl; lia].
    destruct (filter (same_slot e) es) as [|a k] eqn:E; [done|].
    assert (Ha : a ∈ filter (same_slot e) es) by (rewrite E; left).
    apply list_elem_of_filter in Ha as [[Ha _] Hin]. destruct Hne.
    by rewrite <- (Hg a Hin).
Qed.

Lemma fill_groups_invariant day gs rem sched st es st' :
  Inv sched st ->
  Engine.fill_groups library minutes choose lvl equipment day gs rem st = inr (es, st') ->
  Inv (sched ++ es) st' /\
  forall e, NoDup gs ->
    (length (filter (same_slot e) es) <= if decide (muscle_group e ∈ gs) then 1 else 0)%nat.
Proof.
  revert rem sched st es st'.
  induction gs as [|g gs IH]; intros rem sched st es st' HI; simpl.
  - intros [= <- <-]. rewrite app_nil_r. split; [done|]. intros e _. simpl.
    try case_decide; lia.
  - destruct (Engine.group_pool library lvl equipment g) as [|p0 ps]; [done|].
    destruct (Engine.fill_group _ _ _ _ _ g _ rem st) as [[es1 rem1] st1] eqn:Hg.
    destruct (Engine.fill_groups _ _ _ _ _ day gs rem1 st1) as [f|[es2 st2]] eqn:Hgs;
      [done|].
    intros [= <- <-].
    destruct (fill_group_invariant _ _ _ _ _ _ _ _ HI Hg) as (HI1 & Hall & Hsub).
    destruct (IH _ _ _ _ _ HI1 Hgs) as (HI2 & Hcount).
    split; [by rewrite app_assoc|].
    intros e [Hnotin Hnd]%NoDup_cons. rewrite filter_app, length_app.
    pose proof (slot_count_group e g es1 Hall) as H1.
    specialize (Hcount e Hnd).
    assert (Hnd1 : NoDup (subgroup <$> es1)).
    { eapply sublist_NoDup; [|exact Hsub]. apply distinct_nodup. }
    specialize (H1 Hnd1).
    destruct (decide (g = muscle_group e)) as [->|Hne].
    + rewrite decide_False in Hcount by done.
      rewrite decide_True by left. lia.
    + destruct (decide (muscle_group e ∈ gs)).
      * rewrite decide_True by (by right). lia.
      * destruct (decide (muscle_group e ∈ g :: gs)); lia.
Qed.

Lemma days_needing_cons mgs day days g :
  Engine.days_needing mgs (day :: days) g =
  ((if decide (g ∈ default [] (dict_get day mgs)) then 1 else 0)
   + Engine.days_needing mgs days g)%nat.
Proof.
  unfold Engine.days_needing. rewrite filter_cons.
  by destruct (decide (g ∈ default [] (dict_get day mgs))).
Qed.

Lemma fill_week_invariant time mgs days sched st sch st' :
  (forall day, NoDup (default [] (dict_get day mgs))) ->
  Inv sched st ->
  Engine.fill_week library minutes choose lvl equipment time mgs days st = inr (sch, st') ->
  Inv (sched ++ concat (map (fun dw : string * WorkoutDay => exercises dw.2) sch)) st' /\
  forall e,
    (length (filter (same_slot e)
               (concat (map (fun dw : string * WorkoutDay => exercises dw.2) sch)))
     <= Engine.days_needing mgs days (muscle_group e))%nat.
Proof.
  intros Hnd. revert sched st sch st'.
  induction days as [|day days IH]; intros sched st sch st' HI; simpl.
  - intros [= <- <-]. simpl. rewrite app_nil_r. split; [done|]. intros e. simpl. lia.
  - destruct (Engine.fill_groups _ _ _ _ _ day _ time st) as [f|[es st1]] eqn:Hday; [done|].
    destruct (Engine.fill_week _ _ _ _ _ time mgs days st1) as [f|[sch1 st2]] eqn:Hrest;
      [done|].
    intros [= <- <-].
    destruct (fill_groups_invariant _ _ _ _ _ _ _ HI Hday) as (HI1 & Hcount).
    destruct (IH _ _ _ _ HI1 Hrest) as (HI2 & Hcounts).
    simpl. split; [by rewrite app_assoc|].
    intros e. rewrite filter_app, length_app, days_needing_cons.
    specialize (Hcount e (Hnd day)). specialize (Hcounts e). lia.
Qed.
End WorkoutFacts.

Lemma times_pos e l : e ∈ l -> (1 <= times e l)%nat.
Proof.
  intros H. unfold times.
  assert (Hin : e ∈ filter (fun x => x = e) l) by (by apply list_elem_of_filter).
  destruct (filter (fun x => x = e) l); [by apply elem_of_nil in Hin|simpl; lia].
Qed.

Lemma times_cons e x l :
  times e (x :: l) = ((if decide (x = e) then 1 else 0) + times e l)%nat.
Proof. unfold times. rewrite filter_cons. by destruct (decide (x = e)). Qed.

Lemma at_most_once_nodup (l : list ExerciseEntry) :
  (forall e, (times e l <= 1)%nat) -> NoDup l.
Proof.
  induction l as [|x l IH]; intros H; [constructor|].
  apply NoDup_cons. split.
  - intros Hin. apply times_pos in Hin. specialize (H x).
    rewrite times_cons, decide_True in H by done. lia.
  - apply IH. intros e. specialize (H e). rewrite times_cons in H. lia.
Qed.

(** The head of the ranked pool is a member of the pool. *)
Lemma first_ranked_picks_from_pool (key : ExerciseEntry -> Q) :
  picks_from_pool (fun pool => head (Engine.rank key pool)).
Proof.
  intros pool. pose proof (head_rank_selects key pool) as H. simpl in H.
  destruct (head (Engine.rank key pool)) as [e|]; [|done].
  destruct H as (i & Hi & _). by eapply list_elem_of_lookup_2.
Qed.

(** The workout generator depends on the selection step only through
    its choices. *)
Lemma generate_workout_with_ext library minutes c1 c2 lvl goals days eq time mgs :
  (forall pool, c1 pool = c2 pool) ->
  Engine.generate_workout_with library minutes c1 lvl goals days eq time mgs =
  Engine.generate_workout_with library minutes c2 lvl goals days eq time mgs.
Proof.
  intros Hext.
  assert (Hdraw : forall g pool st, Engine.draw c1 g pool st = Engine.draw c2 g pool st).
  { intros g pool st. unfold Engine.draw. by rewrite !Hext. }
  assert (Hgroup : forall g sgs rem st,
    Engine.fill_group library minutes c1 lvl eq g sgs rem st =
    Engine.fill_group library minutes c2 lvl eq g sgs rem st).
  { intros g sgs. induction sgs as [|sg sgs IH]; intros rem st; simpl; [done|].
    destruct (decide (minutes <= rem)%nat); [|done].
    rewrite Hdraw. destruct (Engine.draw c2 g _ st) as [[e st1]|]; by rewrite IH. }
  assert (Hgroups : forall day gs rem st,
    Engine.fill_groups library minutes c1 lvl eq day gs rem st =
    Engine.fill_groups library minutes c2 lvl eq day gs rem st).
  { intros day gs. induction gs as [|g gs IH]; intros rem st; simpl; [done|].
    destruct (Engine.group_pool library lvl eq g); [done|].
    rewrite Hgroup. destruct (Engine.fill_group _ _ c2 _ _ g _ rem st) as [[es rem1] st1].
    by rewrite IH. }
  assert (Hweek : forall ds st,
    Engine.fill_week library minutes c1 lvl eq time mgs ds st =
    Engine.fill_week library minutes c2 lvl eq time mgs ds st).
  { intros ds. induction ds as [|day ds IH]; intros st; simpl; [done|].
    rewrite Hgroups. destruct (Engine.fill_groups _ _ c2 _ _ day _ time st) as [f|[es st1]];
      [done|]. by rewrite IH. }
  unfold Engine.generate_workout_with. by rewrite Hweek.
Qed.



(** * The statements on the demo data *)

(** C8 as stated fails: after "Calculate My Needs" under no restriction
    and again under "Vegan", "Save Current Meal Plan" hands the stored,
    non-vegan plan to [save_meal_plan] and reports success, with no
    validation before it -- whatever validator one takes, and the
    validator of the specification rejects this plan. *)
Lemma save_without_validation :
  (forall validate, ~ validated_before_save validate Demo.save_events) /\
  Call_save_meal_plan 7 Demo.plan2 (t_calories Demo.targets2) (t_protein Demo.targets2)
    ∈ Demo.save_events /\
  Engine.validate_meal_plan 10 (t_calories Demo.targets2) (t_protein Demo.targets2)
    ["Vegan"] Demo.plan2 = false /\
  StSuccess "Meal plan saved successfully!" ∈ Demo.save_events.
Proof.
  assert (Hsave : Demo.save_events !! 5%nat =
    Some (Call_save_meal_plan 7 Demo.plan2 (t_calories Demo.targets2)
            (t_protein Demo.targets2))) by (vm_compute; reflexivity).
  split; [|split; [|split]].
  - intros validate H. destruct (H _ _ _ _ _ Hsave) as (_ & j & Hj & Hev).
    do 5 (destruct j as [|j]; [vm_compute in Hev; discriminate Hev|]). lia.
  - by eapply list_elem_of_lookup_2.
  - vm_compute. reflexivity.
  - apply (list_elem_of_lookup_2 _ 6%nat). vm_compute. reflexivity.
Qed.

Lemma save_path_runs_no_validation_witness :
  ui_button Demo.ui_save "Save Current Meal Plan" = true /\
  nutritional_targets (session Demo.world2) = Some Demo.targets2 /\
  (forall w0 p,
     Call_validate_meal_plan p ∉ new_events w0 (run (main Demo.env Demo.ui_save) w0).2) /\
  Call_save_meal_plan 7 Demo.plan2 (t_calories Demo.targets2) (t_protein Demo.targets2)
    ∈ new_events Demo.world2 (run (save_meal_plan_button Demo.env Demo.ui_save) Demo.world2).2.
Proof.
  split; [reflexivity|]. split; [vm_compute; reflexivity|].
  apply (save_path_runs_no_validation Demo.env Demo.ui_save Demo.world2 DbSession
           {| id := 7 |} Demo.targets2); [reflexivity|reflexivity|reflexivity|].
  vm_compute. reflexivity.
Defined.


Lemma existing_plan_is_kept_witness :
  plan_truthy (current_meal_plan (session Demo.world1)) = true /\
  (forall cal prot diet cuisine,
     Call_generate_meal_plan cal prot diet cuisine ∉ new_events Demo.world1
       (run (calculate_nutrition Demo.env Demo.ui_vegan) Demo.world1).2) /\
  current_meal_plan (session (run (calculate_nutrition Demo.env Demo.ui_vegan) Demo.world1).2) =
    current_meal_plan (session Demo.world1) /\
  ((forall k, ui_button Demo.ui_vegan k = true -> k = "Calculate My Needs") ->
   heap (run (calculate_nutrition Demo.env Demo.ui_vegan) Demo.world1).2 = heap Demo.world1).
Proof.
  split; [vm_compute; reflexivity|].
  apply (existing_plan_is_kept Demo.env Demo.ui_vegan Demo.world1).
  vm_compute. reflexivity.
Defined.

Lemma unsatisfiable_slot_fails_the_plan_witness :
  "Dinner" ∈ Engine.meal_slots /\
  filter (fun m => Engine.passes ["Vegan"] ["Any"] m = true)
         (Engine.pool_of Demo.meals "Dinner") = [] /\
  plan_truthy (current_meal_plan (session Demo.world0)) = false /\
  (forall cal prot, exists day slot,
     Engine.generate_meal_plan 1 1 Demo.meals cal prot ["Vegan"] ["Any"] =
       inl (Engine.ConstraintUnsatisfiable day slot) /\
     day ∈ Engine.week /\ slot ∈ Engine.meal_slots /\
     filter (fun m => Engine.passes ["Vegan"] ["Any"] m = true)
            (Engine.pool_of Demo.meals slot) = []) /\
  current_meal_plan (session (run (calculate_nutrition Demo.env Demo.ui_vegan) Demo.world0).2) =
    current_meal_plan (session Demo.world0) /\
  heap (run (calculate_nutrition Demo.env Demo.ui_vegan) Demo.world0).2 = heap Demo.world0 /\
  (forall cal prot diet cuisine,
     Call_generate_meal_plan cal prot diet cuisine
       ∈ new_events Demo.world0 (run (calculate_nutrition Demo.env Demo.ui_vegan) Demo.world0).2 ->
     exists msg,
       last (log (run (calculate_nutrition Demo.env Demo.ui_vegan) Demo.world0).2) =
       Some (StError msg)).
Proof.
  assert (Hmt : "Dinner" ∈ Engine.meal_slots) by (right; right; left).
  assert (Hnone : filter (fun m => Engine.passes ["Vegan"] ["Any"] m = true)
                    (Engine.pool_of Demo.meals "Dinner") = []) by (vm_compute; reflexivity).
  split; [exact Hmt|]. split; [exact Hnone|]. split; [reflexivity|].
  apply (unsatisfiable_slot_fails_the_plan 1 1 Demo.meals Demo.env Demo.ui_vegan false
           Demo.world0 "Dinner" Hmt Hnone); reflexivity.
Defined.



(** * More of the script: what the code shows beyond the specification

    ** [generate_new_workout] *)

(** Straight-line pieces of the script are run by unfolding the monad. *)
Ltac run_script :=
  unfold run, sat, try_except, try_finally, bind, call, emit, get_session, put_session,
    get_heap, put_heap, subscript, ret, raise, st_rerun;
  cbn.

(** X1. [generate_new_workout] never hands a schedule back to its caller
    and never raises: it ends in a rerun exactly when the generator
    returned a schedule for non-empty days and muscle groups and
    [save_workout_schedule] returned a true value, and then the session
    holds that schedule; in every other case it returns [None]. *)
Theorem generate_new_workout_returns_no_schedule env db lvl goals ds eq t mg w :
  let saved_as sched :=
    ds <> [] /\ mg <> [] /\
    generate_workout_plan env lvl goals ds eq t mg (exercise_library env)
      = Returns (Some sched) /\
    save_workout_schedule env (user_id (session w)) sched
      {| pref_fitness_level := lvl; pref_goals := goals; pref_equipment := eq;
         pref_time_per_session := t; pref_muscle_groups := Some mg |} = Returns true in
  match run (generate_new_workout env db lvl goals ds eq t mg) w with
  | (Val None, _) => forall sched, ~ saved_as sched
  | (Rerun, w') =>
      exists sched, saved_as sched /\
        session w' = set_current_schedule (Some sched) (session w)
  | _ => False
  end.
Proof.
  unfold generate_new_workout. run_script.
  destruct ds as [|d ds]; [cbn; by intros sched []|].
  destruct mg as [|g mg]; [cbn; by intros sched (_ & [] & _)|].
  cbn.
  destruct (generate_workout_plan env _ _ _ _ _ _ _) as [[sched|]|msg] eqn:Hgen; cbn.
  - destruct (save_workout_schedule env _ _ _) as [[]|msg] eqn:Hsave; cbn.
    + exists sched. by repeat split.
    + intros sched' (_ & _ & [= <-] & Hs). by rewrite Hsave in Hs.
    + intros sched' (_ & _ & [= <-] & Hs). by rewrite Hsave in Hs.
  - by intros sched' (_ & _ & ? & _).
  - by intros sched' (_ & _ & ? & _).
Qed.

(** X2. Once the two emptiness checks are passed, [generate_new_workout]
    sets [st.session_state.current_schedule] to [None] before it
    generates, so a run that does not end in the rerun of a saved
    schedule leaves the session without a schedule, whatever it held;
    a run stopped by one of the two checks leaves the session as it
    was. The store of meal plans is never touched. *)
Theorem failed_generation_drops_schedule env db lvl goals ds eq t mg w :
  let r := (run (generate_new_workout env db lvl goals ds eq t mg) w).1 in
  let w' := (run (generate_new_workout env db lvl goals ds eq t mg) w).2 in
  heap w' = heap w /\
  (ds = [] \/ mg = [] -> session w' = session w) /\
  (ds <> [] /\ mg <> [] /\ r <> Rerun ->
   session w' = set_current_schedule None (session w)).
Proof.
  unfold generate_new_workout. run_script.
  destruct ds as [|d ds]; [cbn; split; [done|]; split; [done|]; by intros ([] & _)|].
  destruct mg as [|g mg]; [cbn; split; [done|]; split; [done|]; by intros (_ & [] & _)|].
  cbn.
  destruct (generate_workout_plan env _ _ _ _ _ _ _) as [[sched|]|msg]; cbn;
    [destruct (save_workout_schedule env _ _ _) as [[]|msg]; cbn|..];
    (split; [done|]); (split; [by intros [|]|]); try done.
  by intros (_ & _ & []).
Qed.

(** ** Sessions opened and closed, and calls made, in a run *)

Lemma calls_app k evs1 evs2 : calls k (evs1 ++ evs2) = (calls k evs1 + calls k evs2)%nat.
Proof. apply sum_list_with_app. Qed.

Lemma opened_app env evs1 evs2 :
  opened env (evs1 ++ evs2) = (opened env evs1 + opened env evs2)%nat.
Proof. apply sum_list_with_app. Qed.

Lemma closed_app evs1 evs2 : closed (evs1 ++ evs2) = (closed evs1 + closed evs2)%nat.
Proof. apply sum_list_with_app. Qed.

Lemma accounted_refl env w : accounted env no_calls w w.
Proof. exists []. split; [by rewrite app_nil_r|]. split; [done|]. by intros k. Qed.

Lemma accounted_trans env f g w1 w2 w3 :
  accounted env f w1 w2 -> accounted env g w2 w3 -> accounted env (plus f g) w1 w3.
Proof.
  intros (evs1 & E1 & B1 & C1) (evs2 & E2 & B2 & C2). exists (evs1 ++ evs2).
  split; [by rewrite E2, E1, app_assoc|]. split.
  - rewrite opened_app, closed_app. lia.
  - intros k. rewrite calls_app. unfold plus. specialize (C1 k). specialize (C2 k). lia.
Qed.

Lemma accounted_mono env f g w w' :
  (forall k, (f k <= g k)%nat) -> accounted env f w w' -> accounted env g w w'.
Proof.
  intros Hfg (evs & E & B & C). exists evs. split; [done|]. split; [done|].
  intros k. specialize (C k). specialize (Hfg k). lia.
Qed.

Lemma neutral_counts env evs :
  Forall neutral evs ->
  opened env evs = 0%nat /\ closed evs = 0%nat /\ forall k, calls k evs = 0%nat.
Proof.
  induction 1 as [|e evs He _ (IH1 & IH2 & IH3)]; [done|].
  unfold opened, closed, calls in *. cbn [sum_list_with].
  rewrite IH1, IH2. split; [|split].
  - by destruct e.
  - by destruct e.
  - intros k. rewrite (IH3 k). destruct e; try done; simpl in He; by rewrite He.
Qed.

(** Events that are all neutral leave the account as it is. *)
Lemma accounted_neutral env P w w' :
  (forall e, P e -> neutral e) -> logged P w w' -> accounted env no_calls w w'.
Proof.
  intros HP (evs & E & F). exists evs. split; [done|].
  destruct (neutral_counts env evs) as (H1 & H2 & H3).
  { eapply Forall_impl; [exact F|exact HP]. }
  split; [congruence|]. intros k. by rewrite H3.
Qed.

Lemma accounted_record env f w w' e :
  accounted env f w w' -> neutral e -> accounted env f w (record e w').
Proof.
  intros (evs & E & B & C) He. exists (evs ++ [e]).
  destruct (neutral_counts env [e]) as (H1 & H2 & H3); [by constructor|].
  split; [by cbn [log record]; rewrite E, app_assoc|]. split.
  - rewrite opened_app, closed_app. lia.
  - intros k. rewrite calls_app, H3. specialize (C k). lia.
Qed.

Lemma accounted_call env f w w' e k :
  accounted env f w w' -> kind_of e = Some k ->
  accounted env (plus f (once k)) w (record e w').
Proof.
  intros (evs & E & B & C) He. exists (evs ++ [e]).
  split; [by cbn [log record]; rewrite E, app_assoc|]. split.
  - rewrite opened_app, closed_app. destruct e; try done; simpl; lia.
  - intros k'. rewrite calls_app. specialize (C k'). unfold plus, once, calls at 2.
    cbn [sum_list_with]. rewrite He. repeat case_decide; simplify_eq; lia.
Qed.

Lemma accounted_same_log env f w w' s h c :
  accounted env f w w' ->
  accounted env f w {| session := s; heap := h; clock := c; log := log w' |}.
Proof. done. Qed.

(** The account of a straight-line piece of script, its log a literal
    extension of the log it started from. *)
Ltac account Hdb :=
  eexists; split;
  [ cbn [log record]; rewrite <- ?app_assoc; cbn [app]; reflexivity
  | split;
    [ unfold opened, closed, opens; cbn; rewrite ?Hdb; reflexivity
    | intros []; unfold calls, once, plus, no_calls; cbn;
      repeat case_decide; simplify_eq; lia ] ].

Section Accounting.
Variable env : Collaborators.
Variable ui : UI.

Lemma display_meal_plan_accounted w :
  sat (display_meal_plan env ui) w (fun _ w' => accounted env no_calls w w').
Proof.
  eapply sat_mono; [apply display_meal_plan_sat|].
  intros r w' (_ & Hl & _). eapply accounted_neutral; [|exact Hl]. by intros [].
Qed.

Lemma calculate_nutrition_accounted w :
  sat (calculate_nutrition env ui) w (fun r w' =>
    accounted env (once GenerateMeals) w w' /\ forall e, r <> Exc e).
Proof.
  assert (Hcalc : forall w1, before_gate w w1 -> accounted env no_calls w w1).
  { intros w1 (_ & _ & Hl). eapply accounted_neutral; [|exact Hl]. by intros []. }
  assert (Hweak : forall w1, accounted env no_calls w w1 ->
            accounted env (once GenerateMeals) w w1).
  { intros w1. apply accounted_mono. intros k. unfold no_calls. lia. }
  apply calculate_nutrition_cases.
  - intros _. split; [|done]. apply Hweak, accounted_refl.
  - intros w1 msg Hg. split; [|done]. apply accounted_record; [|done]. by apply Hweak, Hcalc.
  - intros w1 tc pn bmr Hg _ _.
    assert (Hdisplay : forall w2, accounted env (once GenerateMeals) w w2 ->
      sat (display_meal_plan env ui) w2
        (handled (fun r w' => accounted env (once GenerateMeals) w w' /\
                              forall e, r <> Exc e))).
    { intros w2 H2. eapply sat_mono; [by apply display_meal_plan_accounted|].
      intros r w3 H3.
      assert (H4 : accounted env (once GenerateMeals) w w3).
      { eapply accounted_mono; [|eapply accounted_trans; [exact H2|exact H3]].
        intros k. unfold plus, no_calls. simpl. lia. }
      destruct r as [[]|e|]; simpl; (split; [|done]); [done| |done].
      by apply accounted_record. }
    unfold generate_if_missing. sat_steps.
    destruct (negb (plan_truthy (current_meal_plan (session w1)))).
    2: { by apply Hdisplay, Hweak, Hcalc. }
    sat_steps.
    assert (H2 : accounted env (once GenerateMeals) w
      (record (Call_generate_meal_plan tc pn (ui_dietary_restrictions ui)
                 (ui_cuisine_preferences ui)) w1)).
    { eapply accounted_mono; [|eapply accounted_call; [by apply Hcalc|done]].
      intros k. unfold plus, no_calls. simpl. lia. }
    revert H2. generalize (record (Call_generate_meal_plan tc pn (ui_dietary_restrictions ui)
                 (ui_cuisine_preferences ui)) w1). intros w2 H2.
    destruct (generate_meal_plan env tc pn _ _) as [p|msg]; sat_steps.
    + destruct (plan_truthy p).
      * unfold store_meal_plan. sat_steps.
        destruct (alloc_plan (heap w2) (default [] p)) as [h' refs]. sat_steps.
        by apply Hdisplay.
      * sat_steps. split; [|done]. by apply accounted_record.
    + split; [|done]. by apply accounted_record.
Qed.

Lemma generate_workout_button_accounted w :
  sat (generate_workout_button env ui) w (fun _ w' =>
    accounted env (plus (once GenerateWorkout) (once SaveWorkout)) w w').
Proof.
  assert (H0 : accounted env (plus (once GenerateWorkout) (once SaveWorkout)) w w).
  { eapply accounted_mono; [|apply accounted_refl]. intros k. unfold no_calls. lia. }
  unfold generate_workout_button.
  destruct (ui_button ui "Generate Workout Plan"); [|done].
  destruct (available_days ui) as [|d ds]; [by apply sat_emit, accounted_record|].
  destruct (any_muscles (muscle_groups ui)) eqn:Emg;
    [|by apply sat_emit, accounted_record].
  destruct (muscle_groups ui) as [|g mg]; [done|].
  unfold get_database, generate_new_workout. run_script.
  destruct (get_db env) as [db|msg] eqn:Hdb; cbn; [|by account Hdb].
  destruct (generate_workout_plan env _ _ _ _ _ _ _) as [[sched|]|msg]; cbn;
    [destruct (save_workout_schedule env _ _ _) as [[]|msg]; cbn|..];
    destruct (db_close env) as [[]|msg']; cbn; by account Hdb.
Qed.

Lemma current_workout_column_accounted w :
  sat (current_workout_column env) w (fun _ w' => accounted env no_calls w w').
Proof.
  unfold current_workout_column, get_database. run_script.
  destruct (get_db env) as [db|msg] eqn:Hdb; cbn; [|by account Hdb].
  destruct (get_latest_workout_schedule env _) as [s|msg]; cbn;
    destruct (db_close env) as [[]|msg']; cbn; by account Hdb.
Qed.

Lemma save_meal_plan_button_accounted w :
  sat (save_meal_plan_button env ui) w (fun _ w' => accounted env (once SaveMeals) w w').
Proof.
  unfold save_meal_plan_button, get_database.
  destruct (ui_button ui "Save Current Meal Plan").
  2: { eapply accounted_mono; [|apply accounted_refl]. intros k. unfold no_calls. lia. }
  run_script.
  destruct (get_db env) as [db|msg] eqn:Hdb; cbn; [|by account Hdb].
  destruct (get_current_user env) as [[user|]|msg]; cbn.
  - destruct (nutritional_targets (session w)) as [t|]; cbn;
      [destruct (save_meal_plan env _ _ _ _) as [[]|msg]; cbn|];
      destruct (db_close env) as [[]|msg']; cbn; by account Hdb.
  - destruct (db_close env) as [[]|msg']; cbn; by account Hdb.
  - destruct (db_close env) as [[]|msg']; cbn; by account Hdb.
Qed.

Lemma nutrition_tab_accounted w :
  sat (nutrition_tab env ui) w (fun _ w' =>
    accounted env (plus (once GenerateMeals) (once SaveMeals)) w w').
Proof.
  unfold nutrition_tab. sat_steps.
  eapply sat_mono; [apply calculate_nutrition_accounted|].
  intros r w1 [H1 Hr].
  assert (H1' : accounted env (plus (once GenerateMeals) (once SaveMeals)) w w1).
  { eapply accounted_mono; [|exact H1]. intros k. unfold plus. lia. }
  destruct r as [[]|e|]; cbn [then_sat]; try done.
  sat_steps. destruct (plan_truthy (current_meal_plan (session w1))); [|done].
  sat_steps. eapply sat_mono; [apply display_meal_plan_accounted|].
  intros r w2 H2.
  assert (H12 : accounted env (once GenerateMeals) w w2).
  { eapply accounted_mono; [|eapply accounted_trans; [exact H1|exact H2]].
    intros k. unfold plus, no_calls. lia. }
  assert (H2' : accounted env (plus (once GenerateMeals) (once SaveMeals)) w w2).
  { eapply accounted_mono; [|exact H12]. intros k. unfold plus. lia. }
  destruct r as [[]|e|]; cbn [then_sat]; try done.
  eapply sat_mono; [apply save_meal_plan_button_accounted|].
  intros r w3 H3. by eapply accounted_trans.
Qed.

Lemma main_accounted w :
  sat (main env ui) w (fun _ w' => accounted env (fun _ => 1%nat) w w').
Proof.
  assert (Hweak : forall f w', (forall k, (f k <= 1)%nat) ->
            accounted env f w w' -> accounted env (fun _ => 1%nat) w w').
  { intros f w' Hf. by apply accounted_mono. }
  unfold main. sat_steps.
  destruct (is_authenticated (session w)); cbn [negb].
  2: { apply sat_ret. eapply Hweak; [|apply accounted_refl]. intros k. unfold no_calls. lia. }
  sat_steps.
  destruct (ui_button ui "Logout"); sat_steps.
  { eapply Hweak; [|apply accounted_same_log, accounted_refl]. intros k. unfold no_calls. lia. }
  eapply sat_mono; [apply generate_workout_button_accounted|].
  intros r w1 H1.
  assert (Hw : forall k, (plus (plus (once GenerateWorkout) (once SaveWorkout))
              (plus no_calls (plus (once GenerateMeals) (once SaveMeals))) k <= 1)%nat).
  { intros []; unfold plus, once, no_calls; repeat case_decide; simplify_eq; lia. }
  assert (H1' : accounted env (fun _ => 1%nat) w w1).
  { eapply Hweak; [|exact H1]. intros k. specialize (Hw k). unfold plus in *. lia. }
  destruct r as [[]|e|]; cbn [then_sat]; try done.
  sat_steps. eapply sat_mono; [apply current_workout_column_accounted|].
  intros r w2 H2.
  assert (H2' : accounted env (fun _ => 1%nat) w w2).
  { eapply Hweak; [|eapply accounted_trans; [exact H1|exact H2]].
    intros k. specialize (Hw k). unfold plus in *. lia. }
  destruct r as [[]|e|]; cbn [then_sat]; try done.
  eapply sat_mono; [apply nutrition_tab_accounted|].
  intros r w3 H3. eapply Hweak; [exact Hw|].
  eapply accounted_trans; [exact H1|]. eapply accounted_trans; [exact H2|exact H3].
Qed.
End Accounting.

(** X3. Every database session a run of [main] opens is closed in that
    run, however the run ends: the calls of [get_db] that return are as
    many as the calls of [db.close]. *)
Theorem every_session_is_closed env ui w :
  opened env (new_events w (run (main env ui) w).2)
  = closed (new_events w (run (main env ui) w).2).
Proof.
  pose proof (main_accounted env ui w) as H. apply sat_run in H.
  destruct H as (evs & E & B & _). by rewrite (new_events_app _ _ _ E).
Qed.

(** X4. A run of [main] calls each of [generate_workout_plan],
    [save_workout_schedule], [generate_meal_plan] and [save_meal_plan]
    at most once. *)
Theorem one_generation_and_one_save_per_run env ui w k :
  (calls k (new_events w (run (main env ui) w).2) <= 1)%nat.
Proof.
  pose proof (main_accounted env ui w) as H. apply sat_run in H.
  destruct H as (evs & E & _ & C). rewrite (new_events_app _ _ _ E). apply C.
Qed.

(** ** The session and the store through a run *)

Lemma alloc_plan_stored h p h' refs :
  alloc_plan h p = (h', refs) ->
  forall day l, (day, l) ∈ refs -> is_Some (h' !! l).
Proof.
  revert h h' refs. induction p as [|[day0 meals] p IH]; intros h h' refs; simpl.
  - intros [= <- <-] day l H. by apply elem_of_nil in H.
  - destruct (alloc_plan (<[fresh (dom h) := meals]> h) p) as [h1 refs1] eqn:Hrest.
    intros [= <- <-] day l [[= -> ->]|H]%elem_of_cons.
    + destruct (alloc_plan_separate _ _ _ _ Hrest) as (_ & _ & _ & Hkeep & _).
      rewrite Hkeep by set_solver. rewrite lookup_insert_eq. by eexists.
    + by eapply IH.
Qed.

Lemma plan_well_formed_keeps w w' :
  keeps_meals w w' -> plan_well_formed w -> plan_well_formed w'.
Proof.
  intros (Hh & Hp & Ht & Hu). unfold plan_well_formed. by rewrite Hp, Hh, Ht, Hu.
Qed.

Section Detail.
Variable env : Collaborators.
Variable ui : UI.

Lemma show_alternatives_detail w0 w1 plan day l meals mt meal :
  current_meal_plan (session w0) = Some plan ->
  (day, l) ∈ plan -> heap w0 !! l = Some meals -> (mt, meal) ∈ meals ->
  ui_button ui (btn_key (ui_time ui (clock w0)) day mt) = true ->
  between ui w0 w1 ->
  sat (show_alternatives env ui (ui_time ui (clock w0)) day mt meal) w1 (fun r w2 =>
    match r with
    | Val _ => between ui w0 w2
    | _ => display_detail env ui w0 r w2
    end).
Proof.
  intros Hplan Hday Hl Hmt Hbtn (Hs & Hh & Hlog).
  assert (Hshown : shown_slot ui w0 day mt meal) by (by exists plan, l, meals).
  assert (Hne : plan <> []) by (intros ->; by apply elem_of_nil in Hday).
  unfold show_alternatives. sat_steps. rewrite Hs.
  destruct (nutritional_targets (session w0)) as [t|] eqn:Ht; sat_steps.
  2: { split; [done|]. unfold plan_well_formed. rewrite Hplan, Ht.
       intros (_ & _ & _ & Hset). destruct (Hset Hne) as [[? [=]] _]. }
  destruct (user_profile (session w0)) as [p|] eqn:Hp; sat_steps.
  2: { split; [done|]. unfold plan_well_formed. rewrite Hplan, Hp.
       intros (_ & _ & _ & Hset). destruct (Hset Hne) as [_ [? [=]]]. }
  match goal with |- context [record ?e w1] =>
    assert (Hb2 : between ui w0 (record e w1));
    [repeat split; try done; apply logged_record; [done|]; simpl; eauto|];
    revert Hb2; generalize (record e w1); intros w2 Hb2
  end.
  destruct (get_alternative_meals _ _ _ _ _ _ _) as [alts|msg] eqn:Halts.
  2: { split; [apply Hb2|]. intros _. by repeat eexists. }
  sat_steps.
  destruct alts as [|a0 alts'] eqn:Ealts.
  { sat_steps. destruct Hb2 as (? & ? & ?). repeat split; try done. by apply logged_record. }
  rewrite <- Ealts in *. clear Ealts a0 alts'.
  apply sat_for_each with (I := between ui w0); [done| |done].
  intros alt w3 Halt (Hs3 & Hh3 & Hlog3).
  destruct (ui_button ui (select_key _ day mt (name alt))) eqn:Hsel; [|by sat_steps].
  unfold assign_meal. sat_steps. rewrite Hs3, Hplan. sat_steps.
  destruct (dict_get day plan) as [l'|] eqn:Hl'; sat_steps.
  2: { destruct (dict_get_is_Some _ _ _ Hday) as [? Hx]. rewrite Hl' in Hx. discriminate Hx. }
  rewrite Hh3.
  destruct (heap w0 !! l') as [meals'|] eqn:Hm'; sat_steps.
  2: { split; [done|]. unfold plan_well_formed. rewrite Hplan.
       intros (_ & _ & Hin & _). apply dict_get_Some_elem in Hl'.
       destruct (Hin _ _ Hl') as [? Hx]. rewrite Hm' in Hx. discriminate Hx. }
  split.
  - by apply logged_record.
  - by exists day, mt, meal, (name alt).
Qed.

Lemma display_meal_plan_detail w :
  sat (display_meal_plan env ui) w (display_detail env ui w).
Proof.
  unfold display_meal_plan. sat_steps.
  destruct (current_meal_plan (session w)) as [plan|] eqn:Hplan;
    [|sat_steps; split; [apply logged_refl|done]].
  destruct plan as [|d0 plan']; [sat_steps; split; [apply logged_refl|done]|].
  cbn [plan_truthy negb default]. sat_steps.
  match goal with |- sat _ ?wc _ =>
    assert (Hinv : between ui w wc)
      by (repeat split; apply logged_same_log, logged_refl);
    revert Hinv; generalize wc; intros w1 Hinv
  end.
  apply sat_for_each with (I := between ui w); [done| |by intros w2 (_ & _ & ?)].
  intros [day l] w2 Hday Hinv2.
  pose proof Hinv2 as (Hs2 & Hh2 & Hlog2).
  sat_steps. rewrite Hh2.
  destruct (heap w !! l) as [meals|] eqn:Hl; sat_steps.
  2: { split; [done|]. unfold plan_well_formed. rewrite Hplan.
       intros (_ & _ & Hin & _). destruct (Hin _ _ Hday) as [? Hx].
       rewrite Hl in Hx. discriminate Hx. }
  apply sat_for_each with (I := between ui w); [done| |done].
  intros [mt meal] w3 Hmt Hinv3.
  destruct (ui_button ui (btn_key (ui_time ui (clock w)) day mt)) eqn:Hbtn; [|by sat_steps].
  eapply sat_mono; [by eapply show_alternatives_detail|].
  by intros [[]|e|] w4 H.
Qed.

(** [display_meal_plan] keeps a well-formed session well-formed. *)
Lemma display_meal_plan_well_formed w :
  sat (display_meal_plan env ui) w (fun _ w' =>
    session w' = session w /\ (plan_well_formed w -> plan_well_formed w')).
Proof.
  eapply sat_mono; [apply display_meal_plan_sat|].
  intros r w' (Hs & _ & Hr). split; [done|].
  assert (Hsame : heap w' = heap w -> plan_well_formed w -> plan_well_formed w').
  { intros Hh. apply plan_well_formed_keeps. unfold keeps_meals. by rewrite Hs, Hh. }
  destruct r as [[]|e|]; [exact (Hsame Hr)|exact (Hsame Hr)|].
  destruct Hr as (day & mt & alt & plan & l & meals & meal & t & p & alts & ts & l' & meals' &
    Hplan & _ & _ & _ & _ & _ & _ & _ & _ & Hl' & Hm' & Hh').
  unfold plan_well_formed. rewrite Hs, Hplan, Hh'.
  intros (N1 & N2 & Hin & Hset). split; [done|]. split; [done|]. split; [|done].
  intros day' l0 H0. destruct (decide (l0 = l')) as [->|Hne].
  - rewrite lookup_insert_eq. by eexists.
  - rewrite lookup_insert_ne by done. by eapply Hin.
Qed.
End Detail.

(** ** [calculate_nutrition], in full *)

Lemma calculated_inj env ui bmr tdee pn bmr' tdee' pn' :
  calculated env ui bmr tdee pn -> calculated env ui bmr' tdee' pn' ->
  bmr' = bmr /\ tdee' = tdee /\ pn' = pn.
Proof.
  intros (Hb & (f & Hf & Ht) & Hp) (Hb' & (f' & Hf' & Ht') & Hp').
  rewrite Hb in Hb'. injection Hb' as <-.
  rewrite Hf in Hf'. injection Hf' as <-.
  rewrite Ht in Ht'. injection Ht' as <-.
  rewrite Hp in Hp'. by injection Hp' as <-.
Qed.

(** The session and the store up to the error message or up to line
    290. *)
Lemma calculate_nutrition_outcomes env ui w (Q : Result unit -> World -> Prop) :
  (ui_button ui "Calculate My Needs" = false -> Q (Val tt) w) ->
  (forall w1 msg,
     ui_button ui "Calculate My Needs" = true ->
     (forall bmr tdee pn, ~ calculated env ui bmr tdee pn) ->
     session w1 = session w -> heap w1 = heap w -> logged calc_event w w1 ->
     Q (Val tt) (record (StError ("An error occurred: " +:+ msg)) w1)) ->
  (forall w1 bmr tdee pn,
     ui_button ui "Calculate My Needs" = true ->
     calculated env ui bmr tdee pn ->
     session w1 = set_profile_and_targets (entered_profile ui)
                    (calculated_targets ui bmr tdee pn) (session w) ->
     heap w1 = heap w -> logged calc_event w w1 ->
     sat (generate_if_missing env ui (goal_calories (ui_goal ui) tdee) pn) w1 (handled Q)) ->
  sat (calculate_nutrition env ui) w Q.
Proof.
  intros Hoff Hexc Hgate. unfold calculate_nutrition.
  destruct (ui_button ui "Calculate My Needs") eqn:Hon; [|by apply sat_ret, Hoff].
  sat_steps.
  match goal with |- context [record ?e w] =>
    assert (H1 : logged calc_event w (record e w)) by (by apply logged_record; [apply logged_refl|]);
    assert (S1 : session (record e w) = session w) by done;
    assert (E1 : heap (record e w) = heap w) by done;
    revert H1 S1 E1; generalize (record e w); intros w1 H1 S1 E1
  end.
  destruct (calculate_bmr env _ _ _ _) as [bmr|msg] eqn:Hbmr.
  2: { apply sat_emit, Hexc; try done. intros b t p (Hb & _). congruence. }
  sat_steps.
  destruct (dict_get (ui_activity ui) activity_levels) as [factor|] eqn:Hf.
  2: { apply sat_emit, Hexc; try done. intros b t p (_ & (f & Hf' & _) & _). congruence. }
  sat_steps.
  match goal with |- context [record ?e w1] =>
    assert (H2 : logged calc_event w (record e w1)) by (by apply logged_record);
    assert (S2 : session (record e w1) = session w) by done;
    assert (E2 : heap (record e w1) = heap w) by done;
    revert H2 S2 E2; generalize (record e w1); intros w2 H2 S2 E2
  end.
  destruct (calculate_tdee env _ _) as [tdee|msg] eqn:Ht.
  2: { apply sat_emit, Hexc; try done.
       intros b t p (Hb & (f & Hf' & Ht') & _). congruence. }
  sat_steps.
  match goal with |- context [record ?e w2] =>
    assert (H3 : logged calc_event w (record e w2)) by (by apply logged_record);
    assert (S3 : session (record e w2) = session w) by done;
    assert (E3 : heap (record e w2) = heap w) by done;
    revert H3 S3 E3; generalize (record e w2); intros w3 H3 S3 E3
  end.
  destruct (calculate_protein_needs env _ _) as [pn|msg] eqn:Hp.
  2: { apply sat_emit, Hexc; try done. intros b t p (_ & _ & Hp'). congruence. }
  sat_steps.
  eapply sat_mono.
  - apply (Hgate _ bmr tdee pn); try done.
    + split; [done|]. split; [by exists factor|done].
    + cbn. by rewrite S3.
  - intros [[]|e|] w4; simpl; auto.
Qed.

Section Calc.
Variable env : Collaborators.
Variable ui : UI.

(** Lines 302-317 touch no key of the session but the plan, keep a
    plan that is there, and leave a well-formed session with targets and
    profile well-formed. *)
Lemma generate_if_missing_keeps tc pn w :
  sat (generate_if_missing env ui tc pn) w (fun _ w' => missing_post env w w').
Proof.
  assert (Hdisplay : forall w1,
    missing_post env w w1 ->
    sat (display_meal_plan env ui) w1 (fun _ w' => missing_post env w w')).
  { intros w1 (Hk & Hwf & Hp). eapply sat_mono; [apply display_meal_plan_well_formed|].
    intros r w2 (Hs & Hw). split; [|split; [by auto|by rewrite Hs]].
    unfold keeps_but_plan, keeps_identity in *. by rewrite Hs. }
  unfold generate_if_missing. sat_steps.
  destruct (plan_truthy (current_meal_plan (session w))) eqn:Hplan; cbn [negb].
  { apply Hdisplay. by repeat split. }
  sat_steps.
  destruct (generate_meal_plan env tc pn _ _) as [p|msg] eqn:Hgen; sat_steps.
  2: { by repeat split. }
  destruct p as [[|dm p]|]; cbn [plan_truthy]; sat_steps; try by repeat split.
  change (default [] (Some (dm :: p))) with (dm :: p).
  unfold store_meal_plan. sat_steps.
  destruct (alloc_plan (heap w) (dm :: p)) as [h' refs] eqn:Halloc. sat_steps.
  apply Hdisplay. split; [done|]. split; [|cbn; intros; congruence].
  intros Hkeyed _ Ht Hu. unfold plan_well_formed. cbn.
  destruct (alloc_plan_separate _ _ _ _ Halloc) as (Hk & Hnd & _ & _ & _).
  split; [rewrite Hk; by eapply Hkeyed|]. split; [done|]. split; [|done].
  by eapply alloc_plan_stored.
Qed.

Lemma calculate_nutrition_part w :
  sat (calculate_nutrition env ui) w (fun r w' =>
    part_post env ui w r w' /\
    current_schedule (session w') = current_schedule (session w) /\
    forall e, r <> Exc e).
Proof.
  apply calculate_nutrition_outcomes.
  - intros Hoff. by repeat split.
  - intros w1 msg _ _ Hs Hh _. cbn. unfold part_post, keeps_identity, plan_well_formed.
    cbn. rewrite Hs, Hh. by repeat split.
  - intros w1 bmr tdee pn Hb _ Hs Hh _.
    eapply sat_mono; [apply generate_if_missing_keeps|].
    intros r w2 (((I1 & I2 & I3) & Hc & Ht & Hu) & Hwf & Hkept).
    rewrite Hs in I1, I2, I3, Hc, Ht, Hu, Hkept. cbn in I1, I2, I3, Hc, Ht, Hu, Hkept.
    assert (Hpost : forall r', (forall e, r' <> Exc e) ->
              part_post env ui w r' w2 /\
              current_schedule (session w2) = current_schedule (session w) /\
              forall e, r' <> Exc e).
    { intros r' Hr'. split; [|by split].
      split; [done|]. split; [|split; [|split; [|split]]].
      - intros Hkeyed Hw. apply Hwf; [done| |by rewrite Hs|by rewrite Hs].
        revert Hw. unfold plan_well_formed. rewrite Hs, Hh. cbn.
        destruct (current_meal_plan (session w)); [|done].
        intros (? & ? & ? & _). repeat split; try done; by eexists.
      - intros e He. by destruct (Hr' e).
      - done.
      - intros Hoff. congruence.
      - done. }
    destruct r as [[]|e|]; cbn [handled]; [by apply Hpost| |by apply Hpost].
    destruct (Hpost (Val tt)) as ((P1 & P2 & P3 & P4 & P5) & P6 & P7); [done|].
    split; [|by split]. exact (conj P1 (conj P2 (conj P3 (conj P4 P5)))).
Qed.
End Calc.

(** ** The parts of [main] *)

Lemma sat_conj {A} (m : M A) w (Q1 Q2 : Result A -> World -> Prop) :
  sat m w Q1 -> sat m w Q2 -> sat m w (fun r w' => Q1 r w' /\ Q2 r w').
Proof. unfold sat. auto. Qed.

Lemma part_post_quiet env ui w r w' :
  session w' = session w -> heap w' = heap w ->
  (forall e, r = Exc e -> escapes env e) ->
  part_post env ui w r w'.
Proof.
  intros Hs Hh Hr. unfold part_post, keeps_identity, plan_well_formed.
  rewrite Hs, Hh. repeat split; auto.
Qed.

Lemma part_post_schedule env ui w r w' c :
  ui_button ui "Generate Workout Plan" = true ->
  session w' = set_current_schedule c (session w) -> heap w' = heap w ->
  (forall e, r = Exc e -> escapes env e) ->
  part_post env ui w r w'.
Proof.
  intros Hb Hs Hh Hr. unfold part_post, keeps_identity, plan_well_formed.
  rewrite Hs, Hh. cbn. repeat split; auto. congruence.
Qed.

Lemma part_post_trans env ui w w1 r w2 :
  part_post env ui w (Val tt) w1 -> part_post env ui w1 r w2 -> part_post env ui w r w2.
Proof.
  intros ((I1 & I2 & I3) & W1 & _ & S1 & P1 & K1) ((J1 & J2 & J3) & W2 & E2 & S2 & P2 & K2).
  split; [|split; [|split; [|split; [|split]]]].
  - unfold keeps_identity. by rewrite J1, J2, J3.
  - auto.
  - intros e He Hk Hw. apply (E2 e He Hk). auto.
  - intros Hb. by rewrite S2, S1.
  - intros Hb. destruct (P1 Hb) as (A1 & A2 & A3). destruct (P2 Hb) as (B1 & B2 & B3).
    by rewrite B1, B2, B3.
  - intros Hp. rewrite K2; [by apply K1|]. by rewrite K1.
Qed.

Section Parts.
Variable env : Collaborators.
Variable ui : UI.

Lemma display_meal_plan_part w :
  sat (display_meal_plan env ui) w (part_post env ui w).
Proof.
  eapply sat_mono;
    [apply sat_conj; [apply display_meal_plan_well_formed|apply display_meal_plan_detail]|].
  intros r w' ((Hs & Hw) & (_ & Hr)).
  unfold part_post, keeps_identity. rewrite Hs. repeat split; auto.
  intros e -> _ Hwf. right. right. by apply Hr.
Qed.

Lemma generate_workout_button_part w :
  sat (generate_workout_button env ui) w (part_post env ui w).
Proof.
  unfold generate_workout_button.
  destruct (ui_button ui "Generate Workout Plan") eqn:Hb; [|by apply part_post_quiet].
  destruct (available_days ui) as [|d ds]; [by apply sat_emit, part_post_quiet|].
  destruct (any_muscles (muscle_groups ui)) eqn:Emg;
    [|by apply sat_emit, part_post_quiet].
  destruct (muscle_groups ui) as [|g mg]; [done|].
  unfold get_database, generate_new_workout. run_script.
  destruct (get_db env) as [db|msg] eqn:Hdb; cbn; [|by apply part_post_quiet].
  destruct (generate_workout_plan env _ _ _ _ _ _ _) as [[sched|]|msg]; cbn;
    [destruct (save_workout_schedule env _ _ _) as [[]|msg]; cbn|..];
    destruct (db_close env) as [[]|msg'] eqn:Hclose; cbn;
    (eapply part_post_schedule; [done|reflexivity|reflexivity|]);
    intros e' [= <-]; by left.
Qed.

Lemma current_workout_column_part w :
  sat (current_workout_column env) w (part_post env ui w).
Proof.
  unfold current_workout_column, get_database. run_script.
  destruct (get_db env) as [db|msg] eqn:Hdb; cbn; [|by apply part_post_quiet].
  destruct (get_latest_workout_schedule env _) as [s|msg] eqn:Hlatest; cbn;
    destruct (db_close env) as [[]|msg'] eqn:Hclose; cbn;
    (apply part_post_quiet; [done|done|]); intros e' [= <-];
    [by left|right; left; by eexists|by left].
Qed.

Lemma save_meal_plan_button_part w :
  sat (save_meal_plan_button env ui) w (part_post env ui w).
Proof.
  unfold save_meal_plan_button, get_database.
  destruct (ui_button ui "Save Current Meal Plan"); [|by apply part_post_quiet].
  run_script.
  destruct (get_db env) as [db|msg] eqn:Hdb; cbn; [|by apply part_post_quiet].
  destruct (get_current_user env) as [[user|]|msg]; cbn;
    [destruct (nutritional_targets (session w)) as [t|]; cbn;
       [destruct (save_meal_plan env _ _ _ _) as [[]|msg]; cbn|]|..];
    destruct (db_close env) as [[]|msg'] eqn:Hclose; cbn;
    (apply part_post_quiet; [done|done|]); intros e' [= <-]; by left.
Qed.

Lemma nutrition_tab_part w :
  sat (nutrition_tab env ui) w (part_post env ui w).
Proof.
  unfold nutrition_tab. sat_steps.
  eapply sat_mono; [apply calculate_nutrition_part|].
  intros r w1 (H1 & _ & Hr).
  destruct r as [[]|e|]; cbn [then_sat]; [|by destruct (Hr e)|done].
  sat_steps. destruct (plan_truthy (current_meal_plan (session w1))); [|done].
  sat_steps. eapply sat_mono; [apply display_meal_plan_part|].
  intros r w2 H2.
  assert (H12 : part_post env ui w r w2) by (by eapply part_post_trans).
  destruct r as [[]|e|]; cbn [then_sat]; try done.
  eapply sat_mono; [apply save_meal_plan_button_part|].
  intros r w3 H3. by eapply part_post_trans.
Qed.

(** The tabs of an authenticated session, after the logout button. *)
Lemma tabs_part w :
  sat (generate_workout_button env ui ;;; current_workout_column env ;;; nutrition_tab env ui)%script
      w (part_post env ui w).
Proof.
  sat_steps. eapply sat_mono; [apply generate_workout_button_part|].
  intros r w1 H1. destruct r as [[]|e|]; cbn [then_sat]; try done.
  sat_steps. eapply sat_mono; [apply current_workout_column_part|].
  intros r w2 H2.
  assert (H12 : part_post env ui w r w2) by (by eapply part_post_trans).
  destruct r as [[]|e|]; cbn [then_sat]; try done.
  eapply sat_mono; [apply nutrition_tab_part|].
  intros r w3 H3. by eapply part_post_trans.
Qed.

Lemma main_cases w (Q : Result unit -> World -> Prop) :
  (is_authenticated (session w) = false -> Q (Val tt) w) ->
  (is_authenticated (session w) = true -> ui_button ui "Logout" = true ->
   Q Rerun {| session := cleared_session; heap := heap w; clock := clock w; log := log w |}) ->
  (is_authenticated (session w) = true -> ui_button ui "Logout" = false ->
   forall r w', part_post env ui w r w' -> Q r w') ->
  sat (main env ui) w Q.
Proof.
  intros Hout Hlogout Htabs. unfold main. sat_steps.
  destruct (is_authenticated (session w)); cbn [negb]; [|by apply sat_ret, Hout].
  sat_steps.
  destruct (ui_button ui "Logout"); [sat_steps; by apply Hlogout|].
  change (sat (generate_workout_button env ui ;;; current_workout_column env ;;;
               nutrition_tab env ui)%script w Q).
  eapply sat_mono; [apply tabs_part|]. by apply Htabs.
Qed.
End Parts.

(** ** What holds of every session the script reaches *)

(** A statement about the result and the world of a run, as a
    postcondition. *)
Ltac run_post m w :=
  cbv zeta; pattern (run m w).1, (run m w).2;
  match goal with |- ?Q _ _ => refine (proj1 (sat_run m w Q) _) end.

Lemma main_well_formed env ui w :
  well_keyed env -> plan_well_formed w -> plan_well_formed (run (main env ui) w).2.
Proof.
  intros Hk Hw. run_post (main env ui) w. apply main_cases.
  - done.
  - done.
  - intros _ _ r w' (_ & Hwf & _). auto.
Qed.




(** X20. A meal plan, once stored, survives every run of [main] but a
    logout: the session keeps the same days (only the meals of a day can
    be replaced, by a selection), whatever is calculated, generated or
    saved in the run. *)
Theorem stored_plan_survives_every_run env ui w :
  plan_truthy (current_meal_plan (session w)) = true ->
  ui_button ui "Logout" = false ->
  current_meal_plan (session (run (main env ui) w).2) = current_meal_plan (session w).
Proof.
  intros Hplan Hlogout. run_post (main env ui) w. apply main_cases.
  - done.
  - congruence.
  - intros _ _ r w' (_ & _ & _ & _ & _ & Hkept). by apply Hkept.
Qed.

(** ** The nutrition tab *)

(** X8. When "Calculate My Needs" is pressed and one of the three
    calculations raises, or the entered activity level is none of the
    five known ones, [calculate_nutrition] returns normally, shows "An
    error occurred: ..." as its last message, calls no meal generator and
    leaves the session and the store as they were. *)
Theorem failed_calculation_changes_nothing env ui w :
  ui_button ui "Calculate My Needs" = true ->
  (forall bmr tdee pn, ~ calculated env ui bmr tdee pn) ->
  let r := (run (calculate_nutrition env ui) w).1 in
  let w' := (run (calculate_nutrition env ui) w).2 in
  r = Val tt /\ session w' = session w /\ heap w' = heap w /\
  (exists msg, last (log w') = Some (StError ("An error occurred: " +:+ msg))) /\
  forall cal prot diet cuisine,
    Call_generate_meal_plan cal prot diet cuisine ∉ new_events w w'.
Proof.
  intros Hb Hnot. run_post (calculate_nutrition env ui) w.
  apply calculate_nutrition_outcomes.
  - congruence.
  - intros w1 msg _ _ Hs Hh Hl. repeat split; try done.
    + exists msg. cbn. apply last_snoc.
    + intros cal prot diet cuisine Hin.
      assert (Hl' : logged (fun e => calc_event e \/ exists m, e = StError m) w
                      (record (StError ("An error occurred: " +:+ msg)) w1)).
      { apply logged_record; [|by right; eexists].
        eapply logged_mono; [|exact Hl]. by left. }
      destruct (logged_new_events _ _ _ _ Hl' Hin) as [[]|[m [=]]].
  - intros w1 bmr tdee pn _ Hc. by destruct (Hnot bmr tdee pn).
Qed.

(** X9. When "Calculate My Needs" is pressed and the three calculations
    return, [calculate_nutrition] never ends in an exception and leaves
    in the session the entered profile and the targets: the calories are
    the TDEE less 500 for "Lose Weight", plus 300 for "Gain Muscle", the
    TDEE itself for any other goal; the protein is what
    [calculate_protein_needs] returned, and the BMR is kept. This holds
    whether or not a meal plan is then generated, found or displayed. *)
Theorem calculation_stores_profile_and_targets env ui w bmr tdee pn :
  ui_button ui "Calculate My Needs" = true ->
  calculated env ui bmr tdee pn ->
  let r := (run (calculate_nutrition env ui) w).1 in
  let w' := (run (calculate_nutrition env ui) w).2 in
  (forall e, r <> Exc e) /\
  user_profile (session w') = Some (entered_profile ui) /\
  nutritional_targets (session w') =
    Some {| t_calories :=
              (if decide (ui_goal ui = "Lose Weight") then tdee - 500
               else if decide (ui_goal ui = "Gain Muscle") then tdee + 300
               else tdee)%Q;
            t_protein := pn; t_bmr := bmr |}.
Proof.
  intros Hb Hc. run_post (calculate_nutrition env ui) w.
  apply calculate_nutrition_outcomes.
  - congruence.
  - intros w1 msg _ Hnot. by destruct (Hnot bmr tdee pn).
  - intros w1 bmr' tdee' pn' _ Hc' Hs Hh _.
    destruct (calculated_inj _ _ _ _ _ _ _ _ Hc Hc') as (-> & -> & ->).
    eapply sat_mono; [apply generate_if_missing_keeps|].
    intros r w2 ((_ & _ & Ht & Hu) & _). rewrite Hs in Ht, Hu. cbn in Ht, Hu.
    destruct r as [[]|e|]; cbn [handled]; by repeat split.
Qed.


(** X11. [display_meal_plan] replaces a meal only in a run in which the
    "Show alternatives" button of a slot of the plan and a "Select"
    button of that same slot both read [True]: when for every slot one
    of the two reads [False], the run ends without a rerun and leaves
    the session and the store as they were. *)
Theorem selection_needs_both_buttons env ui w :
  (forall day mt,
     ui_button ui (btn_key (ui_time ui (clock w)) day mt) = false \/
     forall a, ui_button ui (select_key (ui_time ui (clock w)) day mt a) = false) ->
  let r := (run (display_meal_plan env ui) w).1 in
  let w' := (run (display_meal_plan env ui) w).2 in
  r <> Rerun /\ session w' = session w /\ heap w' = heap w.
Proof.
  intros Hnot. run_post (display_meal_plan env ui) w.
  eapply sat_mono;
    [apply sat_conj; [apply display_meal_plan_sat|apply display_meal_plan_detail]|].
  intros r w' ((Hs & _ & Hr) & (_ & Hd)).
  destruct r as [[]|e|]; try done.
  destruct Hd as (day & mt & meal & a & (plan & l & meals & _ & _ & _ & _ & Hshow) & Hsel).
  destruct (Hnot day mt) as [H|H]; [congruence|]. by rewrite H in Hsel.
Qed.

(** X12. [display_meal_plan] calls [get_alternative_meals] only for a
    slot of the stored plan whose "Show alternatives" button reads
    [True], with that slot's meal type, the name of the meal the slot
    holds, and the restrictions and preferences of the stored profile --
    not those entered in the widgets of the current run. *)
Theorem alternatives_are_fetched_for_shown_slots env ui w mt tc tp diet cuisine current :
  Call_get_alternative_meals mt tc tp diet cuisine current
    ∈ new_events w (run (display_meal_plan env ui) w).2 ->
  (exists day meal, shown_slot ui w day mt meal /\ current = name meal) /\
  (exists p, user_profile (session w) = Some p /\
     diet = p_dietary_restrictions p /\ cuisine = p_cuisine_preferences p).
Proof.
  intros Hin. split.
  - pose proof (display_meal_plan_detail env ui w) as H. apply sat_run in H.
    destruct H as (Hl & _). apply (logged_new_events _ _ _ _ Hl Hin).
  - pose proof (display_meal_plan_sat env ui w) as H. apply sat_run in H.
    destruct H as (_ & Hl & _).
    destruct (logged_new_events _ _ _ _ Hl Hin) as (t & p & _ & Hp & _ & _ & -> & ->).
    by exists p.
Qed.

(** ** The workout tab *)

Lemma dict_set_new_key {V} k (v : V) d : k ∉ d.*1 -> (dict_set k v d).*1 = d.*1 ++ [k].
Proof.
  induction d as [|[k0 v0] d IH]; cbn [dict_set]; [done|].
  rewrite fmap_cons. intros Hk. apply not_elem_of_cons in Hk as [Hne Hk].
  destruct (decide (k0 = k)); [simpl in Hne; congruence|].
  by rewrite fmap_cons, IH.
Qed.

Lemma foldl_dict_set {V} (f : string -> V) l d0 :
  NoDup l -> (forall k, k ∈ l -> k ∉ d0.*1) ->
  let d := foldl (fun d k => dict_set k (f k) d) d0 l in
  d.*1 = d0.*1 ++ l /\
  (forall k, k ∈ l -> dict_get k d = Some (f k)) /\
  (forall k, k ∉ l -> dict_get k d = dict_get k d0).
Proof.
  revert d0. induction l as [|k l IH]; intros d0 Hnd Hfresh; simpl.
  - split; [by rewrite app_nil_r|]. split; [|done]. intros k H. by apply elem_of_nil in H.
  - apply NoDup_cons in Hnd as [Hk Hnd].
    destruct (IH (dict_set k (f k) d0) Hnd) as (IH1 & IH2 & IH3).
    { intros k' Hk'. rewrite dict_set_new_key by (apply Hfresh; left).
      rewrite elem_of_app, list_elem_of_singleton. intros [H| ->]; [|done].
      revert H. apply Hfresh. by right. }
    split; [|split].
    + rewrite IH1, dict_set_new_key by (apply Hfresh; left). by rewrite <- app_assoc.
    + intros k' [->|Hk']%elem_of_cons; [|by apply IH2].
      rewrite IH3 by done. apply dict_get_set_eq.
    + intros k' Hk'. apply not_elem_of_cons in Hk' as [Hne Hk'].
      rewrite IH3 by done. by apply dict_get_set_ne.
Qed.

(** X13. The days and muscle groups the workout tab collects. The two
    columns of checkboxes yield the checked days in the order of the
    week, none twice; the dictionary of muscle groups has exactly these
    days as its keys, in that order, each bound to that day's
    multiselect; and the "at least one muscle group" test of the button
    passes exactly when some selected day has a non-empty multiselect. *)
Theorem selected_days_and_groups ui :
  available_days ui = filter (fun day => ui_checkbox ui ("day_" +:+ day) = true) days /\
  NoDup (available_days ui) /\
  (muscle_groups ui).*1 = available_days ui /\
  (forall day, day ∈ available_days ui ->
     dict_get day (muscle_groups ui) = Some (ui_muscle_groups ui ("muscle_groups_" +:+ day))) /\
  (any_muscles (muscle_groups ui) = true <->
   exists day, day ∈ available_days ui /\ ui_muscle_groups ui ("muscle_groups_" +:+ day) <> []).
Proof.
  assert (Hfilter : available_days ui
            = filter (fun day => ui_checkbox ui ("day_" +:+ day) = true) days).
  { unfold available_days. by rewrite <- filter_app, take_drop. }
  assert (Hnd : NoDup (available_days ui)).
  { rewrite Hfilter. apply NoDup_filter.
    apply (bool_decide_unpack (NoDup days)). vm_compute. exact I. }
  destruct (foldl_dict_set (fun day => ui_muscle_groups ui ("muscle_groups_" +:+ day))
              (available_days ui) [] Hnd) as (Hkeys & Hget & _).
  { intros k _ H. by apply elem_of_nil in H. }
  fold (muscle_groups ui) in Hkeys, Hget. simpl in Hkeys.
  split; [done|]. split; [done|]. split; [done|]. split; [done|].
  unfold any_muscles. rewrite existsb_exists. split.
  - intros ([day mus] & Hin%list_elem_of_In & Hne). exists day. simpl in Hne.
    assert (Hday : day ∈ available_days ui).
    { rewrite <- Hkeys. apply list_elem_of_fmap. by exists (day, mus). }
    split; [done|].
    assert (Hd : dict_get day (muscle_groups ui) = Some mus).
    { apply dict_get_elem; [by rewrite Hkeys|done]. }
    rewrite (Hget _ Hday) in Hd. injection Hd as ->. by destruct mus.
  - intros (day & Hday & Hne).
    exists (day, ui_muscle_groups ui ("muscle_groups_" +:+ day)). split.
    + by apply list_elem_of_In, dict_get_Some_elem, Hget.
    + simpl. by destruct (ui_muscle_groups ui _).
Qed.

(** X14. A generation that fails is reported twice. When "Generate
    Workout Plan" is pressed with a day and a muscle group selected and
    a database session at hand, and no schedule is both generated and
    saved, the message of [generate_new_workout] is followed by "Could
    not generate workout plan. Please try different selections." of the
    button itself, and then the session is closed. *)
Theorem failed_generation_is_reported_twice env ui w db :
  ui_button ui "Generate Workout Plan" = true ->
  available_days ui <> [] ->
  any_muscles (muscle_groups ui) = true ->
  get_db env = Returns db ->
  (forall sched,
     generate_workout_plan env (ui_fitness_level ui) (ui_goals ui) (available_days ui)
       (ui_equipment ui) (ui_time_per_session ui) (muscle_groups ui) (exercise_library env)
       = Returns (Some sched) ->
     save_workout_schedule env (user_id (session w)) sched
       {| pref_fitness_level := ui_fitness_level ui; pref_goals := ui_goals ui;
          pref_equipment := ui_equipment ui;
          pref_time_per_session := ui_time_per_session ui;
          pref_muscle_groups := Some (muscle_groups ui) |} <> Returns true) ->
  exists before msg,
    new_events w (run (generate_workout_button env ui) w).2 =
    before ++ [StError msg;
               StError "Could not generate workout plan. Please try different selections.";
               Call_db_close].
Proof.
  intros Hb Hd Hm Hdb. unfold generate_workout_button. rewrite Hb.
  destruct (available_days ui) as [|d ds]; [done|]. rewrite Hm. cbn [negb].
  destruct (muscle_groups ui) as [|g mg]; [done|].
  unfold get_database, generate_new_workout, new_events. run_script. rewrite Hdb. cbn.
  destruct (generate_workout_plan env _ _ _ _ _ _ _) as [[sched|]|msg]; cbn;
    [destruct (save_workout_schedule env _ _ _) as [[]|msg] eqn:Hsave; cbn|..];
    intros Hnot; try (by destruct (Hnot sched));
    destruct (db_close env) as [[]|msg']; cbn;
    rewrite <- ?app_assoc; cbn [app]; rewrite drop_app_length.
  all: try (by eexists [_; _; _; _], _).
  all: try (by eexists [_; _; _], _).
  all: try (by eexists [_; _], _).
Qed.

(** X19. An exception of [get_latest_workout_schedule] is caught
    nowhere: in an authenticated run it closes the database session and
    ends the run of [main] right there, so that the nutrition tab is not
    run at all -- whatever is pressed in it. *)
Theorem latest_schedule_error_stops_the_run env ui w db e :
  is_authenticated (session w) = true ->
  ui_button ui "Logout" = false ->
  ui_button ui "Generate Workout Plan" = false ->
  get_db env = Returns db ->
  get_latest_workout_schedule env (user_id (session w)) = Raises e ->
  db_close env = Returns tt ->
  run (main env ui) w =
    (Exc e,
     record Call_db_close
       (record (Call_get_latest_workout_schedule (user_id (session w)))
          (record Call_get_db w))).
Proof.
  intros Hauth Hlogout Hgen Hdb Hlatest Hclose.
  unfold run, main, generate_workout_button, current_workout_column, get_database,
    try_except, try_finally, bind, call, emit, get_session, ret, raise.
  cbn. rewrite Hauth, Hlogout, Hgen. cbn. rewrite Hdb. cbn. rewrite Hlatest. cbn.
  rewrite Hclose. reflexivity.
Qed.

(** ** Saving the meal plan, and the helpers *)

(** Membership in a list that is written out. *)
Ltac in_literal H :=
  repeat (apply elem_of_cons in H as [H|H]; [try discriminate H|]);
  try (by apply elem_of_nil in H).

(** X15. What "Save Current Meal Plan" tells the user. The button never
    changes the session or the store. It shows "Meal plan saved
    successfully!", and no other success message, exactly when
    [save_meal_plan] was reached and returned a true value. It shows no
    message at all -- neither success nor error -- exactly when it is not
    pressed, or [get_current_user] returns no user, or [save_meal_plan]
    returns a false value: a save that fails this way is silent. *)
Theorem save_button_messages env ui w :
  let w' := (run (save_meal_plan_button env ui) w).2 in
  session w' = session w /\ heap w' = heap w /\
  (forall msg, StSuccess msg ∈ new_events w w' <->
     msg = "Meal plan saved successfully!" /\
     ui_button ui "Save Current Meal Plan" = true /\ save_returns env w true) /\
  ((forall e, e ∈ new_events w w' -> ~ is_message e) <->
   ui_button ui "Save Current Meal Plan" = false \/
   (exists db, get_db env = Returns db /\ get_current_user env = Returns None) \/
   save_returns env w false).
Proof.
  unfold save_returns, save_meal_plan_button, get_database, new_events.
  destruct (ui_button ui "Save Current Meal Plan") eqn:Hb.
  2: { cbn. rewrite drop_all. split_and!; try done.
       - intros msg. split; [intros H; by apply elem_of_nil in H|by intros (_ & ? & _)].
       - split; [by left|]. intros _ e H. by apply elem_of_nil in H. }
  run_script.
  destruct (get_db env) as [db|msg] eqn:Hdb; cbn.
  2: { rewrite <- ?app_assoc; cbn [app]; rewrite drop_app_length.
       split_and!; try done.
       - intros msg0. split; [intros H; in_literal H|].
         by intros (_ & _ & ? & ? & ? & ? & _).
       - split.
         + intros H. exfalso. apply (H (StError "Please try again in a few moments."));
             [set_solver|exact I].
         + intros [?|[(? & ? & _)|(? & ? & ? & ? & _)]]; done. }
  destruct (get_current_user env) as [[user|]|msg] eqn:Huser; cbn.
  - destruct (nutritional_targets (session w)) as [t|] eqn:Ht; cbn.
    + destruct (save_meal_plan env _ _ _ _) as [[]|msg] eqn:Hsave; cbn;
        destruct (db_close env) as [[]|msg']; cbn;
        rewrite <- ?app_assoc; cbn [app]; rewrite drop_app_length;
        (split; [done|]); (split; [done|]); split.
      all: try (intros msg0; split;
        [ intros H; in_literal H; try (injection H as <-; split; [done|]; split; [done|];
            by exists db, user, t)
        | intros (-> & _ & db0 & user0 & t0 & _ & [= <-] & [= <-] & Hs);
          try (rewrite Hsave in Hs; discriminate Hs); set_solver ]).
      all: split;
        [ intros H;
          try (right; right; by exists db, user, t);
          exfalso;
          first [ apply (H (StSuccess "Meal plan saved successfully!")); [set_solver|exact I]
                | apply (H (StError ("Error saving meal plan: " +:+ msg))); [set_solver|exact I] ]
        | intros [?|[(? & _ & ?)|(db0 & user0 & t0 & _ & [= <-] & [= <-] & Hs)]];
          try done; try (rewrite Hsave in Hs; discriminate Hs);
          intros e H; in_literal H; subst e; by intros [] ].
    + destruct (db_close env) as [[]|msg']; cbn;
        rewrite <- ?app_assoc; cbn [app]; rewrite drop_app_length;
        (split; [done|]); (split; [done|]); split.
      all: try (intros msg0; split;
        [ intros H; in_literal H
        | by intros (_ & _ & db0 & user0 & t0 & _ & _ & ? & _) ]).
      all: split;
        [ intros H; exfalso;
          apply (H (StError ("Error saving meal plan: " +:+ "TypeError"))); [set_solver|exact I]
        | intros [?|[(? & _ & ?)|(db0 & user0 & t0 & _ & _ & ? & _)]]; done ].
  - destruct (db_close env) as [[]|msg']; cbn;
      rewrite <- ?app_assoc; cbn [app]; rewrite drop_app_length;
      (split; [done|]); (split; [done|]); split.
    all: try (intros msg0; split;
      [ intros H; in_literal H
      | by intros (_ & _ & db0 & user0 & t0 & _ & ? & _) ]).
    all: split;
      [ intros _; right; left; by exists db
      | intros _ e H; in_literal H; subst e; by intros [] ].
  - destruct (db_close env) as [[]|msg']; cbn;
      rewrite <- ?app_assoc; cbn [app]; rewrite drop_app_length;
      (split; [done|]); (split; [done|]); split.
    all: try (intros msg0; split;
      [ intros H; in_literal H
      | by intros (_ & _ & db0 & user0 & t0 & _ & ? & _) ]).
    all: split;
      [ intros H; exfalso;
        apply (H (StError ("Error saving meal plan: " +:+ msg))); [set_solver|exact I]
      | intros [?|[(? & _ & ?)|(db0 & user0 & t0 & _ & ? & _)]]; done ].
Qed.

(** X16. [save_and_update_workout_schedule] never raises and never asks
    for a rerun, whatever its two collaborators do, and it leaves the
    session and the store alone. It returns a schedule only when
    [save_workout_schedule] returned a true value and
    [get_latest_workout_schedule] then returned that schedule, and it
    calls [get_latest_workout_schedule] exactly when the save returned a
    true value. *)
Theorem save_and_update_never_raises env save db uid sched prefs is_custom w :
  match run (save_and_update_workout_schedule env save db uid sched prefs is_custom) w with
  | (Val result, w') =>
      session w' = session w /\ heap w' = heap w /\
      (forall s, result = Some s ->
         save uid sched prefs is_custom = Returns true /\
         get_latest_workout_schedule env uid = Returns (Some s)) /\
      (Call_get_latest_workout_schedule uid ∈ new_events w w' <->
       save uid sched prefs is_custom = Returns true)
  | _ => False
  end.
Proof.
  unfold save_and_update_workout_schedule, new_events. run_script.
  destruct (save uid sched prefs is_custom) as [[]|msg]; cbn;
    [destruct (get_latest_workout_schedule env uid) as [latest|msg]; cbn|..];
    rewrite <- ?app_assoc; cbn [app]; rewrite drop_app_length;
    (split; [done|]); (split; [done|]);
    (split; [intros s Hs; try discriminate Hs; by subst|]);
    (split; [intros H; in_literal H; done|intros H; try discriminate H; set_solver]).
Qed.

(** ** The pages of the two display helpers *)

Lemma filter_all {A} (P : A -> Prop) `{!forall x, Decision (P x)} (l : list A) :
  Forall P l -> filter P l = l.
Proof.
  induction 1 as [|x l Hx _ IH]; [done|]. by rewrite filter_cons_True, IH.
Qed.

Lemma expanders_app page1 page2 :
  expanders (page1 ++ page2) = expanders page1 ++ expanders page2.
Proof. apply omap_app. Qed.

Lemma expanders_show_workout day workout :
  expanders (show_workout day workout) = [day +:+ "'s Workout"].
Proof.
  unfold show_workout, expanders. cbn [omap]. f_equal.
  induction (ld_exercises workout) as [|[ex|] l IH]; simpl; auto.
Qed.

(** X17. [display_workout_schedule] on a schedule shows one expander
    per day it goes through that has a workout in the schedule, in the
    order of the selected days; a selected day without a workout is
    skipped without a word, and a day of the schedule that is not
    selected is not shown. With no day selected every day of the
    schedule is shown, in the schedule's order. *)
Theorem only_selected_days_are_displayed s selected_days :
  expanders (display_workout_schedule (Some s) selected_days) =
    map (fun day => day +:+ "'s Workout")
        (filter (fun day => is_Some (dict_get day (ls_schedule s)))
                (display_days s selected_days)) /\
  expanders (display_workout_schedule (Some s) []) =
    map (fun day => day +:+ "'s Workout") (ls_schedule s).*1.
Proof.
  assert (Hdays : forall ds,
    expanders (flat_map (fun day =>
                 match dict_get day (ls_schedule s) with
                 | Some workout => show_workout day workout
                 | None => []
                 end) ds) =
    map (fun day => day +:+ "'s Workout")
        (filter (fun day => is_Some (dict_get day (ls_schedule s))) ds)).
  { induction ds as [|day ds IH]; [done|].
    cbn [flat_map]. rewrite expanders_app, IH, filter_cons.
    destruct (dict_get day (ls_schedule s)) as [workout|] eqn:Hday.
    - rewrite expanders_show_workout. rewrite decide_True by (by eexists). done.
    - rewrite decide_False by (by intros [? [=]]). done. }
  assert (Hhead : forall sel,
    expanders (display_workout_schedule (Some s) sel) =
    expanders (flat_map (fun day =>
                 match dict_get day (ls_schedule s) with
                 | Some workout => show_workout day workout
                 | None => []
                 end) (display_days s sel))) by reflexivity.
  split; rewrite Hhead, Hdays; [done|].
  cbn [display_days]. f_equal. apply filter_all. apply Forall_forall.
  intros day [[day' workout] [-> Hin]]%list_elem_of_fmap. simpl.
  by eapply dict_get_is_Some.
Qed.

(** The loop over the selected equipment in closed form. *)
Lemma show_equipment_closed by_equipment equipment :
  show_equipment by_equipment equipment =
  (flat_map (fun equip =>
       match dict_get equip by_equipment with
       | Some exercises =>
           ShWrite ("🔹 " +:+ equip +:+ " Exercises:")
           :: map (fun exercise => ShWrite ("  • " +:+ exercise)) exercises
       | None => []
       end) equipment,
   existsb (fun equip => bool_decide (is_Some (dict_get equip by_equipment))) equipment).
Proof.
  unfold show_equipment.
  assert (H : forall acc,
    foldl (fun (acc : list Shown * bool) equip =>
             match dict_get equip by_equipment with
             | Some exercises =>
                 (acc.1 ++ ShWrite ("🔹 " +:+ equip +:+ " Exercises:")
                        :: map (fun exercise => ShWrite ("  • " +:+ exercise)) exercises,
                  true)
             | None => acc
             end) acc equipment =
    (acc.1 ++ flat_map (fun equip =>
       match dict_get equip by_equipment with
       | Some exercises =>
           ShWrite ("🔹 " +:+ equip +:+ " Exercises:")
           :: map (fun exercise => ShWrite ("  • " +:+ exercise)) exercises
       | None => []
       end) equipment,
     acc.2 || existsb (fun equip => bool_decide (is_Some (dict_get equip by_equipment)))
                equipment)).
  { induction equipment as [|equip equipment IH]; intros [out flag]; cbn [foldl flat_map existsb].
    - simpl. by rewrite app_nil_r, orb_false_r.
    - rewrite IH. destruct (dict_get equip by_equipment) as [exs|]; simpl.
      + by rewrite <- app_assoc, orb_true_r.
      + done. }
  apply (H ([], false)).
Qed.

Lemma elem_of_flat_map {A B} (f : A -> list B) l y :
  y ∈ flat_map f l <-> exists x, x ∈ l /\ y ∈ f x.
Proof.
  rewrite list_elem_of_In, in_flat_map. split; intros (x & H1 & H2); exists x.
  - by rewrite !list_elem_of_In.
  - by rewrite <- !list_elem_of_In.
Qed.

(** X18. The "Exercises by Muscle Group" tab. An exercise is listed
    exactly when the library holds it, in some subgroup, under the
    selected fitness level and one of the selected kinds of equipment.
    For a subgroup, the warning about the level appears exactly when the
    subgroup has no entry for the selected level, and the note about the
    equipment exactly when it has one but none of the selected kinds of
    equipment is a key of it -- a kind that is a key with an empty list
    of exercises suppresses the note. *)
Theorem exercise_library_page library fitness_level equipment :
  (forall exercise,
     listed exercise (exercises_tab library fitness_level equipment) <->
     exists muscle_group subgroups subgroup exercises_dict by_equipment equip exercises,
       (muscle_group, subgroups) ∈ library /\ (subgroup, exercises_dict) ∈ subgroups /\
       dict_get fitness_level exercises_dict = Some by_equipment /\
       equip ∈ equipment /\ dict_get equip by_equipment = Some exercises /\
       exercise ∈ exercises) /\
  (forall subgroup exercises_dict,
     let page := show_subgroup fitness_level equipment subgroup exercises_dict in
     (ShWarning ("No exercises available for " +:+ fitness_level +:+ " level") ∈ page <->
      dict_get fitness_level exercises_dict = None) /\
     (ShInfo ("No exercises available for selected equipment at "
              +:+ fitness_level +:+ " level") ∈ page <->
      exists by_equipment,
        dict_get fitness_level exercises_dict = Some by_equipment /\
        forall equip, equip ∈ equipment -> dict_get equip by_equipment = None)).
Proof.
  assert (Hlines : forall by_equipment x,
    x ∈ (show_equipment by_equipment equipment).1 <->
    exists equip exercises,
      equip ∈ equipment /\ dict_get equip by_equipment = Some exercises /\
      (x = ShWrite ("🔹 " +:+ equip +:+ " Exercises:") \/
       exists exercise, exercise ∈ exercises /\ x = ShWrite ("  • " +:+ exercise))).
  { intros by_equipment x. rewrite show_equipment_closed. cbn [fst].
    rewrite elem_of_flat_map. split.
    - intros (equip & Hin & Hx).
      destruct (dict_get equip by_equipment) as [exs|] eqn:He; [|by apply elem_of_nil in Hx].
      exists equip, exs. split; [done|]. split; [done|].
      apply elem_of_cons in Hx as [->|Hx]; [by left|right].
      apply list_elem_of_fmap in Hx as (ex & -> & Hex). by exists ex.
    - intros (equip & exs & Hin & He & Hx). exists equip. split; [done|]. rewrite He.
      destruct Hx as [->|(ex & Hex & ->)]; [left|right].
      apply list_elem_of_fmap. by exists ex. }
  assert (Hflag : forall by_equipment,
    (show_equipment by_equipment equipment).2 = false <->
    forall equip, equip ∈ equipment -> dict_get equip by_equipment = None).
  { intros by_equipment. rewrite show_equipment_closed. cbn [snd].
    rewrite <- not_true_iff_false, existsb_exists. split.
    - intros Hno equip Hin. destruct (dict_get equip by_equipment) as [exs|] eqn:He; [|done].
      destruct Hno. exists equip. split; [by apply list_elem_of_In|].
      rewrite He. by apply bool_decide_eq_true.
    - intros Hnone (equip & Hin%list_elem_of_In & He). rewrite (Hnone _ Hin) in He.
      apply bool_decide_eq_true in He. by destruct He. }
  split.
  - intros exercise. unfold listed, exercises_tab. rewrite elem_of_flat_map. split.
    + intros ([mg subgroups] & Hmg & Hx).
      apply elem_of_cons in Hx as [[=]|Hx].
      apply elem_of_flat_map in Hx as ([sub d] & Hsub & Hx).
      unfold show_subgroup in Hx.
      apply elem_of_cons in Hx as [[=]|Hx].
      apply elem_of_app in Hx as [Hx|Hx].
      2: { apply list_elem_of_singleton in Hx. cbn in Hx. discriminate Hx. }
      destruct (dict_get fitness_level d) as [by_equipment|] eqn:Hlvl.
      2: { apply list_elem_of_singleton in Hx. discriminate Hx. }
      destruct (show_equipment by_equipment equipment) as [lines flag] eqn:Hshow.
      apply elem_of_app in Hx as [Hx|Hx].
      2: { destruct flag; [by apply elem_of_nil in Hx|].
           apply list_elem_of_singleton in Hx. discriminate Hx. }
      assert (Hx' : ShWrite ("  • " +:+ exercise)
                      ∈ (show_equipment by_equipment equipment).1) by (by rewrite Hshow).
      apply Hlines in Hx' as (equip & exs & Hequip & He & [Hh|(ex & Hex & Hb)]).
      { cbn in Hh. discriminate Hh. }
      injection Hb as Hb. apply (inj (String.app _)) in Hb as ->.
      by exists mg, subgroups, sub, d, by_equipment, equip, exs.
    + intros (mg & subgroups & sub & d & by_equipment & equip & exs &
              Hmg & Hsub & Hlvl & Hequip & He & Hex).
      exists (mg, subgroups). split; [done|]. right.
      apply elem_of_flat_map. exists (sub, d). split; [done|].
      unfold show_subgroup. right. apply elem_of_app. left. rewrite Hlvl.
      destruct (show_equipment by_equipment equipment) as [lines flag] eqn:Hshow.
      apply elem_of_app. left.
      assert (Hx : ShWrite ("  • " +:+ exercise)
                     ∈ (show_equipment by_equipment equipment).1).
      { apply Hlines. exists equip, exs. split; [done|]. split; [done|]. right. by exists exercise. }
      by rewrite Hshow in Hx.
  - intros subgroup d page. subst page. unfold show_subgroup.
    destruct (dict_get fitness_level d) as [by_equipment|] eqn:Hlvl.
    + destruct (show_equipment by_equipment equipment) as [lines flag] eqn:Hshow.
      assert (Hno_lines : forall x, (forall t, x <> ShWrite t) -> x ∉ lines).
      { intros x Hx Hin.
        assert (Hin' : x ∈ (show_equipment by_equipment equipment).1) by (by rewrite Hshow).
        apply Hlines in Hin' as (? & ? & _ & _ & [->|(? & _ & ->)]); by eapply Hx. }
      split.
      * split; [|done]. intros H.
        apply elem_of_cons in H as [[=]|H].
        apply elem_of_app in H as [H|H]; [|apply list_elem_of_singleton in H; discriminate H].
        apply elem_of_app in H as [H|H]; [by apply Hno_lines in H|].
        destruct flag; [by apply elem_of_nil in H|].
        apply list_elem_of_singleton in H. discriminate H.
      * specialize (Hflag by_equipment). rewrite Hshow in Hflag. cbn [snd] in Hflag. split.
        -- intros H. exists by_equipment. split; [done|]. apply Hflag.
           apply elem_of_cons in H as [[=]|H].
           apply elem_of_app in H as [H|H]; [|apply list_elem_of_singleton in H; discriminate H].
           apply elem_of_app in H as [H|H]; [by apply Hno_lines in H|].
           destruct flag; [by apply elem_of_nil in H|done].
        -- intros (by_equipment' & [= <-] & Hnone). apply Hflag in Hnone. rewrite Hnone.
           right. apply elem_of_app. left. apply elem_of_app. right. by left.
    + split.
      * split; [done|]. intros _. right. apply elem_of_app. left. by left.
      * split; [|by intros (? & ? & _)]. intros H.
        apply elem_of_cons in H as [[=]|H].
        apply elem_of_app in H as [H|H]; apply list_elem_of_singleton in H; discriminate H.
Qed.

(** * The added statements on the demo data *)

Lemma demo_well_keyed env :
  generate_meal_plan env = generate_meal_plan Demo.env -> well_keyed env.
Proof.
  intros Heq cal prot diet cuisine p. rewrite Heq.
  change (generate_meal_plan Demo.env cal prot diet cuisine)
    with (Engine.reported false
            (Engine.generate_meal_plan 1 1 Demo.meals cal prot diet cuisine)).
  unfold Engine.generate_meal_plan, Engine.generate_with.
  match goal with |- context [Engine.fill_days ?a ?b ?c ?d ?e ?f ?g] =>
    destruct (Engine.fill_days a b c d e f g) as [fl|plan] eqn:Hfill
  end; cbn [Engine.reported]; [done|].
  intros [= <-]. apply fill_days_inr in Hfill as [-> _].
  apply (bool_decide_unpack (NoDup Engine.week)). vm_compute. exact I.
Qed.



Lemma failed_calculation_changes_nothing_witness :
  ui_button Cases.ui_couch "Calculate My Needs" = true /\
  (forall bmr tdee pn, ~ calculated Demo.env Cases.ui_couch bmr tdee pn) /\
  (run (calculate_nutrition Demo.env Cases.ui_couch) Demo.world1).1 = Val tt /\
  session (run (calculate_nutrition Demo.env Cases.ui_couch) Demo.world1).2
    = session Demo.world1 /\
  heap (run (calculate_nutrition Demo.env Cases.ui_couch) Demo.world1).2 = heap Demo.world1 /\
  (exists msg, last (log (run (calculate_nutrition Demo.env Cases.ui_couch) Demo.world1).2)
               = Some (StError ("An error occurred: " +:+ msg))) /\
  forall cal prot diet cuisine,
    Call_generate_meal_plan cal prot diet cuisine
      ∉ new_events Demo.world1 (run (calculate_nutrition Demo.env Cases.ui_couch) Demo.world1).2.
Proof.
  assert (Hb : ui_button Cases.ui_couch "Calculate My Needs" = true) by reflexivity.
  assert (Hnot : forall bmr tdee pn, ~ calculated Demo.env Cases.ui_couch bmr tdee pn).
  { intros bmr tdee pn (_ & (factor & Hf & _) & _). vm_compute in Hf. discriminate Hf. }
  split; [done|]. split; [done|].
  exact (failed_calculation_changes_nothing Demo.env Cases.ui_couch Demo.world1 Hb Hnot).
Defined.

Lemma calculation_stores_profile_and_targets_witness :
  ui_button Demo.ui_vegan "Calculate My Needs" = true /\
  calculated Demo.env Demo.ui_vegan 1600 (1600 * 1.55) (2 * 70) /\
  (forall e, (run (calculate_nutrition Demo.env Demo.ui_vegan) Demo.world1).1 <> Exc e) /\
  user_profile (session (run (calculate_nutrition Demo.env Demo.ui_vegan) Demo.world1).2)
    = Some (entered_profile Demo.ui_vegan) /\
  nutritional_targets (session (run (calculate_nutrition Demo.env Demo.ui_vegan) Demo.world1).2)
    = Some {| t_calories :=
                (if decide (ui_goal Demo.ui_vegan = "Lose Weight") then 1600 * 1.55 - 500
                 else if decide (ui_goal Demo.ui_vegan = "Gain Muscle") then 1600 * 1.55 + 300
                 else 1600 * 1.55)%Q;
              t_protein := (2 * 70)%Q; t_bmr := 1600 |}.
Proof.
  assert (Hb : ui_button Demo.ui_vegan "Calculate My Needs" = true) by reflexivity.
  assert (Hc : calculated Demo.env Demo.ui_vegan 1600 (1600 * 1.55) (2 * 70)).
  { split; [reflexivity|]. split; [|reflexivity]. exists 1.55%Q. split; reflexivity. }
  split; [done|]. split; [done|].
  exact (calculation_stores_profile_and_targets Demo.env Demo.ui_vegan Demo.world1
           1600 (1600 * 1.55) (2 * 70) Hb Hc).
Defined.


Lemma selection_needs_both_buttons_witness :
  ui_button Cases.ui_select_only
    (select_key (ui_time Cases.ui_select_only (clock Demo.small_world))
       "Monday" "Breakfast" "Tofu Scramble") = true /\
  (run (display_meal_plan Demo.env Cases.ui_select_only) Demo.small_world).1 <> Rerun /\
  session (run (display_meal_plan Demo.env Cases.ui_select_only) Demo.small_world).2
    = session Demo.small_world /\
  heap (run (display_meal_plan Demo.env Cases.ui_select_only) Demo.small_world).2
    = heap Demo.small_world.
Proof.
  split; [reflexivity|].
  apply (selection_needs_both_buttons Demo.env Cases.ui_select_only Demo.small_world).
  intros day mt. left. reflexivity.
Defined.

Lemma alternatives_are_fetched_for_shown_slots_witness :
  Call_get_alternative_meals "Breakfast" (2400 / 3) (150 / 3) ["None"] ["Any"] "Oatmeal Bowl"
    ∈ new_events Demo.small_world (run (display_meal_plan Demo.env Demo.ui_all) Demo.small_world).2 /\
  (exists day meal,
     shown_slot Demo.ui_all Demo.small_world day "Breakfast" meal /\
     "Oatmeal Bowl" = name meal) /\
  (exists p, user_profile (session Demo.small_world) = Some p /\
     ["None"] = p_dietary_restrictions p /\ ["Any"] = p_cuisine_preferences p).
Proof.
  assert (Hin : Call_get_alternative_meals "Breakfast" (2400 / 3) (150 / 3) ["None"] ["Any"]
                  "Oatmeal Bowl"
                ∈ new_events Demo.small_world
                    (run (display_meal_plan Demo.env Demo.ui_all) Demo.small_world).2).
  { apply (list_elem_of_lookup_2 _ 0%nat). vm_compute. reflexivity. }
  split; [done|].
  exact (alternatives_are_fetched_for_shown_slots Demo.env Demo.ui_all Demo.small_world
           _ _ _ _ _ _ Hin).
Defined.

Lemma failed_generation_is_reported_twice_witness :
  ui_button Cases.ui_monday "Generate Workout Plan" = true /\
  available_days Cases.ui_monday = ["Monday"] /\
  any_muscles (muscle_groups Cases.ui_monday) = true /\
  exists before msg,
    new_events Demo.world0 (run (generate_workout_button Cases.env_no_workout Cases.ui_monday)
                              Demo.world0).2 =
    before ++ [StError msg;
               StError "Could not generate workout plan. Please try different selections.";
               Call_db_close].
Proof.
  split; [reflexivity|]. split; [vm_compute; reflexivity|]. split; [vm_compute; reflexivity|].
  apply (failed_generation_is_reported_twice Cases.env_no_workout Cases.ui_monday
           Demo.world0 DbSession).
  - reflexivity.
  - vm_compute. discriminate.
  - vm_compute. reflexivity.
  - reflexivity.
  - intros sched H. discriminate H.
Defined.

Lemma latest_schedule_error_stops_the_run_witness :
  ui_button Cases.ui_calculate "Calculate My Needs" = true /\
  run (main Cases.env_no_latest Cases.ui_calculate) Demo.world0 =
    (Exc "no such table",
     record Call_db_close
       (record (Call_get_latest_workout_schedule (user_id (session Demo.world0)))
          (record Call_get_db Demo.world0))).
Proof.
  split; [reflexivity|].
  by apply (latest_schedule_error_stops_the_run Cases.env_no_latest Cases.ui_calculate
              Demo.world0 DbSession "no such table").
Defined.

Lemma stored_plan_survives_every_run_witness :
  plan_truthy (current_meal_plan (session Demo.world1)) = true /\
  ui_button Demo.ui_vegan "Calculate My Needs" = true /\
  current_meal_plan (session (run (main Demo.env Demo.ui_vegan) Demo.world1).2)
    = current_meal_plan (session Demo.world1).
Proof.
  split; [vm_compute; reflexivity|]. split; [reflexivity|].
  apply (stored_plan_survives_every_run Demo.env Demo.ui_vegan Demo.world1).
  - vm_compute. reflexivity.
  - reflexivity.
Defined.
